(** * kikuchipy: dictionary indexing and the normalized dot product metric

    A shallow embedding of

    - [kikuchipy/indexing/_dictionary_indexing.py]
      ([_dictionary_indexing], [_match_chunk]), and
    - [kikuchipy/indexing/similarity_metrics/_normalized_dot_product.py]
      ([NormalizedDotProductMetric] and its numba kernels),

    together with the few NumPy and Dask array operations they call.

    Floating-point numbers are IEEE 754 binary floats in the executable
    specification of the Standard Library ([SpecFloat]): a NumPy dtype
    fixes the precision and the exponent range, and every operation rounds
    to nearest even, as the hardware does.  Where the distance of two
    floats is bounded, a finite float [m * 2 ^ e] is read as a rational
    number.  Python integers are [Z].
    Exceptions and the order in which dictionary chunks are touched are
    explicit: a computation is a function from the trace so far to the new
    trace and either an exception or a value. *)

From Stdlib Require Import ZArith List Bool Lia.
From Stdlib Require Import QArith Qabs Qpower Lqa.
From Stdlib Require Import Floats.
From Stdlib Require Import Permutation.
Import ListNotations.
Open Scope Z_scope.

Set Warnings "-inexact-float".

(* ================================================================== *)
(** * Python: exceptions, the trace of chunk accesses, integers *)

Module Py.

(** The exceptions the modelled code can raise.  [ConfigurationError] is
    the class the specification names for malformed arguments. *)
Inductive exn : Type :=
| ConfigurationError
| ZeroDivisionError
| IndexError
| ValueError.

(** What the driver does to the dictionary, in order:
    [Sliced start stop] is [dictionary[start:stop]] being taken (and
    computed when lazy); [Matched n keep_n] is [_match_chunk] preparing
    a chunk of [n] simulated patterns and matching it with that
    [keep_n]; [Merged] is one merge of a chunk into the running
    arrays. *)
Inductive event : Type :=
| Sliced (start stop : Z)
| Matched (n : nat) (keep_n : Z)
| Merged.

Definition trace := list event.

Definition M (A : Type) : Type := trace -> trace * (exn + A).

Definition ret {A} (a : A) : M A := fun t => (t, inr a).

Definition bind {A B} (m : M A) (k : A -> M B) : M B :=
  fun t =>
    match m t with
    | (t', inl e) => (t', inl e)
    | (t', inr a) => k a t'
    end.

Definition raise {A} (e : exn) : M A := fun t => (t, inl e).

Definition tell (ev : event) : M unit := fun t => (t ++ [ev], inr tt).

(** Run a computation from the empty trace. *)
Definition run {A} (m : M A) : trace * (exn + A) := m [].

(** [a // b] on integers: floor division, [ZeroDivisionError] on a zero
    divisor.  [Z.div] rounds towards minus infinity like Python. *)
Definition floordiv (a b : Z) : M Z :=
  if b =? 0 then raise ZeroDivisionError else ret (a / b).

(** [[x] * n]: the empty list when [n <= 0]. *)
Definition list_mul {A} (x : A) (n : Z) : list A := repeat x (Z.to_nat n).

(** A slice bound as [slice.indices] clips it to a sequence of length
    [len]. *)
Definition clip_index (len i : Z) : Z :=
  if i <? 0 then Z.max (i + len) 0 else Z.min i len.

(** [l[start:stop]]. *)
Definition slice {A} (l : list A) (start stop : Z) : list A :=
  let len := Z.of_nat (length l) in
  let a := clip_index len start in
  let b := clip_index len stop in
  firstn (Z.to_nat (b - a)) (skipn (Z.to_nat a) l).

(** [for x in xs: acc = body(acc, x)]. *)
Fixpoint for_each {A B} (xs : list A) (body : B -> A -> M B) (acc : B) : M B :=
  match xs with
  | [] => ret acc
  | x :: xs' => bind (body acc x) (for_each xs' body)
  end.

End Py.

Declare Scope py_scope.
Delimit Scope py_scope with py.
Notation "x <- m ;; k" := (Py.bind m (fun x => k))
  (at level 100, m at next level, right associativity) : py_scope.
Notation "' p <- m ;; k" := (Py.bind m (fun p => k))
  (at level 100, p pattern, m at next level, right associativity) : py_scope.
Open Scope py_scope.

(* ================================================================== *)
(** * NumPy: dtypes, IEEE arithmetic and the array functions used *)

Module Numpy.

(** A floating-point dtype: the mantissa's bits (the implicit one
    included) and the exponent of the infinities. *)
Record dtype : Type := { prec : Z; emax : Z }.

Definition float32 : dtype := {| prec := 24; emax := 128 |}.
Definition float64 : dtype := {| prec := 53; emax := 1024 |}.

Definition scalar := spec_float.

Section Arithmetic.
Variable t : dtype.

Definition add : scalar -> scalar -> scalar := SFadd (prec t) (emax t).
Definition mul : scalar -> scalar -> scalar := SFmul (prec t) (emax t).
Definition div : scalar -> scalar -> scalar := SFdiv (prec t) (emax t).
Definition sqrt : scalar -> scalar := SFsqrt (prec t) (emax t).

(** A Python integer as a scalar of the dtype. *)
Definition of_int (z : Z) : scalar :=
  binary_normalize (prec t) (emax t) z 0 false.

(** [x.astype(dtype)] on one value: round to the dtype. *)
Definition astype (x : scalar) : scalar :=
  match x with
  | S754_finite s m e => binary_round (prec t) (emax t) s m e
  | _ => x
  end.

(** [np.square], elementwise. *)
Definition square (v : list scalar) : list scalar :=
  map (fun x => mul x x) v.

(** [np.sum] of a one-dimensional array as numba compiles it: one
    accumulator of the array's dtype, starting at zero, the elements
    added in index order. *)
Definition sum (v : list scalar) : scalar :=
  fold_left add v (of_int 0).

(** [v / s]: an array divided by a scalar, elementwise.  The division
    is IEEE division: a zero divisor raises nothing. *)
Definition div_scalar (v : list scalar) (s : scalar) : list scalar :=
  map (fun x => div x s) v.

(** [z * v]: a Python integer times an array, elementwise. *)
Definition int_mul (z : Z) (v : list scalar) : list scalar :=
  map (mul (of_int z)) v.
End Arithmetic.

Definition is_nan (x : scalar) : bool :=
  match x with S754_nan => true | _ => false end.

Definition is_finite (x : scalar) : bool :=
  match x with S754_zero _ | S754_finite _ _ _ => true | _ => false end.

(** The order NumPy sorts by: [<] on numbers, NaN after every number. *)
Definition sort_lt (x y : scalar) : bool :=
  SFltb x y || (negb (is_nan x) && is_nan y).

(** [np.cumsum] of a list of integers. *)
Fixpoint cumsum_from (acc : Z) (l : list Z) : list Z :=
  match l with
  | [] => []
  | x :: r => (acc + x) :: cumsum_from (acc + x) r
  end.

Definition cumsum (l : list Z) : list Z := cumsum_from 0 l.

(** [np.zeros((rows, cols))] and [np.full((rows, cols), v)]: a negative
    dimension is a [ValueError]. *)
Definition full {A} (rows : nat) (cols : Z) (v : A) : Py.M (list (list A)) :=
  if cols <? 0 then Py.raise Py.ValueError
  else Py.ret (repeat (repeat v (Z.to_nat cols)) rows).

(** [a[-1]], read and written; an empty array has no last element. *)
Definition get_last (a : list Z) : Py.M Z :=
  match rev a with
  | [] => Py.raise Py.IndexError
  | x :: _ => Py.ret x
  end.

Definition set_last (a : list Z) (v : Z) : Py.M (list Z) :=
  match rev a with
  | [] => Py.raise Py.IndexError
  | _ :: r => Py.ret (rev (v :: r))
  end.

(** Stable insertion of a keyed position into a list sorted by key. *)
Fixpoint insert_key (p : scalar * nat) (l : list (scalar * nat)) : list (scalar * nat) :=
  match l with
  | [] => [p]
  | q :: r => if sort_lt (fst q) (fst p) then q :: insert_key p r else p :: q :: r
  end.

Fixpoint enumerate_from {A} (i : nat) (l : list A) : list (A * nat) :=
  match l with
  | [] => []
  | x :: r => (x, i) :: enumerate_from (S i) r
  end.

(** [np.argsort(v)]: the positions of [v] in ascending order of value.
    Equal values keep their order here; NumPy's default sort leaves the
    order among equal values open. *)
Definition argsort (v : list scalar) : list nat :=
  map snd (fold_right insert_key [] (enumerate_from 0 v)).

(** [np.hstack((a, b))] of two matrices: rows are concatenated pairwise;
    a different number of rows is a [ValueError]. *)
Fixpoint hstack_rows {A} (a b : list (list A)) : option (list (list A)) :=
  match a, b with
  | [], [] => Some []
  | x :: a', y :: b' =>
      match hstack_rows a' b' with
      | Some r => Some ((x ++ y) :: r)
      | None => None
      end
  | _, _ => None
  end.

Definition hstack {A} (a b : list (list A)) : Py.M (list (list A)) :=
  match hstack_rows a b with
  | Some r => Py.ret r
  | None => Py.raise Py.ValueError
  end.

(** [np.take_along_axis(a, idx, axis=1)] on one row. *)
Definition take {A} (d : A) (row : list A) (idx : list nat) : list A :=
  map (fun i => nth i row d) idx.

Definition take_along_axis {A} (d : A) (a : list (list A)) (idx : list (list nat))
  : list (list A) :=
  map (fun '(row, ix) => take d row ix) (combine a idx).

(** [a.reshape((a.shape[0], -1))] of a batch.  Patterns are flat lists
    here, so the values do not change; what remains is the failure: for
    an array without rows no size can be inferred for the second axis.
    The exception is NumPy's [ValueError]; a lazy array fails in the same
    place with an exception of its own library. *)
Definition flatten_rows {A} (a : list (list A)) : Py.M (list (list A)) :=
  match a with
  | [] => Py.raise Py.ValueError
  | _ :: _ => Py.ret a
  end.

(** [a.reshape((-1, k))] of a matrix, in row-major order.  No such shape
    exists when [k <= 0] or when [k] does not divide the number of
    elements.  The exception is NumPy's [ValueError]; for a lazy array
    the class is its library's, and the failure may wait until the array
    is computed, which [_dictionary_indexing] does right after
    [_match_chunk] returns. *)
Fixpoint regroup {A} (k n : nat) (l : list A) : list (list A) :=
  match n with
  | O => []
  | S n' => firstn k l :: regroup k n' (skipn k l)
  end.

Definition reshape_rows {A} (k : Z) (a : list (list A)) : Py.M (list (list A)) :=
  let flat := concat a in
  let size := Z.of_nat (length flat) in
  if k <=? 0 then Py.raise Py.ValueError
  else if size mod k =? 0
       then Py.ret (regroup (Z.to_nat k) (Z.to_nat (size / k)) flat)
       else Py.raise Py.ValueError.

End Numpy.

(* ================================================================== *)
(** * Dask: [topk] and [argtopk] along the last axis *)

Module Dask.

Definition lastn {A} (n : nat) (l : list A) : list A :=
  skipn (length l - n) l.

(** [row.argtopk(k)]: for [k > 0] the positions of the [k] largest
    values, the largest first; for [k < 0] the positions of the [-k]
    smallest, the smallest first.  When [|k|] is at least the length the
    whole row is returned, sorted the same way. *)
Definition argtopk (k : Z) (row : list Numpy.scalar) : list nat :=
  let order := Numpy.argsort row in
  if 0 <? k then rev (lastn (Z.to_nat k) order)
  else firstn (Z.to_nat (- k)) order.

(** [row.topk(k)]: the values at those positions. *)
Definition topk (k : Z) (row : list Numpy.scalar) : list Numpy.scalar :=
  Numpy.take S754_nan row (argtopk k row).

End Dask.

(* ================================================================== *)
(** * Similarity metrics *)

(** A flattened pattern: one intensity per pixel. *)
Definition pattern1d := list Numpy.scalar.

(** A batch of patterns: one flattened pattern per row. *)
Definition batch := list pattern1d.

(** The part of [SimilarityMetric] that [_dictionary_indexing] and
    [_match_chunk] use.  The base class is not among the files of the
    repository at hand, so a metric is a parameter of the driver: any
    record of this type can be passed.  [metric_match] is the method
    [match].  The methods are functions: a metric that raises (on
    patterns of different pixel counts, say) is outside this model. *)
Record SimilarityMetric : Type := {
  sign : Z;
  dtype : Numpy.dtype;
  prepare_experimental : batch -> batch;
  prepare_dictionary : batch -> batch;
  metric_match : batch -> batch -> list (list Numpy.scalar)
}.

Module NormalizedDotProduct.

Section Generic.
Variable t : Numpy.dtype.

(** [_normalize_pattern1d_float32] and [_normalize_pattern1d_float64]:
    the two kernels have the same body and differ in the dtype of
    their signature only.
<<
    pattern_norm = np.sqrt(np.sum(np.square(pattern)))
    return pattern / pattern_norm
>> *)
Definition _normalize_pattern1d (pattern : pattern1d) : pattern1d :=
  let pattern_norm := Numpy.sqrt t (Numpy.sum t (Numpy.square t pattern)) in
  Numpy.div_scalar t pattern pattern_norm.

(** [_prepare_simulated_patterns1d_float32/64]: every row of the
    result is the normalized row of the input. *)
Definition _prepare_simulated_patterns1d (sim : batch) : batch :=
  map _normalize_pattern1d sim.

(** [patterns[:, signal_mask]] with a boolean mask: the columns where
    the mask is set.  [None] is the integer placeholder of an unset
    mask. *)
Fixpoint select_columns {A} (mask : list bool) (row : list A) : list A :=
  match mask, row with
  | b :: mask', x :: row' =>
      if b then x :: select_columns mask' row' else select_columns mask' row'
  | _, _ => []
  end.

Definition apply_mask (signal_mask : option (list bool)) (patterns : batch) : batch :=
  match signal_mask with
  | None => patterns
  | Some m => map (select_columns m) patterns
  end.

(** [prepare_all_experimental]: cast, flatten, mask, and divide every
    row by its norm.  Rechunking changes no value.  The sum over the
    pixel axis is taken in index order. *)
Definition prepare_all_experimental (signal_mask : option (list bool))
  (patterns : batch) : batch :=
  let patterns := map (map (Numpy.astype t)) patterns in
  let patterns := apply_mask signal_mask patterns in
  map (fun row =>
         let patterns_norm := Numpy.sqrt t (Numpy.sum t (Numpy.square t row)) in
         Numpy.div_scalar t row patterns_norm)
      patterns.

(** [prepare_chunk_simulated]. *)
Definition prepare_chunk_simulated (signal_mask : option (list bool))
  (patterns : batch) : batch :=
  _prepare_simulated_patterns1d (apply_mask signal_mask patterns).

(** [compare]: the contraction over the pixel axis, one dot product
    for every pair of an experimental and a simulated pattern, the
    products added in index order.  The two patterns have the same
    number of pixels. *)
Definition dot (x y : pattern1d) : Numpy.scalar :=
  Numpy.sum t (map (fun '(a, b) => Numpy.mul t a b) (combine x y)).

Definition compare (experimental simulated : batch) : list (list Numpy.scalar) :=
  map (fun e => map (dot e) simulated) experimental.
End Generic.

Definition _normalize_pattern1d_float32 := _normalize_pattern1d Numpy.float32.
Definition _normalize_pattern1d_float64 := _normalize_pattern1d Numpy.float64.

Definition _prepare_simulated_patterns1d_float32 :=
  _prepare_simulated_patterns1d Numpy.float32.
Definition _prepare_simulated_patterns1d_float64 :=
  _prepare_simulated_patterns1d Numpy.float64.

(** Modelled from the spec: the base class [SimilarityMetric], which
    maps [prepare_experimental], [prepare_dictionary] and [match] to the
    methods of the subclass and holds [sign], is missing.  Section 4.1
    has them prepare (mask and normalize) the two pattern sets and
    compare them, and section 3 gives the normalized dot product the
    sign +1. *)
Definition metric (t : Numpy.dtype) (signal_mask : option (list bool))
  : SimilarityMetric :=
  {| sign := 1;
     dtype := t;
     prepare_experimental := prepare_all_experimental t signal_mask;
     prepare_dictionary := prepare_chunk_simulated t signal_mask;
     metric_match := compare t |}.

End NormalizedDotProduct.

(* ================================================================== *)
(** * The dictionary indexing driver *)

Module DictionaryIndexing.

(** The two properties of the returned crystal map that the driver
    computes itself.  The rotations are the dictionary's rotations at
    [simulation_indices], and the coordinates depend on the navigation
    shape and the step sizes only. *)
Record xmap : Type := {
  scores : list (list Numpy.scalar);
  simulation_indices : list (list Z)
}.

(** [_match_chunk].
<<
    simulated = metric.prepare_dictionary(simulated)
    similarities = metric.match(experimental, simulated)
    simulation_indices = similarities.argtopk(keep_n, axis=-1)
    scores = similarities.topk(keep_n, axis=-1)
    out_shape = (-1, keep_n)
    simulation_indices = simulation_indices.reshape(out_shape)
    scores = scores.reshape(out_shape)
>> *)
Definition _match_chunk (metric : SimilarityMetric)
  (experimental simulated : batch) (keep_n : Z)
  : Py.M (list (list Z) * list (list Numpy.scalar)) :=
  let simulated := prepare_dictionary metric simulated in
  let similarities := metric_match metric experimental simulated in
  _ <- Py.tell (Py.Matched (length simulated) keep_n) ;;
  let simulation_indices :=
    map (fun row => map Z.of_nat (Dask.argtopk keep_n row)) similarities in
  let scores := map (Dask.topk keep_n) similarities in
  simulation_indices <- Numpy.reshape_rows keep_n simulation_indices ;;
  scores <- Numpy.reshape_rows keep_n scores ;;
  Py.ret (simulation_indices, scores).

(** The chunk boundaries of the multi-chunk path.
<<
    chunk_starts = np.cumsum([0] + [n_per_iteration] * (n_iterations - 1))
    chunk_ends = np.cumsum([n_per_iteration] * n_iterations)
    chunk_ends[-1] = max(chunk_ends[-1], dictionary_size)
>>
    The result is [zip(chunk_starts, chunk_ends)]. *)
Definition chunk_starts (n_per_iteration n_iterations : Z) : list Z :=
  Numpy.cumsum ([0] ++ Py.list_mul n_per_iteration (n_iterations - 1)).

Definition chunk_ends (n_per_iteration n_iterations : Z) : list Z :=
  Numpy.cumsum (Py.list_mul n_per_iteration n_iterations).

Definition chunk_bounds (dictionary_size n_per_iteration n_iterations : Z)
  : Py.M (list (Z * Z)) :=
  let starts := chunk_starts n_per_iteration n_iterations in
  let ends := chunk_ends n_per_iteration n_iterations in
  last_end <- Numpy.get_last ends ;;
  ends <- Numpy.set_last ends (Z.max last_end dictionary_size) ;;
  Py.ret (combine starts ends).

(** One turn of the loop over the chunks: slice, match, shift the
    indices by [start], and merge into the running arrays.
<<
    all_scores = np.hstack((scores, scores_i))
    all_simulation_indices = np.hstack((simulation_indices, simulation_indices_i))
    best_indices = np.argsort(negative_sign * all_scores, axis=1)[:, :keep_n]
    scores = np.take_along_axis(all_scores, best_indices, axis=1)
    simulation_indices = np.take_along_axis(all_simulation_indices, best_indices, axis=1)
>> *)
Definition merge_chunk (metric : SimilarityMetric)
  (experimental dictionary : batch) (keep_n : Z)
  (acc : xmap) (bounds : Z * Z) : Py.M xmap :=
  let '(start, stop) := bounds in
  let negative_sign := - sign metric in
  _ <- Py.tell (Py.Sliced start stop) ;;
  let simulated := Py.slice dictionary start stop in
  '(simulation_indices_i, scores_i) <-
    _match_chunk metric experimental simulated (Z.min keep_n (stop - start)) ;;
  let simulation_indices_i := map (map (fun i => i + start)) simulation_indices_i in
  all_scores <- Numpy.hstack (scores acc) scores_i ;;
  all_simulation_indices <-
    Numpy.hstack (simulation_indices acc) simulation_indices_i ;;
  let best_indices :=
    map (fun row =>
           Py.slice (Numpy.argsort (Numpy.int_mul (dtype metric) negative_sign row))
                    0 keep_n)
        all_scores in
  _ <- Py.tell Py.Merged ;;
  Py.ret {| scores := Numpy.take_along_axis S754_nan all_scores best_indices;
            simulation_indices :=
              Numpy.take_along_axis 0 all_simulation_indices best_indices |}.

(** The [else] branch of [_dictionary_indexing], with [n_iterations] an
    argument.  [experimental] is prepared already and [keep_n] is
    clamped already. *)
Definition multi_chunk_path (metric : SimilarityMetric)
  (experimental dictionary : batch) (n_experimental : nat)
  (keep_n n_per_iteration n_iterations : Z) : Py.M xmap :=
  let dictionary_size := Z.of_nat (length dictionary) in
  simulation_indices <- Numpy.full n_experimental keep_n 0 ;;
  scores <- Numpy.full n_experimental keep_n
              (Numpy.of_int (dtype metric) (sign metric)) ;;
  bounds <- chunk_bounds dictionary_size n_per_iteration n_iterations ;;
  Py.for_each bounds (merge_chunk metric experimental dictionary keep_n)
    {| scores := scores; simulation_indices := simulation_indices |}.

(** The [if] branch: one call of [_match_chunk] on the whole
    dictionary. *)
Definition single_pass (metric : SimilarityMetric)
  (experimental dictionary : batch) (keep_n : Z) : Py.M xmap :=
  '(simulation_indices, scores) <-
    _match_chunk metric experimental dictionary keep_n ;;
  Py.ret {| scores := scores; simulation_indices := simulation_indices |}.

(** [_dictionary_indexing], up to the arrays [scores] and
    [simulation_indices] that it stores in the returned map.  The
    information message before the branch and the coordinate arrays after
    it read the crystal map of the dictionary, the navigation shape and
    the step sizes; they take no part in the matching and are left
    out. *)
Definition _dictionary_indexing (experimental : batch)
  (experimental_nav_shape : list nat) (dictionary : batch)
  (metric : SimilarityMetric) (keep_n n_per_iteration : Z) : Py.M xmap :=
  let dictionary_size := Z.of_nat (length dictionary) in
  let n_experimental := fold_right Nat.mul 1%nat experimental_nav_shape in
  let keep_n := Z.min keep_n dictionary_size in
  n_iterations <- Py.floordiv dictionary_size n_per_iteration ;;
  let experimental := prepare_experimental metric experimental in
  dictionary <- Numpy.flatten_rows dictionary ;;
  if dictionary_size =? n_per_iteration
  then single_pass metric experimental dictionary keep_n
  else multi_chunk_path metric experimental dictionary n_experimental
         keep_n n_per_iteration n_iterations.

End DictionaryIndexing.

(* ================================================================== *)
(** * Predicates the statements below are written with *)

Module Spec.

(** [tiles a b l]: the half-open ranges of [l] are non-empty, the first
    starts at [a], each starts where the one before ends, and the last
    ends at [b]. *)
Inductive tiles : Z -> Z -> list (Z * Z) -> Prop :=
| tiles_last (a b : Z) : a < b -> tiles a b [(a, b)]
| tiles_next (a m b : Z) (l : list (Z * Z)) :
    a < m -> tiles m b l -> tiles a b ((a, m) :: l).

(** The dictionary rows of the slice [dictionary[start:stop]], for
    [0 <= start]. *)
Definition rows_of (bounds : Z * Z) : list Z :=
  map (fun i => fst bounds + Z.of_nat i)
      (seq 0 (Z.to_nat (snd bounds - fst bounds))).

(** [unconfigured m]: whatever the trace so far, [m] does not end in a
    [ConfigurationError]. *)
Definition unconfigured {A} (m : Py.M A) : Prop :=
  forall t, snd (m t) <> inl Py.ConfigurationError.

(** The slices of the dictionary that a trace records, in order. *)
Fixpoint sliced (t : Py.trace) : list (Z * Z) :=
  match t with
  | [] => []
  | Py.Sliced start stop :: t' => (start, stop) :: sliced t'
  | _ :: t' => sliced t'
  end.

(** A value an array of dtype [t] can hold. *)
Definition representable (t : Numpy.dtype) (x : Numpy.scalar) : Prop :=
  SpecFloat.valid_binary (Numpy.prec t) (Numpy.emax t) x = true.

Definition is_zero (x : Numpy.scalar) : bool :=
  match x with S754_zero _ => true | _ => false end.

(** The norm as the kernel computes it. *)
Definition computed_norm (t : Numpy.dtype) (v : pattern1d) : Numpy.scalar :=
  Numpy.sqrt t (Numpy.sum t (Numpy.square t v)).

(** The reference the kernel is compared with, after the specification's
    words: [v / sqrt(sum(v_i^2))], the sum of squares accumulated by the
    plain loop [acc = 0; for x in v: acc += x * x], and nothing else. *)
Fixpoint sum_squares_from (t : Numpy.dtype) (acc : Numpy.scalar) (v : pattern1d)
  : Numpy.scalar :=
  match v with
  | [] => acc
  | x :: r => sum_squares_from t (Numpy.add t acc (Numpy.mul t x x)) r
  end.

Definition naive_l2_normalize (t : Numpy.dtype) (v : pattern1d) : pattern1d :=
  let norm := Numpy.sqrt t (sum_squares_from t (Numpy.of_int t 0) v) in
  map (fun x => Numpy.div t x norm) v.

(** [nearest n d x]: the positive float [x = m * 2^e] lies within half a
    unit in its last place of the fraction [n / d]. *)
Definition nearest (n d : Z) (x : Numpy.scalar) : Prop :=
  match x with
  | S754_finite false m e =>
      e <= 0 /\ 2 * Z.abs (d * Z.pos m - n * 2 ^ (- e)) <= d
  | _ => False
  end.

(** [ulps_apart x y]: for two finite floats of the same sign and
    exponent, the distance of their mantissas, that is their distance in
    units in the last place. *)
Definition ulps_apart (x y : Numpy.scalar) : option Z :=
  match x, y with
  | S754_finite s m e, S754_finite s' m' e' =>
      if Bool.eqb s s' && (e =? e') then Some (Z.abs (Z.pos m - Z.pos m'))
      else None
  | _, _ => None
  end.

(** [best_first sign row]: the scores of [row] are in best-first order,
    non-increasing for the sign +1 and non-decreasing for the sign -1. *)
Fixpoint best_first (sign : Z) (row : list Numpy.scalar) : bool :=
  match row with
  | x :: (y :: _) as r =>
      (if 0 <? sign then SFleb y x else SFleb x y) && best_first sign r
  | _ => true
  end.

End Spec.

(* ================================================================== *)
(** * Concrete inputs *)

Module Examples.

(** A binary64 literal. *)
Definition f64 (x : float) : Numpy.scalar := Prim2SF x.

(** 0.6 and 0.8 in binary32: the bit patterns 0x3F19999A and
    0x3F4CCCCD. *)
Definition f32_0_6 : Numpy.scalar := S754_finite false 10066330 (-24).
Definition f32_0_8 : Numpy.scalar := S754_finite false 13421773 (-24).

(** The normalized dot product metric on binary64, without a mask. *)
Definition ndp64 : SimilarityMetric :=
  NormalizedDotProduct.metric Numpy.float64 None.

(** One experimental pattern of two pixels. *)
Definition experimental : batch := [[f64 1; f64 0]].

(** Two and three simulated patterns.  Normalized, they are (0.6, 0.8),
    (0.8, 0.6) and (0, 1): their scores against the experimental pattern
    are 0.6, 0.8 and 0. *)
Definition dictionary : batch := [[f64 3; f64 4]; [f64 4; f64 3]].
Definition dictionary3 : batch := [[f64 3; f64 4]; [f64 4; f64 3]; [f64 0; f64 2]].

(** A dictionary of 23 patterns of two pixels. *)
Definition dictionary23 : batch := repeat [f64 3; f64 4] 23.

(** A metric for which a lower score is better: the squared Euclidean
    distance, with the sign -1 and no preparation. *)
Definition squared_distance (t : Numpy.dtype) (x y : pattern1d) : Numpy.scalar :=
  Numpy.sum t
    (map (fun '(a, b) =>
            let d := SFsub (Numpy.prec t) (Numpy.emax t) a b in Numpy.mul t d d)
         (combine x y)).

Definition distance_metric (t : Numpy.dtype) : SimilarityMetric :=
  {| sign := -1;
     dtype := t;
     prepare_experimental := fun patterns => patterns;
     prepare_dictionary := fun patterns => patterns;
     metric_match :=
       fun experimental simulated =>
         map (fun e => map (squared_distance t e) simulated) experimental |}.

End Examples.

(* ================================================================== *)
(** * The calls of [_match_chunk] in a trace *)

Module Traces.

(** The calls of [_match_chunk] that a trace records, in order: the
    number of prepared simulated patterns and the [keep_n] of each. *)
Fixpoint matched (t : Py.trace) : list (nat * Z) :=
  match t with
  | [] => []
  | Py.Matched n keep_n :: t' => (n, keep_n) :: matched t'
  | _ :: t' => matched t'
  end.

(** The events of one turn of the loop over the chunks. *)
Definition turn (metric : SimilarityMetric) (dictionary : batch) (keep_n : Z)
  (bounds : Z * Z) : Py.trace :=
  let simulated := Py.slice dictionary (fst bounds) (snd bounds) in
  [Py.Sliced (fst bounds) (snd bounds);
   Py.Matched (length (prepare_dictionary metric simulated))
     (Z.min keep_n (snd bounds - fst bounds));
   Py.Merged].

End Traces.

(* ================================================================== *)
(** * Orders on a row of scores *)

Module Ranking.

(** [chain R l]: every element of [l] is in the relation [R] with its
    successor. *)
Fixpoint chain {A} (R : A -> A -> bool) (l : list A) : bool :=
  match l with
  | x :: (y :: _) as r => R x y && chain R r
  | _ => true
  end.

(** A row in the order of [np.sort]: no element is followed by one that
    the sort order puts before it. *)
Definition ascending (l : list Numpy.scalar) : bool :=
  chain (fun x y => negb (Numpy.sort_lt y x)) l.

(** A row with the largest value first: no element is followed by one
    that the sort order puts after it.  NaN counts as the largest
    value. *)
Definition largest_first (l : list Numpy.scalar) : bool :=
  chain (fun x y => negb (Numpy.sort_lt x y)) l.

End Ranking.

(* ================================================================== *)
(** * Metrics with one score per simulated pattern *)

Module Wellformed.

(** A metric whose [match] returns, in every row, one score for each
    simulated pattern that [prepare_dictionary] was given. *)
Definition scores_per_pattern (metric : SimilarityMetric) : Prop :=
  forall experimental simulated : batch,
    Forall (fun row => length row = length simulated)
      (metric_match metric experimental (prepare_dictionary metric simulated)).

(** The similarities of a set of simulated patterns: what [_match_chunk]
    ranks. *)
Definition similarities (metric : SimilarityMetric) (experimental simulated : batch)
  : list (list Numpy.scalar) :=
  metric_match metric experimental (prepare_dictionary metric simulated).

(** A metric for which the score of a pair of patterns does not depend
    on the chunk the simulated pattern is in: the similarities of a slice
    of the dictionary are the columns of that slice in the similarities
    of the dictionary. *)
Definition chunkwise (metric : SimilarityMetric) : Prop :=
  forall (experimental dictionary : batch) (start stop : Z),
    similarities metric experimental (Py.slice dictionary start stop) =
    map (fun row => Py.slice row start stop)
        (similarities metric experimental dictionary).

End Wellformed.

(* ================================================================== *)
(** * Pixels that are not numbers, pixels under the signal mask *)

Module Pixels.

(** A pattern that the kernel turns into NaN: one with a NaN pixel, or
    one of zeros only. *)
Definition unusable (p : pattern1d) : Prop :=
  In S754_nan p \/ forallb Spec.is_zero p = true.

(** [agree_on mask p q]: two patterns of as many pixels as the mask,
    with the same value wherever the mask is set. *)
Definition agree_on (mask : list bool) (p q : pattern1d) : Prop :=
  length p = length mask /\ length q = length mask /\
  forall i, nth i mask false = true -> nth i p S754_nan = nth i q S754_nan.

End Pixels.

(* ================================================================== *)
(** * NumPy: indexing with an array of integers *)

Module Gather.

(** [a[i]] for one integer: a negative index counts from the end, an
    index outside the array is an [IndexError]. *)
Definition getitem {A} (a : list A) (i : Z) : Py.M A :=
  let len := Z.of_nat (length a) in
  let j := if i <? 0 then i + len else i in
  if (0 <=? j) && (j <? len)
  then match nth_error a (Z.to_nat j) with
       | Some x => Py.ret x
       | None => Py.raise Py.IndexError
       end
  else Py.raise Py.IndexError.

(** [[f(x) for x in l]]: the results in order; the first exception ends
    the computation. *)
Fixpoint for_all {A B} (f : A -> Py.M B) (l : list A) : Py.M (list B) :=
  match l with
  | [] => Py.ret []
  | x :: r => y <- f x ;; ys <- for_all f r ;; Py.ret (y :: ys)
  end.

(** [a[idx]] for a matrix [idx] of integers: the matrix of the elements
    of [a] at these positions.  The driver builds the rotations of the
    returned map this way: [dictionary_xmap.rotations[simulation_indices]]. *)
Definition getitem_rows {A} (a : list A) (idx : list (list Z)) : Py.M (list (list A)) :=
  for_all (for_all (getitem a)) idx.

End Gather.

(* ================================================================== *)
(** * A metric with scores above one *)

Module MoreExamples.

(** A metric whose scores can exceed 1: the dot product of the patterns
    as they are, without preparation, with the sign +1. *)
Definition raw_dot (t : Numpy.dtype) : SimilarityMetric :=
  {| sign := 1;
     dtype := t;
     prepare_experimental := fun patterns => patterns;
     prepare_dictionary := fun patterns => patterns;
     metric_match := NormalizedDotProduct.compare t |}.

End MoreExamples.

(* ================================================================== *)
(** * Rows without a repeated index *)

Module Once.

(** [once row]: no index other than 0 stands at two places of the
    row. *)
Definition once (row : list Z) : Prop :=
  forall c c',
    (c < length row)%nat -> (c' < length row)%nat -> c <> c' ->
    nth c row 0 <> 0 -> nth c row 0 <> nth c' row 0.

End Once.

(* ================================================================== *)
(** * Rounding: where the part that is cut off lies *)

Module Rounding.

(** [located mrs rho D]: the bits [shr_r] and [shr_s] of the record say
    where the fraction [rho / D] that was cut off lies in [0, 1): at
    zero, below one half, at one half, or above. *)
Definition located (mrs : shr_record) (rho D : Z) : Prop :=
  0 <= rho < D /\
  shr_r mrs = (D <=? 2 * rho) /\
  shr_s mrs = negb (rho =? 0) && negb (2 * rho =? D).

(** [sqrt_fraction q r]: for the integer square root [q] of
    [q * q + r] with the remainder [0 <= r <= 2 * q], a fraction
    [(rho, D)] in the same part of [0, 1) as the fractional part of the
    root, which [SFsqrt] tells from the remainder: none when [r = 0],
    below one half when [r <= q], above one half otherwise. *)
Definition sqrt_fraction (q r : Z) : Z * Z :=
  if r =? 0 then (0, 1) else if r <=? q then (1, 4) else (3, 4).

End Rounding.

(* ================================================================== *)
(** * The number a float stands for *)

Module Exact.

(** The rational number a float stands for: [m * 2 ^ e] with its sign
    for a finite float, and 0 for a zero.  Infinities and NaN stand for
    no number; they are given 0 and excluded where a value is used. *)
Definition value (x : Numpy.scalar) : Q :=
  match x with
  | S754_finite s m e =>
      ((if s then - 1 else 1) * (inject_Z (Z.pos m) * 2 ^ e))%Q
  | _ => 0%Q
  end.

End Exact.

(* ================================================================== *)
(** * Numbers without sign, and the exact sum of squares *)

Module Signs.

(** A zero or a finite number with the sign bit clear: what a square, a
    sum of squares and a square root are. *)
Definition nonneg (x : Numpy.scalar) : bool :=
  match x with
  | S754_zero false | S754_finite false _ _ => true
  | _ => false
  end.

End Signs.

Module ExactNorm.
Import Exact.

(** The sum of the squares of the values of a vector, without
    rounding. *)
Definition sum_of_squares (v : list Numpy.scalar) : Q :=
  fold_right (fun x acc => (value x * value x + acc)%Q) 0%Q v.

End ExactNorm.

(* ================================================================== *)
(** * Chunk boundaries *)

Module ChunkBounds.
Import DictionaryIndexing Spec.

Lemma map_seq_offset (a m : Z) (len k : nat) :
  a <= m ->
  map (fun i => m + Z.of_nat i) (seq k len) =
  map (fun i => a + Z.of_nat i) (seq (Z.to_nat (m - a) + k) len).
Proof.
  intros Ham. revert k. induction len as [|len IH]; intros k; cbn [seq map].
  - reflexivity.
  - f_equal; [lia|].
    rewrite IH. f_equal. f_equal. lia.
Qed.

Lemma rows_of_split (a m b : Z) :
  a <= m -> m <= b -> rows_of (a, m) ++ rows_of (m, b) = rows_of (a, b).
Proof.
  intros Ham Hmb. unfold rows_of. cbn [fst snd].
  replace (Z.to_nat (b - a)) with (Z.to_nat (m - a) + Z.to_nat (b - m))%nat by lia.
  rewrite seq_app, map_app. f_equal.
  rewrite (map_seq_offset a m _ 0 Ham).
  f_equal. f_equal. lia.
Qed.

Lemma tiles_le (a b : Z) (l : list (Z * Z)) : tiles a b l -> a < b.
Proof. induction 1; lia. Qed.

(** Ranges that tile [[a, b)] hold every row of [[a, b)] once, in
    order. *)
Lemma tiles_rows (a b : Z) (l : list (Z * Z)) :
  tiles a b l -> concat (map rows_of l) = rows_of (a, b).
Proof.
  induction 1 as [a b Hab | a m b l Ham Hl IH]; cbn [map concat].
  - apply app_nil_r.
  - rewrite IH. apply rows_of_split; [lia|].
    apply tiles_le in Hl. lia.
Qed.

Lemma cumsum_from_repeat_S (n acc : Z) (k : nat) :
  Numpy.cumsum_from acc (repeat n (S k)) =
  (acc + n) :: Numpy.cumsum_from (acc + n) (repeat n k).
Proof. reflexivity. Qed.

Lemma last_cumsum_from_repeat (n : Z) (k : nat) (acc d : Z) :
  last (Numpy.cumsum_from acc (repeat n (S k))) d = acc + n * Z.of_nat (S k).
Proof.
  revert acc. induction k as [|k IH]; intros acc.
  - cbn. lia.
  - rewrite cumsum_from_repeat_S.
    change (last ((acc + n) :: Numpy.cumsum_from (acc + n) (repeat n (S k))) d)
      with (last (Numpy.cumsum_from (acc + n) (repeat n (S k))) d).
    rewrite IH. lia.
Qed.

Lemma get_last_cons (x : Z) (a : list Z) (t : Py.trace) :
  Numpy.get_last (x :: a) t = (t, inr (last (x :: a) 0)).
Proof.
  unfold Numpy.get_last.
  destruct (rev (x :: a)) as [|y r] eqn:E.
  - apply (f_equal (@length Z)) in E. rewrite length_rev in E. discriminate.
  - assert (H : x :: a = rev r ++ [y]).
    { rewrite <- (rev_involutive (x :: a)), E. reflexivity. }
    rewrite H, last_last. reflexivity.
Qed.

Lemma set_last_cons (x : Z) (a : list Z) (v : Z) (t : Py.trace) :
  Numpy.set_last (x :: a) v t = (t, inr (removelast (x :: a) ++ [v])).
Proof.
  unfold Numpy.set_last.
  destruct (rev (x :: a)) as [|y r] eqn:E.
  - apply (f_equal (@length Z)) in E. rewrite length_rev in E. discriminate.
  - assert (H : x :: a = rev r ++ [y]).
    { rewrite <- (rev_involutive (x :: a)), E. reflexivity. }
    rewrite H, removelast_last. reflexivity.
Qed.

Lemma removelast_cons_cumsum (x n acc : Z) (k : nat) :
  removelast (x :: Numpy.cumsum_from acc (repeat n (S k))) =
  x :: removelast (Numpy.cumsum_from acc (repeat n (S k))).
Proof. rewrite cumsum_from_repeat_S. reflexivity. Qed.

(** The starts zipped with the ends, the last end replaced by [v]. *)
Lemma zip_tiles (n : Z) (k : nat) (acc v : Z) :
  0 < n -> acc + n * Z.of_nat (S k) <= v ->
  tiles acc v
    (combine (acc :: Numpy.cumsum_from acc (repeat n k))
             (removelast (Numpy.cumsum_from acc (repeat n (S k))) ++ [v])).
Proof.
  intros Hn. revert acc. induction k as [|k IH]; intros acc Hv.
  - cbn. apply tiles_last. lia.
  - rewrite (cumsum_from_repeat_S n acc (S k)).
    rewrite (cumsum_from_repeat_S n acc k).
    rewrite removelast_cons_cumsum.
    cbn [app combine].
    apply tiles_next; [lia|].
    apply IH. lia.
Qed.

Lemma length_zip_tiles (n : Z) (k : nat) (acc v : Z) :
  length (combine (acc :: Numpy.cumsum_from acc (repeat n k))
                  (removelast (Numpy.cumsum_from acc (repeat n (S k))) ++ [v]))
  = S k.
Proof.
  revert acc. induction k as [|k IH]; intros acc.
  - reflexivity.
  - rewrite (cumsum_from_repeat_S n acc (S k)).
    rewrite (cumsum_from_repeat_S n acc k).
    rewrite removelast_cons_cumsum.
    cbn [app combine length]. f_equal.
    apply IH.
Qed.

(** With at least one iteration the boundaries are computed without an
    exception and tile [[0, max (n * k) size)]. *)
Lemma chunk_bounds_S (size n : Z) (k : nat) (t : Py.trace) :
  0 < n ->
  exists bounds,
    chunk_bounds size n (Z.of_nat (S k)) t = (t, inr bounds) /\
    length bounds = S k /\
    tiles 0 (Z.max (n * Z.of_nat (S k)) size) bounds.
Proof.
  intros Hn.
  unfold chunk_bounds, chunk_starts, chunk_ends, Py.list_mul, Numpy.cumsum.
  replace (Z.to_nat (Z.of_nat (S k) - 1)) with k by lia.
  rewrite Nat2Z.id.
  cbn [app Numpy.cumsum_from].
  change (0 + 0) with 0.
  rewrite (cumsum_from_repeat_S n 0 k).
  unfold Py.bind at 1. rewrite get_last_cons.
  unfold Py.bind at 1. rewrite set_last_cons.
  unfold Py.ret.
  rewrite <- (cumsum_from_repeat_S n 0 k).
  rewrite last_cumsum_from_repeat.
  eexists. split; [reflexivity|]. split.
  - apply length_zip_tiles.
  - apply zip_tiles; lia.
Qed.

End ChunkBounds.

(* ================================================================== *)
(** * Calls that stop before the first chunk *)

Module EarlyExit.
Import DictionaryIndexing.

Lemma floordiv_zero (a : Z) (t : Py.trace) :
  Py.floordiv a 0 t = (t, inl Py.ZeroDivisionError).
Proof. reflexivity. Qed.

Lemma floordiv_nonzero (a b : Z) (t : Py.trace) :
  b <> 0 -> Py.floordiv a b t = (t, inr (a / b)).
Proof.
  intros Hb. unfold Py.floordiv.
  destruct (Z.eqb_spec b 0) as [E|_]; [contradiction|reflexivity].
Qed.

Lemma full_negative {A} (rows : nat) (cols : Z) (v : A) (t : Py.trace) :
  cols < 0 -> Numpy.full rows cols v t = (t, inl Py.ValueError).
Proof.
  intros H. unfold Numpy.full.
  destruct (Z.ltb_spec cols 0); [reflexivity|lia].
Qed.

Lemma full_nonnegative {A} (rows : nat) (cols : Z) (v : A) (t : Py.trace) :
  0 <= cols ->
  Numpy.full rows cols v t = (t, inr (repeat (repeat v (Z.to_nat cols)) rows)).
Proof.
  intros H. unfold Numpy.full.
  destruct (Z.ltb_spec cols 0); [lia|reflexivity].
Qed.

(** Without an iteration [chunk_ends] is empty and has no last
    element. *)
Lemma chunk_ends_empty (n_per_iteration n_iterations : Z) :
  n_iterations <= 0 -> chunk_ends n_per_iteration n_iterations = [].
Proof.
  intros H. unfold chunk_ends, Py.list_mul.
  replace (Z.to_nat n_iterations) with 0%nat by lia. reflexivity.
Qed.

Lemma chunk_bounds_no_iteration (size n_per_iteration n_iterations : Z)
  (t : Py.trace) :
  n_iterations <= 0 ->
  chunk_bounds size n_per_iteration n_iterations t = (t, inl Py.IndexError).
Proof.
  intros H. unfold chunk_bounds.
  rewrite (chunk_ends_empty _ _ H). reflexivity.
Qed.

(** The multi-chunk path with a negative [keep_n]: the running arrays
    cannot be allocated. *)
Lemma multi_chunk_path_negative_keep_n (metric : SimilarityMetric)
  (experimental dictionary : batch) (n_experimental : nat)
  (keep_n n_per_iteration n_iterations : Z) (t : Py.trace) :
  keep_n < 0 ->
  multi_chunk_path metric experimental dictionary n_experimental
    keep_n n_per_iteration n_iterations t = (t, inl Py.ValueError).
Proof.
  intros H. unfold multi_chunk_path, Py.bind.
  rewrite (full_negative _ _ _ _ H). reflexivity.
Qed.

(** The multi-chunk path without an iteration: writing the last chunk
    end fails. *)
Lemma multi_chunk_path_no_iteration (metric : SimilarityMetric)
  (experimental dictionary : batch) (n_experimental : nat)
  (keep_n n_per_iteration n_iterations : Z) (t : Py.trace) :
  0 <= keep_n -> n_iterations <= 0 ->
  multi_chunk_path metric experimental dictionary n_experimental
    keep_n n_per_iteration n_iterations t = (t, inl Py.IndexError).
Proof.
  intros Hk Hn. unfold multi_chunk_path, Py.bind.
  rewrite !(full_nonnegative _ _ _ _ Hk).
  rewrite (chunk_bounds_no_iteration _ _ _ _ Hn). reflexivity.
Qed.

Lemma flatten_rows_nonempty {A} (a : list (list A)) (t : Py.trace) :
  0 < Z.of_nat (length a) -> Numpy.flatten_rows a t = (t, inr a).
Proof. destruct a; cbn; [lia|reflexivity]. Qed.

(** Which branch a call takes. *)
Lemma driver_multi_chunk (experimental : batch) (nav : list nat)
  (dictionary : batch) (metric : SimilarityMetric)
  (keep_n n_per_iteration : Z) (t : Py.trace) :
  n_per_iteration <> 0 ->
  0 < Z.of_nat (length dictionary) ->
  Z.of_nat (length dictionary) <> n_per_iteration ->
  _dictionary_indexing experimental nav dictionary metric keep_n n_per_iteration t =
  multi_chunk_path metric (prepare_experimental metric experimental) dictionary
    (fold_right Nat.mul 1%nat nav)
    (Z.min keep_n (Z.of_nat (length dictionary))) n_per_iteration
    (Z.of_nat (length dictionary) / n_per_iteration) t.
Proof.
  intros H0 Hpos Hne. unfold _dictionary_indexing.
  unfold Py.bind at 1. rewrite (floordiv_nonzero _ _ _ H0).
  unfold Py.bind at 1. rewrite (flatten_rows_nonempty _ _ Hpos).
  destruct (Z.eqb_spec (Z.of_nat (length dictionary)) n_per_iteration);
    [contradiction|reflexivity].
Qed.

Lemma driver_single_pass (experimental : batch) (nav : list nat)
  (dictionary : batch) (metric : SimilarityMetric)
  (keep_n n_per_iteration : Z) (t : Py.trace) :
  0 < n_per_iteration ->
  Z.of_nat (length dictionary) = n_per_iteration ->
  _dictionary_indexing experimental nav dictionary metric keep_n n_per_iteration t =
  single_pass metric (prepare_experimental metric experimental) dictionary
    (Z.min keep_n (Z.of_nat (length dictionary))) t.
Proof.
  intros H0 He.
  assert (Hpos : 0 < Z.of_nat (length dictionary)) by lia.
  unfold _dictionary_indexing.
  unfold Py.bind at 1. rewrite floordiv_nonzero by lia.
  unfold Py.bind at 1. rewrite (flatten_rows_nonempty _ _ Hpos).
  destruct (Z.eqb_spec (Z.of_nat (length dictionary)) n_per_iteration);
    [reflexivity|contradiction].
Qed.

Lemma div_nonneg_neg (a b : Z) : 0 <= a -> b < 0 -> a / b <= 0.
Proof.
  intros Ha Hb. rewrite <- Z.div_opp_opp by lia.
  apply Z.div_le_upper_bound; lia.
Qed.

(** A call on a dictionary that is not empty, with a chunk size that is
    negative or larger than the dictionary, stops before the first
    chunk. *)
Lemma driver_no_iteration (experimental : batch) (nav : list nat)
  (dictionary : batch) (metric : SimilarityMetric)
  (keep_n n_per_iteration : Z) :
  0 < Z.of_nat (length dictionary) ->
  n_per_iteration < 0 \/ Z.of_nat (length dictionary) < n_per_iteration ->
  Py.run (_dictionary_indexing experimental nav dictionary metric
            keep_n n_per_iteration) =
  ([], inl (if keep_n <? 0 then Py.ValueError else Py.IndexError)).
Proof.
  intros Hpos H. unfold Py.run.
  rewrite driver_multi_chunk by lia.
  destruct (Z.ltb_spec keep_n 0) as [Hk|Hk].
  - apply multi_chunk_path_negative_keep_n. lia.
  - apply multi_chunk_path_no_iteration; [lia|].
    destruct H as [H|H].
    + apply div_nonneg_neg; lia.
    + rewrite Z.div_small; lia.
Qed.

End EarlyExit.

(* ================================================================== *)
(** * The exceptions the driver can raise *)

Module Exceptions.
Import DictionaryIndexing Spec.

Lemma unconfigured_ret {A} (a : A) : unconfigured (Py.ret a).
Proof. intros t. discriminate. Qed.

Lemma unconfigured_raise {A} (e : Py.exn) :
  e <> Py.ConfigurationError -> unconfigured (@Py.raise A e).
Proof. intros He t. cbn. congruence. Qed.

Lemma unconfigured_tell (ev : Py.event) : unconfigured (Py.tell ev).
Proof. intros t. discriminate. Qed.

Lemma unconfigured_bind {A B} (m : Py.M A) (k : A -> Py.M B) :
  unconfigured m -> (forall a, unconfigured (k a)) ->
  unconfigured (Py.bind m k).
Proof.
  intros Hm Hk t. unfold Py.bind.
  specialize (Hm t). destruct (m t) as [t' [e|a]]; cbn in *.
  - intros E. apply Hm. injection E as ->. reflexivity.
  - apply Hk.
Qed.

Lemma unconfigured_for_each {A B} (xs : list A) (body : B -> A -> Py.M B) :
  (forall acc x, unconfigured (body acc x)) ->
  forall acc, unconfigured (Py.for_each xs body acc).
Proof.
  intros Hbody. induction xs as [|x xs IH]; intros acc; cbn [Py.for_each].
  - apply unconfigured_ret.
  - apply unconfigured_bind; [apply Hbody|exact IH].
Qed.

Ltac unconfigured_step :=
  first
    [ apply unconfigured_ret
    | apply unconfigured_tell
    | apply unconfigured_raise; discriminate
    | apply unconfigured_bind; [|intros]
    | match goal with
      | |- unconfigured (let '(_, _) := ?p in _) => destruct p
      | |- unconfigured (if ?b then _ else _) => destruct b
      | |- unconfigured (match ?x with _ => _ end) => destruct x
      end ].

Lemma unconfigured_floordiv (a b : Z) : unconfigured (Py.floordiv a b).
Proof. unfold Py.floordiv. repeat unconfigured_step. Qed.

Lemma unconfigured_full {A} (rows : nat) (cols : Z) (v : A) :
  unconfigured (Numpy.full rows cols v).
Proof. unfold Numpy.full. repeat unconfigured_step. Qed.

Lemma unconfigured_get_last (a : list Z) : unconfigured (Numpy.get_last a).
Proof. unfold Numpy.get_last. repeat unconfigured_step. Qed.

Lemma unconfigured_set_last (a : list Z) (v : Z) :
  unconfigured (Numpy.set_last a v).
Proof. unfold Numpy.set_last. repeat unconfigured_step. Qed.

Lemma unconfigured_hstack {A} (a b : list (list A)) :
  unconfigured (Numpy.hstack a b).
Proof. unfold Numpy.hstack. repeat unconfigured_step. Qed.

Lemma unconfigured_flatten_rows {A} (a : list (list A)) :
  unconfigured (Numpy.flatten_rows a).
Proof. unfold Numpy.flatten_rows. repeat unconfigured_step. Qed.

Lemma unconfigured_reshape_rows {A} (k : Z) (a : list (list A)) :
  unconfigured (Numpy.reshape_rows k a).
Proof. unfold Numpy.reshape_rows. repeat unconfigured_step. Qed.

Lemma unconfigured_match_chunk (metric : SimilarityMetric)
  (experimental simulated : batch) (keep_n : Z) :
  unconfigured (_match_chunk metric experimental simulated keep_n).
Proof.
  unfold _match_chunk.
  repeat first [ apply unconfigured_reshape_rows | unconfigured_step ].
Qed.

Lemma unconfigured_chunk_bounds (size n_per_iteration n_iterations : Z) :
  unconfigured (chunk_bounds size n_per_iteration n_iterations).
Proof.
  unfold chunk_bounds.
  repeat first [ apply unconfigured_get_last | apply unconfigured_set_last
               | unconfigured_step ].
Qed.

Lemma unconfigured_merge_chunk (metric : SimilarityMetric)
  (experimental dictionary : batch) (keep_n : Z) (acc : xmap) (b : Z * Z) :
  unconfigured (merge_chunk metric experimental dictionary keep_n acc b).
Proof.
  unfold merge_chunk. destruct b as [start stop].
  repeat first [ apply unconfigured_match_chunk | apply unconfigured_hstack
               | unconfigured_step ].
Qed.

Lemma unconfigured_driver (experimental : batch) (nav : list nat)
  (dictionary : batch) (metric : SimilarityMetric) (keep_n n_per_iteration : Z) :
  unconfigured (_dictionary_indexing experimental nav dictionary metric
                  keep_n n_per_iteration).
Proof.
  unfold _dictionary_indexing, single_pass, multi_chunk_path.
  repeat first [ apply unconfigured_floordiv | apply unconfigured_full
               | apply unconfigured_flatten_rows
               | apply unconfigured_match_chunk | apply unconfigured_chunk_bounds
               | apply unconfigured_for_each; intros; apply unconfigured_merge_chunk
               | unconfigured_step ].
Qed.

End Exceptions.

(* ================================================================== *)
(** * IEEE arithmetic: division by one, arithmetic on zeros *)

Module Ieee.
Import Spec.

Lemma div_eucl_div_mod (a b : Z) : Z.div_eucl a b = (a / b, a mod b).
Proof. unfold Z.div, Z.modulo. destruct (Z.div_eucl a b). reflexivity. Qed.

Lemma new_location_zero (nb : Z) : new_location nb 0 = loc_Exact.
Proof. unfold new_location. destruct (Z.even nb); reflexivity. Qed.

Lemma digits2_pos_log2 (p : positive) :
  Z.pos (digits2_pos p) = Z.log2 (Z.pos p) + 1.
Proof.
  induction p as [p IH|p IH|]; cbn [digits2_pos].
  - rewrite Pos2Z.inj_succ, IH. cbn [Z.log2]. destruct p; cbn; lia.
  - rewrite Pos2Z.inj_succ, IH. cbn [Z.log2]. destruct p; cbn; lia.
  - reflexivity.
Qed.

Section DivOne.
Variables prec emax : Z.
Variable m1 : positive.
Hypothesis Hprec : 1 < prec.
Hypothesis Hm1 : Z.pos m1 = 2 ^ (prec - 1).

(** The float [m1 * 2^(1 - prec)] is 1.  Dividing a finite float in
    canonical form by it shifts the mantissa up, divides exactly, and
    rounds an exact value back to the same mantissa and exponent. *)
Lemma SFdiv_finite_one (s : bool) (m : positive) (e : Z) :
  bounded prec emax m e = true ->
  SFdiv prec emax (S754_finite s m e) (S754_finite false m1 (1 - prec)) =
  S754_finite s m e.
Proof.
  unfold bounded, canonical_mantissa. intros H.
  apply andb_true_iff in H. destruct H as [Hc He].
  apply Z.eqb_eq in Hc. apply Z.leb_le in He.
  assert (Hd1 : Zdigits2 (Z.pos m1) = prec).
  { cbn [Zdigits2]. rewrite digits2_pos_log2, Hm1, Z.log2_pow2 by lia. lia. }
  unfold SFdiv, SFdiv_core_binary.
  rewrite Hd1.
  change (Zdigits2 (Z.pos m)) with (Z.pos (digits2_pos m)).
  set (d := Z.pos (digits2_pos m)) in *.
  unfold fexp in Hc |- *.
  set (emn := SpecFloat.emin prec emax) in *.
  assert (Hcase : (e = emn /\ d + e - prec <= emn) \/ (emn < e /\ d = prec)) by lia.
  assert (Hxor : xorb s false = s) by (destruct s; reflexivity).
  rewrite Hxor.
  destruct Hcase as [[Hee Hd]|[Hee Hd]].
  - (* the smallest exponent: the quotient is the mantissa itself *)
    replace (Z.min (Z.max (d + e - (prec + (1 - prec)) - prec) emn) (e - (1 - prec)))
      with e by lia.
    replace (e - (1 - prec) - e) with (prec - 1) by lia.
    assert (Hm' : match prec - 1 with
                  | 0 => Z.pos m
                  | Z.pos _ => Z.shiftl (Z.pos m) (prec - 1)
                  | Z.neg _ => 0
                  end = Z.pos m * Z.pos m1).
    { rewrite Hm1. destruct (prec - 1) eqn:E; try lia.
      rewrite Z.shiftl_mul_pow2 by lia. reflexivity. }
    rewrite Hm', div_eucl_div_mod.
    rewrite Z.div_mul, Z.mod_mul by lia.
    rewrite new_location_zero.
    unfold binary_round_aux, shr_fexp.
    change (Zdigits2 (Z.pos m)) with d. unfold fexp. fold emn.
    rewrite Hc, Z.sub_diag.
    cbn [shr_record_of_loc shr shr_m loc_of_shr_record round_nearest_even].
    change (Zdigits2 (Z.pos m)) with d. rewrite Hc, Z.sub_diag.
    cbn [shr shr_m].
    apply Z.leb_le in He. rewrite He. reflexivity.
  - (* a normal number: the quotient is twice the mantissa, one exponent
       lower, and the first shift of the rounding halves it again *)
    replace (Z.min (Z.max (d + e - (prec + (1 - prec)) - prec) emn) (e - (1 - prec)))
      with (e - 1) by lia.
    replace (e - (1 - prec) - (e - 1)) with prec by lia.
    assert (Hm' : match prec with
                  | 0 => Z.pos m
                  | Z.pos _ => Z.shiftl (Z.pos m) prec
                  | Z.neg _ => 0
                  end = Z.pos m~0 * Z.pos m1).
    { rewrite Hm1. destruct prec eqn:E; try lia. rewrite <- E.
      rewrite Z.shiftl_mul_pow2 by lia.
      replace prec with (Z.succ (prec - 1)) at 1 by lia.
      rewrite Z.pow_succ_r by lia. rewrite Pos2Z.inj_xO. lia. }
    rewrite Hm', div_eucl_div_mod.
    rewrite Z.div_mul, Z.mod_mul by lia.
    rewrite new_location_zero.
    unfold binary_round_aux, shr_fexp.
    change (Zdigits2 (Z.pos m~0)) with (Z.pos (Pos.succ (digits2_pos m))).
    rewrite Pos2Z.inj_succ. fold d.
    unfold fexp. fold emn.
    replace (Z.succ d + (e - 1)) with (d + e) by lia.
    rewrite Hc.
    replace (e - (e - 1)) with 1 by lia.
    cbn [shr_record_of_loc shr iter_pos shr_1 orb shr_m loc_of_shr_record
         round_nearest_even].
    replace (e - 1 + 1) with e by lia.
    change (Zdigits2 (Z.pos m)) with d. rewrite Hc, Z.sub_diag.
    cbn [shr shr_m].
    apply Z.leb_le in He. rewrite He. reflexivity.
Qed.

(** Division by one returns every valid float unchanged: zeros and
    infinities keep their sign, NaN stays NaN. *)
Lemma SFdiv_one (x : spec_float) :
  SpecFloat.valid_binary prec emax x = true ->
  SFdiv prec emax x (S754_finite false m1 (1 - prec)) = x.
Proof.
  destruct x as [s|s| |s m e]; cbn [SpecFloat.valid_binary]; intros H.
  - cbn. destruct s; reflexivity.
  - cbn. destruct s; reflexivity.
  - reflexivity.
  - apply SFdiv_finite_one. exact H.
Qed.

End DivOne.

(** The two dtypes of the kernels. *)
Lemma div_one (t : Numpy.dtype) (x : Numpy.scalar) :
  t = Numpy.float32 \/ t = Numpy.float64 ->
  representable t x ->
  Numpy.div t x (Numpy.of_int t 1) = x.
Proof.
  unfold representable, Numpy.div.
  intros [-> | ->] Hx.
  - change (Numpy.of_int Numpy.float32 1)
      with (S754_finite false 8388608 (1 - Numpy.prec Numpy.float32)).
    apply SFdiv_one; [cbn; lia | reflexivity | exact Hx].
  - change (Numpy.of_int Numpy.float64 1)
      with (S754_finite false 4503599627370496 (1 - Numpy.prec Numpy.float64)).
    apply SFdiv_one; [cbn; lia | reflexivity | exact Hx].
Qed.

(** Squares and sums of zeros, at any precision. *)
Lemma sum_squares_zeros (t : Numpy.dtype) (v : pattern1d) :
  forallb is_zero v = true ->
  fold_left (Numpy.add t) (Numpy.square t v) (S754_zero false) = S754_zero false.
Proof.
  induction v as [|x v IH]; cbn [forallb Numpy.square map fold_left]; intros H.
  - reflexivity.
  - apply andb_true_iff in H. destruct H as [Hx Hv].
    destruct x as [s| | |]; try discriminate.
    replace (Numpy.add t (S754_zero false) (Numpy.mul t (S754_zero s) (S754_zero s)))
      with (S754_zero false) by (destruct s; reflexivity).
    apply IH. exact Hv.
Qed.

Lemma fold_sum_squares (t : Numpy.dtype) (v : pattern1d) (acc : Numpy.scalar) :
  fold_left (Numpy.add t) (Numpy.square t v) acc = sum_squares_from t acc v.
Proof.
  revert acc. induction v as [|x v IH]; intros acc; cbn.
  - reflexivity.
  - apply IH.
Qed.

End Ieee.

(* ================================================================== *)
(** * The normalization kernels *)

Module Kernels.
Import Spec NormalizedDotProduct.

(** The kernel is the reference computation: it adds no guard, no
    clipping and no other step to it. *)
Lemma kernel_is_naive (t : Numpy.dtype) (v : pattern1d) :
  _normalize_pattern1d t v = naive_l2_normalize t v.
Proof.
  unfold _normalize_pattern1d, naive_l2_normalize, Numpy.div_scalar, Numpy.sum.
  rewrite Ieee.fold_sum_squares. reflexivity.
Qed.

(** A vector whose norm is computed as 1 is returned bit for bit. *)
Lemma kernel_unit_norm (t : Numpy.dtype) (v : pattern1d) :
  t = Numpy.float32 \/ t = Numpy.float64 ->
  Forall (representable t) v ->
  computed_norm t v = Numpy.of_int t 1 ->
  _normalize_pattern1d t v = v.
Proof.
  intros Ht Hv Hnorm.
  unfold _normalize_pattern1d. fold (computed_norm t v). rewrite Hnorm.
  unfold Numpy.div_scalar. clear Hnorm.
  induction Hv as [|x v Hx Hv IH]; cbn [map].
  - reflexivity.
  - rewrite (Ieee.div_one t x Ht Hx). f_equal. exact IH.
Qed.

(** The norm of a vector of zeros is +0. *)
Lemma norm_of_zeros (t : Numpy.dtype) (signs : list bool) :
  computed_norm t (map S754_zero signs) = S754_zero false.
Proof.
  unfold computed_norm, Numpy.sum.
  change (Numpy.of_int t 0) with (S754_zero false).
  rewrite Ieee.sum_squares_zeros; [reflexivity|].
  induction signs as [|s signs IH]; [reflexivity|exact IH].
Qed.

(** Every zero divided by that norm is NaN. *)
Lemma kernel_of_zeros (t : Numpy.dtype) (signs : list bool) :
  _normalize_pattern1d t (map S754_zero signs) = map (fun _ => S754_nan) signs.
Proof.
  unfold _normalize_pattern1d. fold (computed_norm t (map S754_zero signs)).
  rewrite norm_of_zeros. unfold Numpy.div_scalar.
  rewrite map_map. apply map_ext. intros s. reflexivity.
Qed.

(** The experimental patterns are divided by their norm the same way. *)
Lemma prepare_experimental_of_zeros (t : Numpy.dtype) (signs : list bool) :
  prepare_all_experimental t None [map S754_zero signs] =
  [map (fun _ => S754_nan) signs].
Proof.
  unfold prepare_all_experimental, apply_mask. cbn [map].
  rewrite map_map. cbn [Numpy.astype].
  f_equal. apply (kernel_of_zeros t signs).
Qed.

End Kernels.

(* ================================================================== *)
(** * Calls with a [keep_n] that is not positive *)

Module NonPositiveKeepN.
Import DictionaryIndexing Spec.

(** [_match_chunk] prepares and matches the chunk before the reshape to
    [keep_n] columns fails. *)
Lemma match_chunk_nonpositive (metric : SimilarityMetric)
  (experimental simulated : batch) (keep_n : Z) (t : Py.trace) :
  keep_n <= 0 ->
  _match_chunk metric experimental simulated keep_n t =
  (t ++ [Py.Matched (length (prepare_dictionary metric simulated)) keep_n],
   inl Py.ValueError).
Proof.
  intros H. unfold _match_chunk, Py.bind, Py.tell, Numpy.reshape_rows.
  destruct (Z.leb_spec keep_n 0); [reflexivity|lia].
Qed.

(** On the single-pass branch the dictionary is matched first. *)
Lemma single_pass_nonpositive (metric : SimilarityMetric)
  (experimental dictionary : batch) (keep_n : Z) (t : Py.trace) :
  keep_n <= 0 ->
  single_pass metric experimental dictionary keep_n t =
  (t ++ [Py.Matched (length (prepare_dictionary metric dictionary)) keep_n],
   inl Py.ValueError).
Proof.
  intros H. unfold single_pass, Py.bind.
  rewrite (match_chunk_nonpositive _ _ _ _ _ H). reflexivity.
Qed.

Lemma tiles_head (a b : Z) (l : list (Z * Z)) :
  tiles a b l -> exists m rest, l = (a, m) :: rest /\ a < m.
Proof. intros H. destruct H; eauto. Qed.

(** One turn of the loop with [keep_n = 0]: the chunk is sliced and
    matched, and nothing is merged. *)
Lemma merge_chunk_zero_keep_n (metric : SimilarityMetric)
  (experimental dictionary : batch) (acc : xmap) (start stop : Z)
  (t : Py.trace) :
  merge_chunk metric experimental dictionary 0 acc (start, stop) t =
  (t ++ [Py.Sliced start stop;
         Py.Matched
           (length (prepare_dictionary metric (Py.slice dictionary start stop)))
           (Z.min 0 (stop - start))],
   inl Py.ValueError).
Proof.
  unfold merge_chunk.
  unfold Py.bind at 1. unfold Py.tell at 1.
  unfold Py.bind at 1.
  rewrite match_chunk_nonpositive by lia.
  rewrite <- app_assoc. reflexivity.
Qed.

(** On the multi-chunk branch with [keep_n = 0] the first chunk is
    sliced and matched first. *)
Lemma multi_chunk_path_zero_keep_n (metric : SimilarityMetric)
  (experimental dictionary : batch) (n_experimental : nat)
  (n_per_iteration : Z) (k : nat) (t : Py.trace) :
  0 < n_per_iteration ->
  exists stop,
    multi_chunk_path metric experimental dictionary n_experimental
      0 n_per_iteration (Z.of_nat (S k)) t =
    (t ++ [Py.Sliced 0 stop;
           Py.Matched
             (length (prepare_dictionary metric (Py.slice dictionary 0 stop))) 0],
     inl Py.ValueError).
Proof.
  intros Hn. unfold multi_chunk_path.
  unfold Py.bind at 1. rewrite EarlyExit.full_nonnegative by lia.
  unfold Py.bind at 1. rewrite EarlyExit.full_nonnegative by lia.
  unfold Py.bind at 1.
  destruct (ChunkBounds.chunk_bounds_S (Z.of_nat (length dictionary))
              n_per_iteration k t Hn) as (bounds & -> & _ & Htiles).
  destruct (tiles_head _ _ _ Htiles) as (m & rest & -> & Hm).
  exists m. cbn [Py.for_each]. unfold Py.bind at 1.
  rewrite merge_chunk_zero_keep_n.
  replace (Z.min 0 (m - 0)) with 0 by lia.
  reflexivity.
Qed.

End NonPositiveKeepN.

(* ================================================================== *)
(** * The slices a run takes *)

Module Slices.
Import DictionaryIndexing Spec.

Lemma sliced_app (t u : Py.trace) : sliced (t ++ u) = sliced t ++ sliced u.
Proof.
  induction t as [|ev t IH]; cbn [app sliced].
  - reflexivity.
  - destruct ev; cbn [app]; rewrite IH; reflexivity.
Qed.

(** What a computation adds to the slices of the trace. *)
Definition slices {A} (m : Py.M A) (l : list (Z * Z)) : Prop :=
  forall t t' a, m t = (t', inr a) -> sliced t' = sliced t ++ l.

Lemma slices_ret {A} (a : A) : slices (Py.ret a) [].
Proof. intros t t' b H. injection H as <- _. symmetry. apply app_nil_r. Qed.

Lemma slices_raise {A} (e : Py.exn) (l : list (Z * Z)) : slices (@Py.raise A e) l.
Proof. intros t t' b H. discriminate H. Qed.

Lemma slices_bind {A B} (m : Py.M A) (k : A -> Py.M B) (l1 l2 : list (Z * Z)) :
  slices m l1 -> (forall a, slices (k a) l2) -> slices (Py.bind m k) (l1 ++ l2).
Proof.
  intros Hm Hk t t' b. unfold Py.bind.
  destruct (m t) as [t1 [e|a]] eqn:E; [discriminate|].
  intros H. rewrite (Hk a _ _ _ H), (Hm _ _ _ E). symmetry. apply app_assoc.
Qed.

Lemma slices_tell_sliced (start stop : Z) :
  slices (Py.tell (Py.Sliced start stop)) [(start, stop)].
Proof. intros t t' b H. injection H as <- _. apply sliced_app. Qed.

Lemma slices_tell_other (ev : Py.event) :
  sliced [ev] = [] -> slices (Py.tell ev) [].
Proof.
  intros Hev t t' b H. injection H as <- _. rewrite sliced_app, Hev. reflexivity.
Qed.

Lemma slices_hstack {A} (a b : list (list A)) : slices (Numpy.hstack a b) [].
Proof.
  unfold Numpy.hstack. destruct (Numpy.hstack_rows a b).
  - apply slices_ret.
  - apply slices_raise.
Qed.

Lemma slices_reshape_rows {A} (k : Z) (a : list (list A)) :
  slices (Numpy.reshape_rows k a) [].
Proof.
  unfold Numpy.reshape_rows.
  destruct (k <=? 0); [apply slices_raise|].
  destruct (_ =? 0); [apply slices_ret|apply slices_raise].
Qed.

Lemma slices_match_chunk (metric : SimilarityMetric)
  (experimental simulated : batch) (keep_n : Z) :
  slices (_match_chunk metric experimental simulated keep_n) [].
Proof.
  unfold _match_chunk.
  apply (slices_bind _ _ [] []); [apply slices_tell_other; reflexivity|intros _].
  apply (slices_bind _ _ [] []); [apply slices_reshape_rows|intros ?].
  apply (slices_bind _ _ [] []); [apply slices_reshape_rows|intros ?].
  apply slices_ret.
Qed.

(** One turn of the loop takes one slice: its own boundaries. *)
Lemma slices_merge_chunk (metric : SimilarityMetric)
  (experimental dictionary : batch) (keep_n : Z) (acc : xmap) (b : Z * Z) :
  slices (merge_chunk metric experimental dictionary keep_n acc b) [b].
Proof.
  unfold merge_chunk. destruct b as [start stop].
  apply (slices_bind _ _ [(start, stop)] []); [apply slices_tell_sliced|intros _].
  apply (slices_bind _ _ [] []); [apply slices_match_chunk|intros [? ?]].
  apply (slices_bind _ _ [] []); [apply slices_hstack|intros ?].
  apply (slices_bind _ _ [] []); [apply slices_hstack|intros ?].
  apply (slices_bind _ _ [] []); [apply slices_tell_other; reflexivity|intros _].
  apply slices_ret.
Qed.

(** The loop takes the slices of its boundaries, in order. *)
Lemma slices_for_each (metric : SimilarityMetric)
  (experimental dictionary : batch) (keep_n : Z) (bounds : list (Z * Z)) :
  forall acc,
    slices (Py.for_each bounds
              (merge_chunk metric experimental dictionary keep_n) acc) bounds.
Proof.
  induction bounds as [|b bounds IH]; intros acc; cbn [Py.for_each].
  - apply slices_ret.
  - apply (slices_bind _ _ [b] bounds); [apply slices_merge_chunk|exact IH].
Qed.

(** A multi-chunk run that returns has sliced the dictionary at the
    computed boundaries, all of them, once each and in order. *)
Lemma multi_chunk_path_slices (metric : SimilarityMetric)
  (experimental dictionary : batch) (n_experimental : nat)
  (keep_n n_per_iteration n_iterations : Z) (bounds : list (Z * Z))
  (t : Py.trace) (r : xmap) :
  Py.run (chunk_bounds (Z.of_nat (length dictionary)) n_per_iteration n_iterations)
    = ([], inr bounds) ->
  Py.run (multi_chunk_path metric experimental dictionary n_experimental
            keep_n n_per_iteration n_iterations) = (t, inr r) ->
  sliced t = bounds.
Proof.
  unfold Py.run. intros Hb H.
  destruct (Z.ltb_spec keep_n 0) as [Hk|Hk].
  - rewrite EarlyExit.multi_chunk_path_negative_keep_n in H by exact Hk.
    discriminate H.
  - unfold multi_chunk_path in H.
    unfold Py.bind at 1 in H. rewrite EarlyExit.full_nonnegative in H by exact Hk.
    unfold Py.bind at 1 in H. rewrite EarlyExit.full_nonnegative in H by exact Hk.
    unfold Py.bind at 1 in H. rewrite Hb in H.
    apply slices_for_each in H. exact H.
Qed.

(** The single pass leaves one event, whatever its outcome: the whole
    dictionary matched at once. *)
Lemma single_pass_trace (metric : SimilarityMetric)
  (experimental dictionary : batch) (keep_n : Z) (t : Py.trace) :
  fst (single_pass metric experimental dictionary keep_n t) =
  t ++ [Py.Matched (length (prepare_dictionary metric dictionary)) keep_n].
Proof.
  unfold single_pass, _match_chunk, Py.bind, Py.tell, Numpy.reshape_rows.
  destruct (keep_n <=? 0); [reflexivity|].
  destruct (_ =? 0); [|reflexivity].
  destruct (_ =? 0); reflexivity.
Qed.

End Slices.

(* ================================================================== *)
(** * Slices of the dictionary *)

Module Slicing.
Import Spec.

Lemma slice_in_range {A} (l : list A) (a b : Z) :
  0 <= a -> b <= Z.of_nat (length l) -> a <= b ->
  Py.slice l a b = firstn (Z.to_nat (b - a)) (skipn (Z.to_nat a) l).
Proof.
  intros Ha Hb Hab. unfold Py.slice, Py.clip_index.
  destruct (Z.ltb_spec a 0); [lia|].
  destruct (Z.ltb_spec b 0); [lia|].
  rewrite !Z.min_l by lia. reflexivity.
Qed.

Lemma firstn_firstn_skipn {A} (l : list A) (i j : nat) :
  firstn i l ++ firstn j (skipn i l) = firstn (i + j) l.
Proof.
  revert l. induction i as [|i IH]; intros l.
  - reflexivity.
  - destruct l as [|x l]; cbn [firstn skipn Nat.add app].
    + rewrite firstn_nil. reflexivity.
    + f_equal. apply IH.
Qed.

Lemma skipn_skipn_add {A} (l : list A) (i j : nat) :
  skipn j (skipn i l) = skipn (i + j) l.
Proof.
  revert l. induction i as [|i IH]; intros l.
  - reflexivity.
  - destruct l as [|x l]; cbn [skipn Nat.add].
    + apply skipn_nil.
    + apply IH.
Qed.

(** Two adjacent slices make one. *)
Lemma slice_split {A} (l : list A) (a m b : Z) :
  0 <= a -> a <= m -> m <= b -> b <= Z.of_nat (length l) ->
  Py.slice l a m ++ Py.slice l m b = Py.slice l a b.
Proof.
  intros Ha Ham Hmb Hb.
  rewrite !slice_in_range by lia.
  replace (Z.to_nat m) with (Z.to_nat a + Z.to_nat (m - a))%nat by lia.
  rewrite <- skipn_skipn_add, firstn_firstn_skipn.
  f_equal. lia.
Qed.

Lemma slice_all {A} (l : list A) : Py.slice l 0 (Z.of_nat (length l)) = l.
Proof.
  rewrite slice_in_range by lia.
  cbn [Z.to_nat skipn]. rewrite Z.sub_0_r, Nat2Z.id. apply firstn_all.
Qed.

Lemma length_slice {A} (l : list A) (a b : Z) :
  0 <= a -> b <= Z.of_nat (length l) -> a <= b ->
  Z.of_nat (length (Py.slice l a b)) = b - a.
Proof.
  intros Ha Hb Hab. rewrite slice_in_range by lia.
  rewrite length_firstn, length_skipn. lia.
Qed.

(** The slices at boundaries that tile [[a, b)], one after the other,
    are the slice [l[a:b]]. *)
Lemma tiles_slices {A} (l : list A) (a b : Z) (bounds : list (Z * Z)) :
  tiles a b bounds -> 0 <= a -> b <= Z.of_nat (length l) ->
  concat (map (fun bd => Py.slice l (fst bd) (snd bd)) bounds) = Py.slice l a b.
Proof.
  induction 1 as [a b Hab | a m b bounds Ham Hl IH]; intros Ha Hb;
    cbn [map concat fst snd].
  - apply app_nil_r.
  - rewrite IH by lia.
    pose proof (ChunkBounds.tiles_le _ _ _ Hl).
    apply slice_split; lia.
Qed.

(** A position of a slice is a position of the list, shifted by the
    start. *)
Lemma nth_slice {A} (l : list A) (a b : Z) (j : nat) (d : A) :
  0 <= a -> b <= Z.of_nat (length l) -> a <= b -> Z.of_nat j < b - a ->
  nth j (Py.slice l a b) d = nth (Z.to_nat a + j) l d.
Proof.
  intros Ha Hb Hab Hj. rewrite slice_in_range by lia.
  rewrite nth_firstn.
  destruct (Nat.ltb_spec j (Z.to_nat (b - a))) as [_|H]; [|lia].
  rewrite nth_skipn. reflexivity.
Qed.

Lemma tiles_in_range (a b : Z) (bounds : list (Z * Z)) :
  tiles a b bounds ->
  Forall (fun bd => a <= fst bd /\ fst bd < snd bd /\ snd bd <= b) bounds.
Proof.
  induction 1 as [a b Hab | a m b bounds Ham Hl IH].
  - constructor; [cbn; lia|constructor].
  - pose proof (ChunkBounds.tiles_le _ _ _ Hl).
    constructor; [cbn; lia|].
    eapply Forall_impl; [|exact IH].
    cbn. intros bd ?. lia.
Qed.

End Slicing.

(* ================================================================== *)
(** * The sizes of the chunks *)

Module ChunkSizes.
Import DictionaryIndexing Spec.

(** The starts zipped with the ends in closed form: chunk [i] is
    [[acc + n * i, acc + n * (i + 1))], and the last one ends at [v]. *)
Lemma zip_closed_form (n : Z) (k : nat) (acc v : Z) :
  combine (acc :: Numpy.cumsum_from acc (repeat n k))
          (removelast (Numpy.cumsum_from acc (repeat n (S k))) ++ [v]) =
  map (fun i => (acc + n * Z.of_nat i, acc + n * Z.of_nat (S i))) (seq 0 k)
  ++ [(acc + n * Z.of_nat k, v)].
Proof.
  revert acc. induction k as [|k IH]; intros acc.
  - cbn. f_equal. f_equal. lia.
  - rewrite (ChunkBounds.cumsum_from_repeat_S n acc (S k)).
    rewrite (ChunkBounds.cumsum_from_repeat_S n acc k).
    rewrite ChunkBounds.removelast_cons_cumsum.
    cbn [app combine seq map]. f_equal; [f_equal; lia|].
    etransitivity; [apply IH|].
    rewrite <- seq_shift, map_map. f_equal.
    + apply map_ext. intros i. f_equal; lia.
    + f_equal. f_equal. lia.
Qed.

Lemma chunk_bounds_closed_form (size n : Z) (k : nat) (t : Py.trace) :
  chunk_bounds size n (Z.of_nat (S k)) t =
  (t, inr (map (fun i => (n * Z.of_nat i, n * Z.of_nat (S i))) (seq 0 k)
           ++ [(n * Z.of_nat k, Z.max (n * Z.of_nat (S k)) size)])).
Proof.
  unfold chunk_bounds, chunk_starts, chunk_ends, Py.list_mul, Numpy.cumsum.
  replace (Z.to_nat (Z.of_nat (S k) - 1)) with k by lia.
  rewrite Nat2Z.id.
  cbn [app Numpy.cumsum_from].
  change (0 + 0) with 0.
  rewrite (ChunkBounds.cumsum_from_repeat_S n 0 k).
  unfold Py.bind at 1. rewrite ChunkBounds.get_last_cons.
  unfold Py.bind at 1. rewrite ChunkBounds.set_last_cons.
  unfold Py.ret.
  rewrite <- (ChunkBounds.cumsum_from_repeat_S n 0 k).
  rewrite ChunkBounds.last_cumsum_from_repeat.
  rewrite zip_closed_form. reflexivity.
Qed.

(** The boundaries of a call with a positive chunk size that is at most
    the dictionary size. *)
Lemma chunk_bounds_of_call (size n : Z) (t : Py.trace) :
  0 < n <= size ->
  exists first_chunks last_start,
    chunk_bounds size n (size / n) t =
      (t, inr (first_chunks ++ [(last_start, size)])) /\
    Z.of_nat (length first_chunks) = size / n - 1 /\
    Forall (fun bd => snd bd - fst bd = n) first_chunks /\
    size - last_start = n + size mod n /\
    tiles 0 size (first_chunks ++ [(last_start, size)]).
Proof.
  intros [Hn Hsize].
  assert (Hq : 0 < size / n) by (apply Z.div_str_pos; lia).
  assert (Hmul : n * (size / n) <= size) by (apply Z.mul_div_le; lia).
  pose proof (Z.div_mod size n ltac:(lia)) as Hdm.
  set (k := Z.to_nat (size / n - 1)).
  assert (Hk : size / n = Z.of_nat (S k)) by (unfold k; lia).
  exists (map (fun i => (n * Z.of_nat i, n * Z.of_nat (S i))) (seq 0 k)),
         (n * Z.of_nat k).
  split.
  { rewrite Hk at 1. rewrite chunk_bounds_closed_form.
    rewrite <- Hk. rewrite Z.max_r by exact Hmul. reflexivity. }
  split; [rewrite length_map, length_seq; lia|].
  split.
  { apply Forall_forall. intros bd Hbd. apply in_map_iff in Hbd.
    destruct Hbd as (i & <- & _). cbn [fst snd]. lia. }
  split; [lia|].
  assert (Ht : tiles 0 size
                 (map (fun i => (0 + n * Z.of_nat i, 0 + n * Z.of_nat (S i)))
                      (seq 0 k) ++ [(0 + n * Z.of_nat k, size)])).
  { rewrite <- zip_closed_form. apply ChunkBounds.zip_tiles; lia. }
  exact Ht.
Qed.

End ChunkSizes.

(* ================================================================== *)
(** * Chains of comparisons *)

Module Chains.
Import Ranking.

Lemma chain_cons {A} (R : A -> A -> bool) (x : A) (l : list A) :
  chain R (x :: l) = match l with [] => true | y :: _ => R x y end && chain R l.
Proof. destruct l; reflexivity. Qed.

Lemma chain_app_last {A} (R : A -> A -> bool) (l : list A) (x : A) :
  chain R (l ++ [x]) =
  chain R l && match rev l with [] => true | y :: _ => R y x end.
Proof.
  induction l as [|a l IH].
  - reflexivity.
  - destruct l as [|b l].
    + cbn. destruct (R a x); reflexivity.
    + change ((a :: b :: l) ++ [x]) with (a :: ((b :: l) ++ [x])).
      rewrite (chain_cons R a ((b :: l) ++ [x])), IH.
      rewrite (chain_cons R a (b :: l)).
      change (rev (a :: b :: l)) with (rev (b :: l) ++ [a]).
      destruct (rev (b :: l)) as [|c r] eqn:E.
      * apply (f_equal (@length A)) in E. rewrite length_rev in E. discriminate.
      * cbn [app]. rewrite andb_assoc. reflexivity.
Qed.

Lemma chain_rev {A} (R : A -> A -> bool) (l : list A) :
  chain R (rev l) = chain (fun x y => R y x) l.
Proof.
  induction l as [|a l IH].
  - reflexivity.
  - cbn [rev]. rewrite chain_app_last, rev_involutive, IH, chain_cons.
    apply andb_comm.
Qed.

Lemma chain_tail {A} (R : A -> A -> bool) (x : A) (l : list A) :
  chain R (x :: l) = true -> chain R l = true.
Proof. rewrite chain_cons. intros H. apply andb_true_iff in H. apply H. Qed.

Lemma chain_skipn {A} (R : A -> A -> bool) (n : nat) (l : list A) :
  chain R l = true -> chain R (skipn n l) = true.
Proof.
  revert l. induction n as [|n IH]; intros l H.
  - exact H.
  - destruct l as [|x l]; [reflexivity|].
    cbn [skipn]. apply IH. exact (chain_tail R x l H).
Qed.

Lemma chain_firstn {A} (R : A -> A -> bool) (n : nat) (l : list A) :
  chain R l = true -> chain R (firstn n l) = true.
Proof.
  revert l. induction n as [|n IH]; intros l H.
  - reflexivity.
  - destruct l as [|x l]; [reflexivity|].
    cbn [firstn]. rewrite chain_cons in H |- *.
    apply andb_true_iff in H. destruct H as [Hx Hl].
    rewrite (IH l Hl), andb_true_r.
    destruct l as [|y l]; [destruct n; reflexivity|].
    destruct n; [reflexivity|exact Hx].
Qed.

Lemma chain_map {A B} (R : B -> B -> bool) (f : A -> B) (l : list A) :
  chain R (map f l) = chain (fun x y => R (f x) (f y)) l.
Proof.
  induction l as [|x l IH].
  - reflexivity.
  - cbn [map]. rewrite !chain_cons, IH. destruct l; reflexivity.
Qed.

Lemma chain_impl {A} (R R' : A -> A -> bool) (P : A -> Prop) (l : list A) :
  (forall x y, P x -> P y -> R x y = true -> R' x y = true) ->
  Forall P l -> chain R l = true -> chain R' l = true.
Proof.
  intros HR Hl. induction Hl as [|x l Hx Hl IH].
  - reflexivity.
  - rewrite !chain_cons. intros H. apply andb_true_iff in H.
    destruct H as [H1 H2]. rewrite (IH H2), andb_true_r.
    destruct Hl as [|y l Hy Hl]; [reflexivity|].
    apply HR; assumption.
Qed.

Lemma best_first_chain (sign : Z) (row : list Numpy.scalar) :
  Spec.best_first sign row =
  chain (fun x y => if 0 <? sign then SFleb y x else SFleb x y) row.
Proof.
  induction row as [|x row IH].
  - reflexivity.
  - destruct row as [|y row]; [reflexivity|].
    cbn [Spec.best_first chain] in IH |- *. rewrite IH. reflexivity.
Qed.

End Chains.

(* ================================================================== *)
(** * The order of the floats *)

Module FloatOrder.

(** The comparison of two floats, with its arguments exchanged. *)
Lemma SFcompare_swap (x y : spec_float) :
  SFcompare y x = option_map CompOpp (SFcompare x y).
Proof.
  destruct x as [s1|s1| |s1 m1 e1], y as [s2|s2| |s2 m2 e2];
    try reflexivity;
    try (destruct s1; reflexivity);
    try (destruct s2; reflexivity);
    try (destruct s1, s2; reflexivity).
  cbn [SFcompare option_map].
  destruct s1, s2; try reflexivity; f_equal;
    rewrite (Z.compare_antisym e2 e1);
    destruct (e2 ?= e1); cbn [CompOpp]; try reflexivity.
  - rewrite (Pos.compare_cont_antisym m1 m2 Eq). reflexivity.
  - rewrite (Pos.compare_cont_antisym m1 m2 Eq). reflexivity.
Qed.

Lemma SFltb_asym (x y : spec_float) : SFltb x y = true -> SFltb y x = false.
Proof.
  unfold SFltb. rewrite (SFcompare_swap x y).
  destruct (SFcompare x y) as [[| |]|]; cbn; congruence.
Qed.

Lemma SFltb_nan_l (y : spec_float) : SFltb S754_nan y = false.
Proof. reflexivity. Qed.

Lemma SFltb_nan_r (x : spec_float) : SFltb x S754_nan = false.
Proof. destruct x; reflexivity. Qed.

Lemma SFltb_not_nan (x y : spec_float) :
  SFltb x y = true -> Numpy.is_nan x = false /\ Numpy.is_nan y = false.
Proof.
  destruct x, y; cbn; intros H; try discriminate; split; reflexivity.
Qed.

Lemma sort_lt_asym (x y : Numpy.scalar) :
  Numpy.sort_lt x y = true -> Numpy.sort_lt y x = false.
Proof.
  unfold Numpy.sort_lt. intros H. apply orb_true_iff in H.
  destruct H as [H|H].
  - rewrite (SFltb_asym _ _ H).
    destruct (SFltb_not_nan _ _ H) as [-> _].
    rewrite andb_false_r. reflexivity.
  - apply andb_true_iff in H. destruct H as [Hx Hy].
    destruct y; try discriminate Hy. cbn. reflexivity.
Qed.

(** Among numbers, "not less" is "greater or equal". *)
Lemma not_lt_leb (x y : spec_float) :
  Numpy.is_nan x = false -> Numpy.is_nan y = false ->
  SFltb x y = false -> SFleb y x = true.
Proof.
  intros Hx Hy. unfold SFltb, SFleb. rewrite (SFcompare_swap x y).
  destruct (SFcompare x y) as [[| |]|] eqn:E; cbn; try congruence.
  destruct x, y; try discriminate; cbn in E; discriminate.
Qed.

Lemma sort_lt_false_leb (x y : Numpy.scalar) :
  Numpy.is_nan x = false -> Numpy.is_nan y = false ->
  Numpy.sort_lt x y = false -> SFleb y x = true.
Proof.
  intros Hx Hy H. unfold Numpy.sort_lt in H.
  apply orb_false_iff in H. destruct H as [H _].
  apply not_lt_leb; assumption.
Qed.

End FloatOrder.

(* ================================================================== *)
(** * The positions that [np.argsort] returns *)

Module Sorting.
Import Ranking.

Definition sorted_pairs (v : list Numpy.scalar) : list (Numpy.scalar * nat) :=
  fold_right Numpy.insert_key [] (Numpy.enumerate_from 0 v).

Lemma insert_key_perm (p : Numpy.scalar * nat) (l : list (Numpy.scalar * nat)) :
  Permutation (Numpy.insert_key p l) (p :: l).
Proof.
  induction l as [|q r IH]; cbn [Numpy.insert_key].
  - apply Permutation_refl.
  - destruct (Numpy.sort_lt (fst q) (fst p)).
    + apply perm_trans with (q :: p :: r); [apply perm_skip; exact IH|apply perm_swap].
    + apply Permutation_refl.
Qed.

Lemma sort_perm (l : list (Numpy.scalar * nat)) :
  Permutation (fold_right Numpy.insert_key [] l) l.
Proof.
  induction l as [|p l IH]; cbn [fold_right].
  - apply perm_nil.
  - apply perm_trans with (p :: fold_right Numpy.insert_key [] l).
    + apply insert_key_perm.
    + apply perm_skip. exact IH.
Qed.

Lemma enumerate_from_snd {A} (i : nat) (v : list A) :
  map snd (Numpy.enumerate_from i v) = seq i (length v).
Proof.
  revert i. induction v as [|x v IH]; intros i; cbn.
  - reflexivity.
  - f_equal. apply IH.
Qed.

Lemma enumerate_from_nth {A} (d : A) (v : list A) (i : nat) :
  Forall (fun p => (i <= snd p)%nat /\ nth (snd p - i) v d = fst p)
         (Numpy.enumerate_from i v).
Proof.
  revert i. induction v as [|x v IH]; intros i; cbn [Numpy.enumerate_from].
  - constructor.
  - constructor.
    + cbn [fst snd]. rewrite Nat.sub_diag. split; [lia|reflexivity].
    + eapply Forall_impl; [|apply (IH (S i))].
      intros [y j]. cbn [fst snd]. intros [Hj Hy]. split; [lia|].
      replace (j - i)%nat with (S (j - S i)) by lia. exact Hy.
Qed.

(** [np.argsort] returns every position once. *)
Lemma argsort_perm (v : list Numpy.scalar) :
  Permutation (Numpy.argsort v) (seq 0 (length v)).
Proof.
  unfold Numpy.argsort. rewrite <- (enumerate_from_snd 0 v).
  apply Permutation_map. apply sort_perm.
Qed.

Lemma length_argsort (v : list Numpy.scalar) :
  length (Numpy.argsort v) = length v.
Proof.
  rewrite (Permutation_length (argsort_perm v)). apply length_seq.
Qed.

Lemma argsort_in_range (v : list Numpy.scalar) (i : nat) :
  In i (Numpy.argsort v) -> (i < length v)%nat.
Proof.
  intros H. apply (Permutation_in _ (argsort_perm v)) in H.
  apply in_seq in H. lia.
Qed.

Lemma argsort_nodup (v : list Numpy.scalar) : NoDup (Numpy.argsort v).
Proof.
  apply (Permutation_NoDup (Permutation_sym (argsort_perm v))).
  apply seq_NoDup.
Qed.

(** The values at the positions of [np.argsort] are the sorted keys. *)
Lemma take_argsort (d : Numpy.scalar) (v : list Numpy.scalar) :
  Numpy.take d v (Numpy.argsort v) = map fst (sorted_pairs v).
Proof.
  unfold Numpy.take, Numpy.argsort. fold (sorted_pairs v).
  rewrite map_map. apply map_ext_in. intros p Hp.
  pose proof (enumerate_from_nth d v 0) as H.
  apply (Permutation_Forall (Permutation_sym (sort_perm _))) in H.
  fold (sorted_pairs v) in H.
  rewrite Forall_forall in H. destruct (H p Hp) as [_ Hnth].
  rewrite Nat.sub_0_r in Hnth. exact Hnth.
Qed.

Lemma insert_key_head (p q : Numpy.scalar * nat) (r : list (Numpy.scalar * nat)) :
  exists tl, Numpy.insert_key p (q :: r) = p :: tl \/
             Numpy.insert_key p (q :: r) = q :: tl.
Proof.
  cbn [Numpy.insert_key]. destruct (Numpy.sort_lt (fst q) (fst p)); eauto.
Qed.

Lemma insert_key_ascending (p : Numpy.scalar * nat) (l : list (Numpy.scalar * nat)) :
  ascending (map fst l) = true ->
  ascending (map fst (Numpy.insert_key p l)) = true.
Proof.
  unfold ascending. induction l as [|q r IH]; intros H.
  - reflexivity.
  - cbn [Numpy.insert_key].
    destruct (Numpy.sort_lt (fst q) (fst p)) eqn:E.
    + cbn [map] in H |- *. rewrite Chains.chain_cons in H |- *.
      apply andb_true_iff in H. destruct H as [Hq Hr].
      rewrite (IH Hr), andb_true_r.
      destruct r as [|q2 r]; cbn [Numpy.insert_key map].
      * rewrite (FloatOrder.sort_lt_asym _ _ E). reflexivity.
      * destruct (Numpy.sort_lt (fst q2) (fst p)); cbn [map].
        -- exact Hq.
        -- rewrite (FloatOrder.sort_lt_asym _ _ E). reflexivity.
    + cbn [map] in H |- *. rewrite Chains.chain_cons. cbn [map] in *.
      rewrite E, H. reflexivity.
Qed.

(** The sorted keys are in ascending order. *)
Lemma ascending_sorted (v : list Numpy.scalar) :
  ascending (map fst (sorted_pairs v)) = true.
Proof.
  unfold sorted_pairs.
  induction (Numpy.enumerate_from 0 v) as [|p l IH]; cbn [fold_right].
  - reflexivity.
  - apply insert_key_ascending. exact IH.
Qed.

Lemma ascending_take_argsort (d : Numpy.scalar) (v : list Numpy.scalar) :
  ascending (Numpy.take d v (Numpy.argsort v)) = true.
Proof. rewrite take_argsort. apply ascending_sorted. Qed.

(** In ascending order every element after a NaN is a NaN. *)
Lemma ascending_nan_last (l : list Numpy.scalar) (d : Numpy.scalar) :
  ascending l = true -> In S754_nan l -> last l d = S754_nan.
Proof.
  unfold ascending. induction l as [|x l IH]; intros H Hin.
  - destruct Hin.
  - rewrite Chains.chain_cons in H. apply andb_true_iff in H.
    destruct H as [Hx Hl].
    destruct l as [|y l].
    + destruct Hin as [->|[]]. reflexivity.
    + change (last (x :: y :: l) d) with (last (y :: l) d).
      apply IH; [exact Hl|].
      destruct Hin as [->|Hin]; [|exact Hin].
      left. apply negb_true_iff in Hx. unfold Numpy.sort_lt in Hx.
      apply orb_false_iff in Hx. destruct Hx as [_ Hx].
      destruct y; try discriminate Hx. reflexivity.
Qed.

End Sorting.

(* ================================================================== *)
(** * Reshaping, stacking and taking *)

Module Arrays.

Lemma in_firstn_of {A} (n : nat) (l : list A) (x : A) :
  In x (firstn n l) -> In x l.
Proof.
  intros H. rewrite <- (firstn_skipn n l). apply in_or_app. left. exact H.
Qed.

Lemma in_skipn_of {A} (n : nat) (l : list A) (x : A) :
  In x (skipn n l) -> In x l.
Proof.
  intros H. rewrite <- (firstn_skipn n l). apply in_or_app. right. exact H.
Qed.

Lemma nodup_firstn {A} (n : nat) (l : list A) : NoDup l -> NoDup (firstn n l).
Proof.
  intros H. rewrite <- (firstn_skipn n l) in H.
  exact (NoDup_app_remove_r _ _ H).
Qed.

Lemma nodup_skipn {A} (n : nat) (l : list A) : NoDup l -> NoDup (skipn n l).
Proof.
  intros H. rewrite <- (firstn_skipn n l) in H.
  exact (NoDup_app_remove_l _ _ H).
Qed.

Lemma in_slice {A} (l : list A) (a b : Z) (x : A) : In x (Py.slice l a b) -> In x l.
Proof.
  unfold Py.slice. intros H. apply in_firstn_of in H. apply in_skipn_of in H.
  exact H.
Qed.

Lemma length_concat_uniform {A} (k : nat) (a : list (list A)) :
  Forall (fun r => length r = k) a -> length (concat a) = (length a * k)%nat.
Proof.
  induction 1 as [|r a Hr Ha IH]; cbn [concat length].
  - reflexivity.
  - rewrite length_app, Hr, IH. reflexivity.
Qed.

(** Cutting a flat array of [n * k] elements into rows of [k]. *)
Lemma regroup_rows {A} (k n : nat) (l : list A) :
  length l = (n * k)%nat ->
  length (Numpy.regroup k n l) = n /\
  Forall (fun r => length r = k) (Numpy.regroup k n l) /\
  concat (Numpy.regroup k n l) = l.
Proof.
  revert l. induction n as [|n IH]; intros l Hl; cbn [Numpy.regroup].
  - destruct l; [|discriminate Hl]. repeat split. constructor.
  - destruct (IH (skipn k l)) as (H1 & H2 & H3).
    { rewrite length_skipn. lia. }
    cbn [length concat]. rewrite H1, H3, firstn_skipn.
    repeat split. constructor; [|exact H2].
    rewrite length_firstn. lia.
Qed.

Lemma regroup_concat {A} (k : nat) (a : list (list A)) :
  Forall (fun r => length r = k) a ->
  Numpy.regroup k (length a) (concat a) = a.
Proof.
  induction 1 as [|r a Hr Ha IH]; cbn [concat length Numpy.regroup].
  - reflexivity.
  - subst k. rewrite firstn_app, firstn_all, Nat.sub_diag.
    cbn [firstn]. rewrite app_nil_r.
    rewrite skipn_app, skipn_all, Nat.sub_diag.
    cbn [skipn app]. rewrite IH. reflexivity.
Qed.

(** A reshape that returns leaves the trace alone and yields rows of
    [k] columns with the same elements in the same order. *)
Lemma reshape_rows_returns {A} (k : Z) (a r : list (list A)) (t t' : Py.trace) :
  Numpy.reshape_rows k a t = (t', inr r) ->
  0 < k /\ t' = t /\
  Forall (fun row => length row = Z.to_nat k) r /\ concat r = concat a.
Proof.
  unfold Numpy.reshape_rows.
  destruct (Z.leb_spec k 0) as [Hk|Hk]; [discriminate|].
  destruct (Z.eqb_spec (Z.of_nat (length (concat a)) mod k) 0) as [Hm|Hm];
    [|discriminate].
  intros H. injection H as <- <-.
  pose proof (Z.div_mod (Z.of_nat (length (concat a))) k ltac:(lia)) as Hdm.
  assert (Hq : 0 <= Z.of_nat (length (concat a)) / k)
    by (apply Z.div_pos; lia).
  destruct (regroup_rows (Z.to_nat k)
              (Z.to_nat (Z.of_nat (length (concat a)) / k)) (concat a))
    as (_ & H2 & H3); [nia|].
  repeat split; [exact Hk|exact H2|exact H3].
Qed.

(** A matrix that has [k] columns already is returned as it is. *)
Lemma reshape_rows_id {A} (k : Z) (a : list (list A)) (t : Py.trace) :
  0 < k -> Forall (fun row => length row = Z.to_nat k) a ->
  Numpy.reshape_rows k a t = (t, inr a).
Proof.
  intros Hk Ha. unfold Numpy.reshape_rows.
  destruct (Z.leb_spec k 0) as [H|_]; [lia|].
  rewrite (length_concat_uniform _ _ Ha).
  replace (Z.of_nat (length a * Z.to_nat k)) with (Z.of_nat (length a) * k) by lia.
  rewrite Z.mod_mul, Z.div_mul by lia.
  cbn [Z.eqb]. rewrite Nat2Z.id, (regroup_concat _ _ Ha). reflexivity.
Qed.

Lemma hstack_rows_some {A} (a b r : list (list A)) :
  Numpy.hstack_rows a b = Some r ->
  length a = length b /\ r = map (fun p => fst p ++ snd p) (combine a b).
Proof.
  revert b r. induction a as [|x a IH]; intros [|y b] r; cbn [Numpy.hstack_rows];
    try discriminate.
  - intros H. injection H as <-. split; reflexivity.
  - destruct (Numpy.hstack_rows a b) as [r'|] eqn:E; [|discriminate].
    intros H. injection H as <-.
    destruct (IH b r' E) as [Hl ->]. cbn [length combine map fst snd].
    split; [lia|reflexivity].
Qed.

Lemma hstack_returns {A} (a b r : list (list A)) (t t' : Py.trace) :
  Numpy.hstack a b t = (t', inr r) ->
  t' = t /\ length a = length b /\
  r = map (fun p => fst p ++ snd p) (combine a b).
Proof.
  unfold Numpy.hstack.
  destruct (Numpy.hstack_rows a b) as [r'|] eqn:E; [|discriminate].
  intros H. injection H as <- <-.
  split; [reflexivity|]. apply hstack_rows_some. exact E.
Qed.

Lemma combine_map_r {A B C} (f : B -> C) (a : list A) (b : list B) :
  combine a (map f b) = map (fun p => (fst p, f (snd p))) (combine a b).
Proof.
  revert b. induction a as [|x a IH]; intros [|y b]; cbn [combine map fst snd].
  - reflexivity.
  - reflexivity.
  - reflexivity.
  - f_equal. apply IH.
Qed.

Lemma combine_self {A} (a : list A) : combine a a = map (fun x => (x, x)) a.
Proof. induction a as [|x a IH]; cbn; [reflexivity|f_equal; exact IH]. Qed.

Lemma Forall_concat {A} (P : A -> Prop) (a : list (list A)) :
  Forall P (concat a) <-> Forall (Forall P) a.
Proof.
  induction a as [|r a IH]; cbn [concat].
  - split; constructor.
  - rewrite Forall_app, IH. split.
    + intros [H1 H2]. constructor; assumption.
    + intros H. inversion H; subst. split; assumption.
Qed.

Lemma in_take {A} (d : A) (row : list A) (idx : list nat) (x : A) :
  In x (Numpy.take d row idx) -> x = d \/ In x row.
Proof.
  unfold Numpy.take. intros H. apply in_map_iff in H.
  destruct H as (i & <- & _).
  destruct (nth_in_or_default i row d) as [H|H]; [right; exact H|left; exact H].
Qed.

Lemma length_take {A} (d : A) (row : list A) (idx : list nat) :
  length (Numpy.take d row idx) = length idx.
Proof. apply length_map. Qed.

Lemma take_map {A B} (f : A -> B) (d : A) (row : list A) (idx : list nat) :
  Numpy.take (f d) (map f row) idx = map f (Numpy.take d row idx).
Proof.
  unfold Numpy.take. rewrite map_map. apply map_ext. intros i. apply map_nth.
Qed.

Lemma take_firstn {A} (d : A) (row : list A) (idx : list nat) (n : nat) :
  Numpy.take d row (firstn n idx) = firstn n (Numpy.take d row idx).
Proof. unfold Numpy.take. symmetry. apply firstn_map. Qed.

Lemma take_skipn {A} (d : A) (row : list A) (idx : list nat) (n : nat) :
  Numpy.take d row (skipn n idx) = skipn n (Numpy.take d row idx).
Proof. unfold Numpy.take. symmetry. apply skipn_map. Qed.

Lemma take_rev {A} (d : A) (row : list A) (idx : list nat) :
  Numpy.take d row (rev idx) = rev (Numpy.take d row idx).
Proof. unfold Numpy.take. apply map_rev. Qed.

Lemma slice_prefix {A} (l : list A) (k : Z) :
  0 <= k -> Py.slice l 0 k = firstn (Z.to_nat k) l.
Proof.
  intros Hk. unfold Py.slice, Py.clip_index.
  change (0 <? 0) with false. cbv iota.
  destruct (Z.ltb_spec k 0) as [H|_]; [lia|].
  rewrite (Z.min_l 0) by lia. cbn [Z.to_nat skipn]. rewrite Z.sub_0_r.
  destruct (Z.le_ge_cases k (Z.of_nat (length l))) as [H|H].
  - rewrite (Z.min_l k) by lia. reflexivity.
  - rewrite (Z.min_r k) by lia. rewrite Nat2Z.id, firstn_all.
    symmetry. apply firstn_all2. lia.
Qed.

Lemma hd_rev_last {A} (l : list A) (d : A) : hd d (rev l) = last l d.
Proof.
  destruct l as [|x l] using rev_ind; [reflexivity|].
  rewrite rev_app_distr, last_last. reflexivity.
Qed.

Lemma last_skipn {A} (n : nat) (l : list A) (d : A) :
  (n < length l)%nat -> last (skipn n l) d = last l d.
Proof.
  revert l. induction n as [|n IH]; intros l Hn.
  - reflexivity.
  - destruct l as [|x l]; [cbn in Hn; lia|].
    cbn [skipn length] in *. rewrite IH by lia.
    destruct l; [cbn in Hn; lia|reflexivity].
Qed.

End Arrays.

(* ================================================================== *)
(** * The positions and values of [argtopk] and [topk] *)

Module TopK.
Import Ranking.

Lemma argtopk_positive (k : Z) (row : list Numpy.scalar) :
  0 < k ->
  Dask.argtopk k row = rev (Dask.lastn (Z.to_nat k) (Numpy.argsort row)).
Proof.
  intros Hk. unfold Dask.argtopk.
  destruct (Z.ltb_spec 0 k); [reflexivity|lia].
Qed.

Lemma argtopk_in_range (k : Z) (row : list Numpy.scalar) (i : nat) :
  In i (Dask.argtopk k row) -> (i < length row)%nat.
Proof.
  unfold Dask.argtopk, Dask.lastn. intros H.
  apply Sorting.argsort_in_range.
  destruct (0 <? k).
  - apply in_rev in H. exact (Arrays.in_skipn_of _ _ _ H).
  - exact (Arrays.in_firstn_of _ _ _ H).
Qed.

Lemma argtopk_nodup (k : Z) (row : list Numpy.scalar) :
  NoDup (Dask.argtopk k row).
Proof.
  unfold Dask.argtopk, Dask.lastn.
  destruct (0 <? k).
  - apply NoDup_rev. apply Arrays.nodup_skipn. apply Sorting.argsort_nodup.
  - apply Arrays.nodup_firstn. apply Sorting.argsort_nodup.
Qed.

Lemma length_argtopk (k : Z) (row : list Numpy.scalar) :
  0 < k ->
  length (Dask.argtopk k row) = Nat.min (Z.to_nat k) (length row).
Proof.
  intros Hk. rewrite argtopk_positive by exact Hk.
  unfold Dask.lastn.
  rewrite length_rev, length_skipn, Sorting.length_argsort. lia.
Qed.

Lemma length_topk (k : Z) (row : list Numpy.scalar) :
  0 < k ->
  length (Dask.topk k row) = Nat.min (Z.to_nat k) (length row).
Proof.
  intros Hk. unfold Dask.topk. rewrite Arrays.length_take.
  apply length_argtopk. exact Hk.
Qed.

(** [topk] with a positive [k]: the end of the sorted row, reversed. *)
Lemma topk_positive (k : Z) (row : list Numpy.scalar) :
  0 < k ->
  Dask.topk k row =
  rev (Dask.lastn (Z.to_nat k) (map fst (Sorting.sorted_pairs row))).
Proof.
  intros Hk. unfold Dask.topk. rewrite argtopk_positive by exact Hk.
  unfold Dask.lastn.
  rewrite Arrays.take_rev, Arrays.take_skipn, Sorting.take_argsort.
  rewrite Sorting.length_argsort.
  replace (length (map fst (Sorting.sorted_pairs row))) with (length row).
  - reflexivity.
  - rewrite <- Sorting.take_argsort with (d := S754_nan).
    rewrite Arrays.length_take, Sorting.length_argsort. reflexivity.
Qed.

(** The values come largest first. *)
Lemma topk_largest_first (k : Z) (row : list Numpy.scalar) :
  0 < k -> largest_first (Dask.topk k row) = true.
Proof.
  intros Hk. rewrite topk_positive by exact Hk.
  unfold largest_first. rewrite Chains.chain_rev.
  unfold Dask.lastn. apply Chains.chain_skipn.
  apply Sorting.ascending_sorted.
Qed.

(** A NaN anywhere in the row comes first. *)
Lemma topk_nan_first (k : Z) (row : list Numpy.scalar) (d : Numpy.scalar) :
  0 < k -> In S754_nan row -> hd d (Dask.topk k row) = S754_nan.
Proof.
  intros Hk Hin. rewrite topk_positive by exact Hk.
  rewrite Arrays.hd_rev_last. unfold Dask.lastn.
  assert (Hlen : length (map fst (Sorting.sorted_pairs row)) = length row).
  { rewrite <- Sorting.take_argsort with (d := S754_nan).
    rewrite Arrays.length_take, Sorting.length_argsort. reflexivity. }
  assert (Hpos : (0 < length row)%nat) by (destruct row; [destruct Hin|cbn; lia]).
  rewrite Arrays.last_skipn by lia.
  apply Sorting.ascending_nan_last; [apply Sorting.ascending_sorted|].
  unfold Sorting.sorted_pairs.
  apply (Permutation_in _ (Permutation_sym
           (Permutation_map fst (Sorting.sort_perm _)))).
  clear -Hin. revert Hin. generalize 0%nat.
  induction row as [|x row IH]; intros i Hin; [destruct Hin|].
  cbn [Numpy.enumerate_from map fst]. destruct Hin as [->|Hin].
  - left. reflexivity.
  - right. apply IH. exact Hin.
Qed.

(** The value at each returned position. *)
Lemma topk_at_argtopk (k : Z) (row : list Numpy.scalar) :
  Dask.topk k row = map (fun i => nth i row S754_nan) (Dask.argtopk k row).
Proof. reflexivity. Qed.

End TopK.

(* ================================================================== *)
(** * One turn of the loop over the chunks *)

Module Merging.
Import DictionaryIndexing Spec Ranking Wellformed.

(** [best_indices] of the merge: for every row of [all_scores], the
    first [keep_n] positions in the order of [negative_sign * score]. *)
Definition best_indices (metric : SimilarityMetric) (keep_n : Z)
  (all_scores : list (list Numpy.scalar)) : list (list nat) :=
  map (fun row =>
         Py.slice (Numpy.argsort
                     (Numpy.int_mul (dtype metric) (- sign metric) row))
                  0 keep_n)
      all_scores.

Lemma match_chunk_returns (metric : SimilarityMetric)
  (experimental simulated : batch) (keep_n : Z) (t t' : Py.trace)
  (idx : list (list Z)) (sc : list (list Numpy.scalar)) :
  _match_chunk metric experimental simulated keep_n t = (t', inr (idx, sc)) ->
  0 < keep_n /\
  t' = t ++ [Py.Matched (length (prepare_dictionary metric simulated)) keep_n] /\
  Forall (fun row => length row = Z.to_nat keep_n) idx /\
  concat idx =
    concat (map (fun row => map Z.of_nat (Dask.argtopk keep_n row))
                (similarities metric experimental simulated)) /\
  Forall (fun row => length row = Z.to_nat keep_n) sc /\
  concat sc = concat (map (Dask.topk keep_n)
                          (similarities metric experimental simulated)).
Proof.
  unfold _match_chunk, similarities.
  unfold Py.bind at 1. unfold Py.tell at 1.
  unfold Py.bind at 1.
  destruct (Numpy.reshape_rows keep_n _ _) as [t1 [e|idx']] eqn:E1; [discriminate|].
  unfold Py.bind at 1.
  destruct (Numpy.reshape_rows keep_n _ t1) as [t2 [e|sc']] eqn:E2; [discriminate|].
  intros H. injection H as <- <- <-.
  apply Arrays.reshape_rows_returns in E1. destruct E1 as (Hk & -> & Hi & Hci).
  apply Arrays.reshape_rows_returns in E2. destruct E2 as (_ & -> & Hs & Hcs).
  repeat split; assumption.
Qed.

(** When every row of the similarities has at least [keep_n] scores, the
    reshape changes nothing: row [i] of the result is the top [keep_n]
    of row [i] of the similarities. *)
Lemma match_chunk_rowwise (metric : SimilarityMetric)
  (experimental simulated : batch) (keep_n : Z) (t : Py.trace) :
  0 < keep_n ->
  Forall (fun row => (Z.to_nat keep_n <= length row)%nat)
    (similarities metric experimental simulated) ->
  _match_chunk metric experimental simulated keep_n t =
  (t ++ [Py.Matched (length (prepare_dictionary metric simulated)) keep_n],
   inr (map (fun row => map Z.of_nat (Dask.argtopk keep_n row))
            (similarities metric experimental simulated),
        map (Dask.topk keep_n) (similarities metric experimental simulated))).
Proof.
  intros Hk Hrows. unfold _match_chunk. fold (similarities metric experimental simulated).
  unfold Py.bind at 1. unfold Py.tell at 1.
  unfold Py.bind at 1. rewrite Arrays.reshape_rows_id.
  - unfold Py.bind at 1. rewrite Arrays.reshape_rows_id.
    + reflexivity.
    + exact Hk.
    + apply Forall_map. eapply Forall_impl; [|exact Hrows].
      cbn. intros row Hrow. rewrite TopK.length_topk by exact Hk. lia.
  - exact Hk.
  - apply Forall_map. eapply Forall_impl; [|exact Hrows].
    cbn. intros row Hrow. rewrite length_map, TopK.length_argtopk by exact Hk. lia.
Qed.

(** One turn of the loop that returns. *)
Lemma merge_chunk_returns (metric : SimilarityMetric)
  (experimental dictionary : batch) (keep_n : Z) (acc acc' : xmap)
  (start stop : Z) (t t' : Py.trace) :
  merge_chunk metric experimental dictionary keep_n acc (start, stop) t =
    (t', inr acc') ->
  exists idx_i sc_i,
    _match_chunk metric experimental (Py.slice dictionary start stop)
      (Z.min keep_n (stop - start)) (t ++ [Py.Sliced start stop]) =
      ((t ++ [Py.Sliced start stop]) ++
       [Py.Matched
          (length (prepare_dictionary metric (Py.slice dictionary start stop)))
          (Z.min keep_n (stop - start))],
       inr (idx_i, sc_i)) /\
    t' = t ++ Traces.turn metric dictionary keep_n (start, stop) /\
    length (scores acc) = length sc_i /\
    length (simulation_indices acc) = length idx_i /\
    let all_scores :=
      map (fun p => fst p ++ snd p) (combine (scores acc) sc_i) in
    let all_simulation_indices :=
      map (fun p => fst p ++ snd p)
          (combine (simulation_indices acc)
                   (map (map (fun i => i + start)) idx_i)) in
    acc' =
      {| scores :=
           Numpy.take_along_axis S754_nan all_scores
             (best_indices metric keep_n all_scores);
         simulation_indices :=
           Numpy.take_along_axis 0 all_simulation_indices
             (best_indices metric keep_n all_scores) |}.
Proof.
  unfold merge_chunk.
  unfold Py.bind at 1. unfold Py.tell at 1.
  unfold Py.bind at 1.
  destruct (_match_chunk _ _ _ _ _) as [t1 [e|[idx_i sc_i]]] eqn:Em; [discriminate|].
  pose proof (match_chunk_returns _ _ _ _ _ _ _ _ Em) as (_ & Ht1 & _).
  subst t1.
  unfold Py.bind at 1.
  destruct (Numpy.hstack (scores acc) sc_i _) as [t2 [e|all_sc]] eqn:E1; [discriminate|].
  apply Arrays.hstack_returns in E1. destruct E1 as (-> & Hl1 & ->).
  unfold Py.bind at 1.
  destruct (Numpy.hstack (simulation_indices acc) _ _) as [t3 [e|all_ix]] eqn:E2;
    [discriminate|].
  apply Arrays.hstack_returns in E2. destruct E2 as (-> & Hl2 & ->).
  unfold Py.bind at 1. unfold Py.tell at 1. unfold Py.ret.
  intros H. injection H as <- <-.
  exists idx_i, sc_i.
  split; [reflexivity|].
  split.
  { unfold Traces.turn. cbn [fst snd]. rewrite <- !app_assoc. reflexivity. }
  split; [exact Hl1|].
  split; [rewrite Hl2, !length_map; reflexivity|].
  reflexivity.
Qed.

(** A property that every turn keeps holds at the end of the loop. *)
Lemma for_each_invariant {A B} (P : B -> Prop) (Q : A -> Prop)
  (body : B -> A -> Py.M B) (xs : list A) :
  (forall acc x t t' acc',
     Q x -> P acc -> body acc x t = (t', inr acc') -> P acc') ->
  Forall Q xs ->
  forall acc t t' r,
    P acc -> Py.for_each xs body acc t = (t', inr r) -> P r.
Proof.
  intros Hbody Hxs. induction Hxs as [|x xs Hx Hxs IH];
    intros acc t t' r Hacc; cbn [Py.for_each].
  - intros H. injection H as _ <-. exact Hacc.
  - unfold Py.bind.
    destruct (body acc x t) as [t1 [e|acc1]] eqn:E; [discriminate|].
    apply IH. exact (Hbody _ _ _ _ _ Hx Hacc E).
Qed.

(** The trace of the loop: the events of its turns, in order. *)
Lemma for_each_trace (metric : SimilarityMetric)
  (experimental dictionary : batch) (keep_n : Z) (bounds : list (Z * Z)) :
  forall acc t t' r,
    Py.for_each bounds (merge_chunk metric experimental dictionary keep_n) acc t =
      (t', inr r) ->
    t' = t ++ flat_map (Traces.turn metric dictionary keep_n) bounds.
Proof.
  induction bounds as [|[start stop] bounds IH]; intros acc t t' r;
    cbn [Py.for_each flat_map].
  - intros H. injection H as <- _. symmetry. apply app_nil_r.
  - unfold Py.bind.
    destruct (merge_chunk _ _ _ _ _ _ _) as [t1 [e|acc1]] eqn:E; [discriminate|].
    intros H. apply IH in H.
    apply merge_chunk_returns in E. destruct E as (_ & _ & _ & -> & _).
    rewrite H, <- app_assoc. reflexivity.
Qed.

(** The rows of the merged arrays. *)
Lemma merged_scores (metric : SimilarityMetric) (keep_n : Z)
  (all_scores : list (list Numpy.scalar)) :
  Numpy.take_along_axis S754_nan all_scores
    (best_indices metric keep_n all_scores) =
  map (fun row =>
         Numpy.take S754_nan row
           (Py.slice (Numpy.argsort
                        (Numpy.int_mul (dtype metric) (- sign metric) row))
                     0 keep_n))
      all_scores.
Proof.
  unfold Numpy.take_along_axis, best_indices.
  rewrite Arrays.combine_map_r, Arrays.combine_self, !map_map.
  apply map_ext. intros row. reflexivity.
Qed.

Lemma length_best_row (metric : SimilarityMetric) (keep_n : Z)
  (row : list Numpy.scalar) :
  0 <= keep_n -> (Z.to_nat keep_n <= length row)%nat ->
  length (Py.slice (Numpy.argsort
                      (Numpy.int_mul (dtype metric) (- sign metric) row))
                   0 keep_n) = Z.to_nat keep_n.
Proof.
  intros Hk Hrow. rewrite Arrays.slice_prefix by exact Hk.
  rewrite length_firstn, Sorting.length_argsort.
  unfold Numpy.int_mul. rewrite length_map. lia.
Qed.

Lemma best_row_in_range (metric : SimilarityMetric) (keep_n : Z)
  (row : list Numpy.scalar) (i : nat) :
  In i (Py.slice (Numpy.argsort
                    (Numpy.int_mul (dtype metric) (- sign metric) row))
                 0 keep_n) ->
  (i < length row)%nat.
Proof.
  intros H. apply Arrays.in_slice in H. apply Sorting.argsort_in_range in H.
  unfold Numpy.int_mul in H. rewrite length_map in H. exact H.
Qed.

(** The shape of the running arrays. *)
Definition shaped (n k : nat) (acc : xmap) : Prop :=
  length (scores acc) = n /\ length (simulation_indices acc) = n /\
  Forall (fun row => length row = k) (scores acc) /\
  Forall (fun row => length row = k) (simulation_indices acc).

Lemma merge_chunk_shaped (metric : SimilarityMetric)
  (experimental dictionary : batch) (keep_n : Z) (n : nat)
  (acc acc' : xmap) (bounds : Z * Z) (t t' : Py.trace) :
  0 <= keep_n ->
  shaped n (Z.to_nat keep_n) acc ->
  merge_chunk metric experimental dictionary keep_n acc bounds t = (t', inr acc') ->
  shaped n (Z.to_nat keep_n) acc'.
Proof.
  intros Hk (Hn1 & Hn2 & Hs & Hi) H. destruct bounds as [start stop].
  apply merge_chunk_returns in H.
  destruct H as (idx_i & sc_i & _ & _ & Hl1 & Hl2 & Hacc). cbv zeta in Hacc.
  subst acc'. unfold shaped. cbn [scores simulation_indices].
  set (all_scores := map (fun p => fst p ++ snd p) (combine (scores acc) sc_i)).
  assert (Hall : Forall (fun row => (Z.to_nat keep_n <= length row)%nat) all_scores).
  { apply Forall_forall. intros row Hrow. apply in_map_iff in Hrow.
    destruct Hrow as ([x y] & <- & Hxy). cbn [fst snd].
    apply in_combine_l in Hxy. rewrite Forall_forall in Hs.
    rewrite length_app, (Hs x Hxy). lia. }
  assert (Hlen : length all_scores = n).
  { unfold all_scores. rewrite length_map, length_combine. lia. }
  split.
  { rewrite merged_scores, length_map. exact Hlen. }
  split.
  { unfold Numpy.take_along_axis, best_indices.
    rewrite length_map, length_combine, !length_map, length_combine.
    fold all_scores. rewrite !length_map. lia. }
  split.
  - rewrite merged_scores. apply Forall_map.
    eapply Forall_impl; [|exact Hall]. cbn. intros row Hrow.
    rewrite Arrays.length_take. apply length_best_row; assumption.
  - unfold Numpy.take_along_axis. apply Forall_map.
    apply Forall_forall. intros [row ix] Hp.
    rewrite Arrays.length_take.
    apply in_combine_r in Hp. unfold best_indices in Hp.
    apply in_map_iff in Hp. destruct Hp as (row' & <- & Hrow').
    rewrite Forall_forall in Hall.
    apply length_best_row; [exact Hk|]. apply Hall. exact Hrow'.
Qed.

(** Every score of the running arrays comes from a set that holds the
    scores of the chunk. *)
Lemma merge_chunk_scores (Q : Numpy.scalar -> Prop) (metric : SimilarityMetric)
  (experimental dictionary : batch) (keep_n : Z)
  (acc acc' : xmap) (start stop : Z) (t t' : Py.trace) :
  Forall (Forall Q)
    (similarities metric experimental (Py.slice dictionary start stop)) ->
  Forall (Forall Q) (scores acc) ->
  merge_chunk metric experimental dictionary keep_n acc (start, stop) t =
    (t', inr acc') ->
  Forall (Forall Q) (scores acc').
Proof.
  intros Hchunk Hacc H.
  apply merge_chunk_returns in H.
  destruct H as (idx_i & sc_i & Hm & _ & _ & _ & ->). cbv zeta.
  cbn [scores]. rewrite merged_scores.
  apply match_chunk_returns in Hm. destruct Hm as (_ & _ & _ & _ & _ & Hsc).
  assert (Hsci : Forall (Forall Q) sc_i).
  { apply Arrays.Forall_concat. rewrite Hsc. apply Arrays.Forall_concat.
    apply Forall_map. eapply Forall_impl; [|exact Hchunk].
    cbn. intros row Hrow. apply Forall_forall. intros x Hx.
    unfold Dask.topk, Numpy.take in Hx. apply in_map_iff in Hx.
    destruct Hx as (i & <- & Hi). apply TopK.argtopk_in_range in Hi.
    rewrite Forall_forall in Hrow. apply Hrow. apply nth_In. exact Hi. }
  apply Forall_map. apply Forall_forall. intros row Hrow.
  apply in_map_iff in Hrow. destruct Hrow as ([x y] & <- & Hxy). cbn [fst snd].
  apply Forall_forall. intros s Hs.
  unfold Numpy.take in Hs. apply in_map_iff in Hs. destruct Hs as (i & <- & Hi).
  apply best_row_in_range in Hi.
  assert (Hin : In (nth i (x ++ y) S754_nan) (x ++ y)) by (apply nth_In; exact Hi).
  apply in_app_or in Hin. destruct Hin as [Hin|Hin].
  - apply in_combine_l in Hxy. rewrite Forall_forall in Hacc.
    specialize (Hacc x Hxy). rewrite Forall_forall in Hacc. apply Hacc. exact Hin.
  - apply in_combine_r in Hxy. rewrite Forall_forall in Hsci.
    specialize (Hsci y Hxy). rewrite Forall_forall in Hsci. apply Hsci. exact Hin.
Qed.

(** Every index of the running arrays is a dictionary position, for a
    metric with one score per simulated pattern. *)
Lemma merge_chunk_indices (metric : SimilarityMetric)
  (experimental dictionary : batch) (keep_n : Z)
  (acc acc' : xmap) (bounds : Z * Z) (t t' : Py.trace) :
  scores_per_pattern metric ->
  0 <= fst bounds /\ fst bounds < snd bounds /\
    snd bounds <= Z.of_nat (length dictionary) ->
  Forall (Forall (fun i => 0 <= i < Z.of_nat (length dictionary)))
    (simulation_indices acc) ->
  merge_chunk metric experimental dictionary keep_n acc bounds t =
    (t', inr acc') ->
  Forall (Forall (fun i => 0 <= i < Z.of_nat (length dictionary)))
    (simulation_indices acc').
Proof.
  intros Hmetric Hb Hacc H. destruct bounds as [start stop]. cbn [fst snd] in Hb.
  apply merge_chunk_returns in H.
  destruct H as (idx_i & sc_i & Hm & _ & _ & _ & ->). cbv zeta.
  cbn [simulation_indices].
  apply match_chunk_returns in Hm. destruct Hm as (_ & _ & _ & Hix & _ & _).
  assert (Hidx : Forall (Forall (fun i => 0 <= i < Z.of_nat (length dictionary)))
                   (map (map (fun i => i + start)) idx_i)).
  { apply Forall_map. apply Forall_forall. intros row Hrow.
    apply Forall_map. apply Forall_forall. intros i Hi.
    assert (Hc : In i (concat idx_i)) by (apply in_concat; eauto).
    rewrite Hix in Hc. apply in_concat in Hc. destruct Hc as (r & Hr & Hir).
    apply in_map_iff in Hr. destruct Hr as (srow & <- & Hsrow).
    apply in_map_iff in Hir. destruct Hir as (j & <- & Hj).
    apply TopK.argtopk_in_range in Hj.
    pose proof (Hmetric experimental (Py.slice dictionary start stop)) as Hsp.
    rewrite Forall_forall in Hsp. unfold similarities in Hsrow.
    rewrite (Hsp srow Hsrow) in Hj.
    pose proof (Slicing.length_slice dictionary start stop) as Hls.
    lia. }
  unfold Numpy.take_along_axis. apply Forall_map.
  apply Forall_forall. intros [row ix] Hp.
  apply in_combine_l in Hp. apply in_map_iff in Hp.
  destruct Hp as ([x y] & <- & Hxy). cbn [fst snd].
  apply Forall_forall. intros i Hi. apply Arrays.in_take in Hi.
  destruct Hi as [->|Hi]; [lia|].
  apply in_app_or in Hi. destruct Hi as [Hi|Hi].
  - apply in_combine_l in Hxy. rewrite Forall_forall in Hacc.
    specialize (Hacc x Hxy). rewrite Forall_forall in Hacc. apply Hacc. exact Hi.
  - apply in_combine_r in Hxy. rewrite Forall_forall in Hidx.
    specialize (Hidx y Hxy). rewrite Forall_forall in Hidx. apply Hidx. exact Hi.
Qed.

Lemma key_of_nan (t : Numpy.dtype) (c : Numpy.scalar) :
  Numpy.mul t c S754_nan = S754_nan.
Proof. destruct c; reflexivity. Qed.

(** After a merge every row of scores is in the order of its keys. *)
Lemma merge_chunk_ordered (metric : SimilarityMetric)
  (experimental dictionary : batch) (keep_n : Z)
  (acc acc' : xmap) (bounds : Z * Z) (t t' : Py.trace) :
  0 <= keep_n ->
  merge_chunk metric experimental dictionary keep_n acc bounds t =
    (t', inr acc') ->
  Forall (fun row =>
            ascending (Numpy.int_mul (dtype metric) (- sign metric) row) = true)
    (scores acc').
Proof.
  intros Hk H. destruct bounds as [start stop].
  apply merge_chunk_returns in H.
  destruct H as (idx_i & sc_i & _ & _ & _ & _ & ->). cbv zeta.
  cbn [scores]. rewrite merged_scores.
  apply Forall_map. apply Forall_forall. intros row _.
  rewrite Arrays.slice_prefix by exact Hk.
  unfold Numpy.int_mul at 1.
  rewrite <- Arrays.take_map, key_of_nan.
  fold (Numpy.int_mul (dtype metric) (- sign metric) row).
  rewrite Arrays.take_firstn.
  apply Chains.chain_firstn. apply Sorting.ascending_take_argsort.
Qed.

End Merging.

(* ================================================================== *)
(** * Calls that return *)

Module Returns.
Import DictionaryIndexing Spec Wellformed Merging.

(** The running arrays before the first chunk. *)
Definition initial (metric : SimilarityMetric) (n_experimental : nat) (keep_n : Z)
  : xmap :=
  {| scores :=
       repeat (repeat (Numpy.of_int (dtype metric) (sign metric)) (Z.to_nat keep_n))
              n_experimental;
     simulation_indices := repeat (repeat 0 (Z.to_nat keep_n)) n_experimental |}.

(** A call on an empty dictionary raises. *)
Lemma driver_empty_dictionary (experimental : batch) (nav : list nat)
  (metric : SimilarityMetric) (keep_n n_per_iteration : Z) (t : Py.trace) :
  exists e,
    _dictionary_indexing experimental nav [] metric keep_n n_per_iteration t =
    (t, inl e).
Proof.
  unfold _dictionary_indexing, Py.floordiv. cbn [length Z.of_nat].
  destruct (n_per_iteration =? 0); eexists; reflexivity.
Qed.

(** A call returns only with a positive [keep_n] and a positive chunk
    size that is at most the dictionary size. *)
Lemma driver_returns_arguments (experimental : batch) (nav : list nat)
  (dictionary : batch) (metric : SimilarityMetric) (keep_n n_per_iteration : Z)
  (t : Py.trace) (r : xmap) :
  Py.run (_dictionary_indexing experimental nav dictionary metric
            keep_n n_per_iteration) = (t, inr r) ->
  0 < keep_n /\ 0 < n_per_iteration <= Z.of_nat (length dictionary).
Proof.
  intros H.
  assert (Hsize : 0 < Z.of_nat (length dictionary)).
  { destruct dictionary as [|x d]; [|cbn [length]; lia].
    destruct (driver_empty_dictionary experimental nav metric keep_n
                n_per_iteration []) as (e & He).
    unfold Py.run in H. rewrite He in H. discriminate H. }
  assert (Hn : 0 < n_per_iteration <= Z.of_nat (length dictionary)).
  { destruct (Z.eq_dec n_per_iteration 0) as [->|Hn0].
    { unfold Py.run in H. unfold _dictionary_indexing in H.
      unfold Py.bind at 1 in H. rewrite EarlyExit.floordiv_zero in H.
      discriminate H. }
    destruct (Z_lt_le_dec n_per_iteration 0) as [Hneg|Hpos].
    { rewrite EarlyExit.driver_no_iteration in H by (auto; lia). discriminate H. }
    destruct (Z_lt_le_dec (Z.of_nat (length dictionary)) n_per_iteration)
      as [Hbig|Hle].
    { rewrite EarlyExit.driver_no_iteration in H by (auto; lia). discriminate H. }
    lia. }
  split; [|exact Hn].
  destruct (Z_lt_le_dec 0 keep_n) as [Hk|Hk]; [exact Hk|exfalso].
  unfold Py.run in H.
  destruct (Z.eq_dec (Z.of_nat (length dictionary)) n_per_iteration) as [He|Hne].
  - rewrite EarlyExit.driver_single_pass in H by lia.
    rewrite NonPositiveKeepN.single_pass_nonpositive in H by lia.
    discriminate H.
  - rewrite EarlyExit.driver_multi_chunk in H by lia.
    destruct (Z_lt_le_dec keep_n 0) as [Hneg|Hzero].
    + rewrite EarlyExit.multi_chunk_path_negative_keep_n in H by lia.
      discriminate H.
    + assert (Hq : 0 < Z.of_nat (length dictionary) / n_per_iteration)
        by (apply Z.div_str_pos; lia).
      replace (Z.min keep_n (Z.of_nat (length dictionary))) with 0 in H by lia.
      replace (Z.of_nat (length dictionary) / n_per_iteration)
        with (Z.of_nat (S (Z.to_nat
                 (Z.of_nat (length dictionary) / n_per_iteration - 1)))) in H by lia.
      destruct (NonPositiveKeepN.multi_chunk_path_zero_keep_n metric
                  (prepare_experimental metric experimental) dictionary
                  (fold_right Nat.mul 1%nat nav) n_per_iteration
                  (Z.to_nat (Z.of_nat (length dictionary) / n_per_iteration - 1)) [])
        as (stop & Hstop); [lia|].
      rewrite Hstop in H. discriminate H.
Qed.

(** A multi-chunk run that returns is the loop over the computed
    boundaries, started from the initial arrays. *)
Lemma multi_chunk_path_returns (metric : SimilarityMetric)
  (experimental dictionary : batch) (n_experimental : nat)
  (keep_n n_per_iteration : Z) (t : Py.trace) (r : xmap) :
  0 < n_per_iteration <= Z.of_nat (length dictionary) ->
  multi_chunk_path metric experimental dictionary n_experimental keep_n
    n_per_iteration (Z.of_nat (length dictionary) / n_per_iteration) [] =
    (t, inr r) ->
  0 <= keep_n /\
  exists first_chunks last_start,
    let bounds := first_chunks ++ [(last_start, Z.of_nat (length dictionary))] in
    chunk_bounds (Z.of_nat (length dictionary)) n_per_iteration
      (Z.of_nat (length dictionary) / n_per_iteration) [] = ([], inr bounds) /\
    Z.of_nat (length first_chunks) =
      Z.of_nat (length dictionary) / n_per_iteration - 1 /\
    Forall (fun bd => snd bd - fst bd = n_per_iteration) first_chunks /\
    Z.of_nat (length dictionary) - last_start =
      n_per_iteration + Z.of_nat (length dictionary) mod n_per_iteration /\
    tiles 0 (Z.of_nat (length dictionary)) bounds /\
    Py.for_each bounds (merge_chunk metric experimental dictionary keep_n)
      (initial metric n_experimental keep_n) [] = (t, inr r).
Proof.
  intros Hn H.
  destruct (Z_lt_le_dec keep_n 0) as [Hk|Hk].
  { rewrite EarlyExit.multi_chunk_path_negative_keep_n in H by exact Hk.
    discriminate H. }
  split; [exact Hk|].
  destruct (ChunkSizes.chunk_bounds_of_call (Z.of_nat (length dictionary))
              n_per_iteration [] Hn)
    as (first_chunks & last_start & Hb & Hlen & Hsizes & Hlast & Htiles).
  exists first_chunks, last_start. cbv zeta.
  split; [exact Hb|]. split; [exact Hlen|]. split; [exact Hsizes|].
  split; [exact Hlast|]. split; [exact Htiles|].
  unfold multi_chunk_path in H.
  unfold Py.bind at 1 in H. rewrite EarlyExit.full_nonnegative in H by exact Hk.
  unfold Py.bind at 1 in H. rewrite EarlyExit.full_nonnegative in H by exact Hk.
  unfold Py.bind at 1 in H. rewrite Hb in H.
  exact H.
Qed.

Lemma initial_shaped (metric : SimilarityMetric) (n : nat) (keep_n : Z) :
  shaped n (Z.to_nat keep_n) (initial metric n keep_n).
Proof.
  unfold shaped, initial. cbn [scores simulation_indices].
  rewrite !repeat_length.
  repeat split; apply Forall_forall; intros row Hrow;
    apply repeat_spec in Hrow; subst row; apply repeat_length.
Qed.

Lemma length_concat_sum {A} (l : list (list A)) :
  length (concat l) = list_sum (map (@length A) l).
Proof.
  induction l as [|x l IH]; cbn [concat map list_sum].
  - reflexivity.
  - rewrite length_app, IH. reflexivity.
Qed.

(** The two arrays that [_match_chunk] returns have the same number of
    rows. *)
Lemma match_chunk_same_rows (metric : SimilarityMetric)
  (experimental simulated : batch) (keep_n : Z) (t t' : Py.trace)
  (idx : list (list Z)) (sc : list (list Numpy.scalar)) :
  _match_chunk metric experimental simulated keep_n t = (t', inr (idx, sc)) ->
  length idx = length sc.
Proof.
  intros H. apply match_chunk_returns in H.
  destruct H as (Hk & _ & Hi & Hci & Hs & Hcs).
  apply (f_equal (@length Z)) in Hci.
  apply (f_equal (@length Numpy.scalar)) in Hcs.
  rewrite (Arrays.length_concat_uniform _ _ Hi) in Hci.
  rewrite (Arrays.length_concat_uniform _ _ Hs) in Hcs.
  pose proof (eq_trans Hci (length_concat_sum _)) as Hi'.
  pose proof (eq_trans Hcs (length_concat_sum _)) as Hs'.
  rewrite map_map in Hi', Hs'.
  assert (E : map (fun row => length (map Z.of_nat (Dask.argtopk keep_n row)))
                  (similarities metric experimental simulated) =
              map (fun row => length (Dask.topk keep_n row))
                  (similarities metric experimental simulated)).
  { apply map_ext. intros row. unfold Dask.topk.
    rewrite length_map, Arrays.length_take. reflexivity. }
  pose proof (eq_trans Hi' (f_equal list_sum E)) as Hi''.
  pose proof (eq_trans Hi'' (eq_sym Hs')) as Hfin.
  nia.
Qed.

End Returns.

(* ================================================================== *)
(** * The normalized dot product, pattern by pattern *)

Module NdpShape.
Import NormalizedDotProduct Wellformed.

Lemma slice_map {A B} (f : A -> B) (l : list A) (a b : Z) :
  Py.slice (map f l) a b = map f (Py.slice l a b).
Proof.
  unfold Py.slice. rewrite length_map, skipn_map, firstn_map. reflexivity.
Qed.

Lemma slice_nil {A} (a b : Z) : Py.slice (@nil A) a b = [].
Proof. unfold Py.slice. rewrite skipn_nil, firstn_nil. reflexivity. Qed.

Lemma length_apply_mask (signal_mask : option (list bool)) (patterns : batch) :
  length (apply_mask signal_mask patterns) = length patterns.
Proof. destruct signal_mask; cbn [apply_mask]; [apply length_map|reflexivity]. Qed.

Lemma length_prepare_chunk_simulated (t : Numpy.dtype)
  (signal_mask : option (list bool)) (patterns : batch) :
  length (prepare_chunk_simulated t signal_mask patterns) = length patterns.
Proof.
  unfold prepare_chunk_simulated, _prepare_simulated_patterns1d.
  rewrite length_map. apply length_apply_mask.
Qed.

(** [compare] works column by column. *)
Lemma compare_slice (t : Numpy.dtype) (experimental simulated : batch) (a b : Z) :
  compare t experimental (Py.slice simulated a b) =
  map (fun row => Py.slice row a b) (compare t experimental simulated).
Proof.
  unfold compare. rewrite map_map. apply map_ext. intros e.
  symmetry. apply slice_map.
Qed.

Lemma ndp_scores_per_pattern (t : Numpy.dtype) (signal_mask : option (list bool)) :
  scores_per_pattern (metric t signal_mask).
Proof.
  intros experimental simulated. cbn [metric_match prepare_dictionary metric].
  unfold compare. apply Forall_map. apply Forall_forall. intros e _.
  rewrite length_map. apply length_prepare_chunk_simulated.
Qed.

End NdpShape.

(* ================================================================== *)
(** * The range of the returned indices *)

Module IndexRange.
Import DictionaryIndexing Spec Wellformed.

(** For a metric with one score per simulated pattern, the indices of a
    call that returns are positions of the dictionary. *)
Lemma driver_indices_in_range (experimental : batch) (nav : list nat)
  (dictionary : batch) (metric : SimilarityMetric) (keep_n n_per_iteration : Z)
  (t : Py.trace) (r : xmap) :
  scores_per_pattern metric ->
  Py.run (_dictionary_indexing experimental nav dictionary metric
            keep_n n_per_iteration) = (t, inr r) ->
  Forall (Forall (fun i => 0 <= i < Z.of_nat (length dictionary)))
    (simulation_indices r).
Proof.
  intros Hmetric H.
  destruct (Returns.driver_returns_arguments _ _ _ _ _ _ _ _ H) as (Hk & Hn).
  unfold Py.run in H.
  destruct (Z.eq_dec (Z.of_nat (length dictionary)) n_per_iteration) as [He|Hne].
  - rewrite EarlyExit.driver_single_pass in H by lia.
    unfold single_pass, Py.bind in H.
    destruct (_match_chunk _ _ _ _ _) as [t1 [e|[idx sc]]] eqn:Em; [discriminate|].
    injection H as <- <-. cbn [simulation_indices].
    apply Merging.match_chunk_returns in Em.
    destruct Em as (_ & _ & _ & Hci & _ & _).
    apply Arrays.Forall_concat. rewrite Hci. apply Arrays.Forall_concat.
    apply Forall_map.
    eapply Forall_impl; [|apply (Hmetric (prepare_experimental metric experimental)
                                   dictionary)].
    cbn. intros row Hrow. apply Forall_map. apply Forall_forall. intros j Hj.
    apply TopK.argtopk_in_range in Hj. lia.
  - rewrite EarlyExit.driver_multi_chunk in H by lia.
    apply Returns.multi_chunk_path_returns in H; [|exact Hn].
    destruct H as (Hk0 & first_chunks & last_start & _ & _ & _ & _ & Htiles & Hloop).
    cbv zeta in Htiles, Hloop.
    refine (Merging.for_each_invariant
              (fun acc => Forall (Forall (fun i => 0 <= i < Z.of_nat (length dictionary)))
                            (simulation_indices acc))
              (fun bd => 0 <= fst bd /\ fst bd < snd bd /\
                         snd bd <= Z.of_nat (length dictionary))
              _ _ _ _ _ _ _ _ _ Hloop).
    + intros acc x t0 t1 acc' Hx Hacc Hm.
      exact (Merging.merge_chunk_indices _ _ _ _ _ _ _ _ _ Hmetric Hx Hacc Hm).
    + exact (Slicing.tiles_in_range _ _ _ Htiles).
    + unfold Returns.initial. cbn [simulation_indices].
      apply Forall_forall. intros row Hrow. apply repeat_spec in Hrow. subst row.
      apply Forall_forall. intros i Hi. apply repeat_spec in Hi. lia.
Qed.

End IndexRange.

(* ================================================================== *)
(** * The trace of the loop *)

Module TraceShape.
Import DictionaryIndexing Spec Traces.

Lemma sliced_turns (metric : SimilarityMetric) (dictionary : batch) (keep_n : Z)
  (bounds : list (Z * Z)) :
  sliced (flat_map (turn metric dictionary keep_n) bounds) = bounds.
Proof.
  induction bounds as [|[a b] bounds IH]; cbn [flat_map].
  - reflexivity.
  - unfold turn at 1. cbn [app sliced fst snd]. rewrite IH. reflexivity.
Qed.

Lemma matched_turns (metric : SimilarityMetric) (dictionary : batch) (keep_n : Z)
  (bounds : list (Z * Z)) :
  matched (flat_map (turn metric dictionary keep_n) bounds) =
  map (fun bd =>
         (length (prepare_dictionary metric
                    (Py.slice dictionary (fst bd) (snd bd))),
          Z.min keep_n (snd bd - fst bd)))
      bounds.
Proof.
  induction bounds as [|[a b] bounds IH]; cbn [flat_map map].
  - reflexivity.
  - unfold turn at 1. cbn [app matched fst snd]. rewrite IH. reflexivity.
Qed.

End TraceShape.

(* ================================================================== *)
(** * The single pass, row by row *)

Module SinglePass.
Import DictionaryIndexing Spec Wellformed Ranking.

(** The single pass of a metric with one score per simulated pattern:
    row by row, the top [keep_n] of the similarities. *)
Lemma single_pass_rowwise (metric : SimilarityMetric)
  (experimental dictionary : batch) (keep_n : Z) (t : Py.trace) :
  scores_per_pattern metric ->
  0 < keep_n <= Z.of_nat (length dictionary) ->
  single_pass metric experimental dictionary keep_n t =
  (t ++ [Py.Matched (length (prepare_dictionary metric dictionary)) keep_n],
   inr {| scores := map (Dask.topk keep_n)
                        (similarities metric experimental dictionary);
          simulation_indices :=
            map (fun row => map Z.of_nat (Dask.argtopk keep_n row))
                (similarities metric experimental dictionary) |}).
Proof.
  intros Hmetric Hk. unfold single_pass, Py.bind.
  rewrite Merging.match_chunk_rowwise; [reflexivity|lia|].
  eapply Forall_impl; [|apply (Hmetric experimental dictionary)].
  cbn. intros row Hrow. lia.
Qed.

Lemma nodup_map_of_nat (l : list nat) : NoDup l -> NoDup (map Z.of_nat l).
Proof.
  induction 1 as [|x l Hx Hl IH]; cbn [map]; constructor.
  - intros H. apply in_map_iff in H. destruct H as (y & Hy & Hin).
    apply Nat2Z.inj in Hy. subst y. contradiction.
  - exact IH.
Qed.

Lemma argtopk_nil (k : Z) : Dask.argtopk k [] = [].
Proof.
  unfold Dask.argtopk. destruct (0 <? k); [reflexivity|apply firstn_nil].
Qed.

Lemma topk_nil (k : Z) : Dask.topk k [] = [].
Proof. unfold Dask.topk. rewrite argtopk_nil. reflexivity. Qed.

Lemma nth_map_default {A B} (f : A -> B) (l : list A) (da : A) (db : B) (i : nat) :
  f da = db -> nth i (map f l) db = f (nth i l da).
Proof. intros <-. apply map_nth. Qed.

Lemma nth_argtopk_rows (k : Z) (sims : list (list Numpy.scalar)) (i : nat) :
  nth i (map (fun row => map Z.of_nat (Dask.argtopk k row)) sims) [] =
  map Z.of_nat (Dask.argtopk k (nth i sims [])).
Proof.
  apply (nth_map_default (fun row => map Z.of_nat (Dask.argtopk k row))).
  rewrite argtopk_nil. reflexivity.
Qed.

Lemma nth_topk_rows (k : Z) (sims : list (list Numpy.scalar)) (i : nat) :
  nth i (map (Dask.topk k) sims) [] = Dask.topk k (nth i sims []).
Proof. apply (nth_map_default (Dask.topk k)). apply topk_nil. Qed.

Lemma in_topk (k : Z) (row : list Numpy.scalar) (x : Numpy.scalar) :
  In x (Dask.topk k row) -> In x row.
Proof.
  unfold Dask.topk, Numpy.take. intros H. apply in_map_iff in H.
  destruct H as (i & <- & Hi). apply TopK.argtopk_in_range in Hi.
  apply nth_In. exact Hi.
Qed.

(** Among numbers, largest first is non-increasing. *)
Lemma largest_first_best_first (row : list Numpy.scalar) :
  Forall (fun x => Numpy.is_nan x = false) row ->
  largest_first row = true -> best_first 1 row = true.
Proof.
  intros Hrow H. rewrite Chains.best_first_chain.
  refine (Chains.chain_impl _ _ _ _ _ Hrow H).
  cbn. intros x y Hx Hy Hxy. apply negb_true_iff in Hxy.
  apply FloatOrder.sort_lt_false_leb; assumption.
Qed.

End SinglePass.

(* ================================================================== *)
(** * NaN in a pattern *)

Module NanPixels.
Import NormalizedDotProduct Spec Pixels.

Lemma add_nan_l (t : Numpy.dtype) (x : Numpy.scalar) :
  Numpy.add t S754_nan x = S754_nan.
Proof. reflexivity. Qed.

Lemma add_nan_r (t : Numpy.dtype) (x : Numpy.scalar) :
  Numpy.add t x S754_nan = S754_nan.
Proof. destruct x; reflexivity. Qed.

Lemma fold_add_nan (t : Numpy.dtype) (l : list Numpy.scalar) :
  fold_left (Numpy.add t) l S754_nan = S754_nan.
Proof. induction l as [|x l IH]; [reflexivity|exact IH]. Qed.

(** A sum with a NaN term is NaN. *)
Lemma fold_add_with_nan (t : Numpy.dtype) (l : list Numpy.scalar)
  (acc : Numpy.scalar) :
  In S754_nan l -> fold_left (Numpy.add t) l acc = S754_nan.
Proof.
  revert acc. induction l as [|x l IH]; intros acc Hin; [destruct Hin|].
  cbn [fold_left]. destruct Hin as [->|Hin].
  - rewrite add_nan_r. apply fold_add_nan.
  - apply IH. exact Hin.
Qed.

Lemma div_nan_r (t : Numpy.dtype) (x : Numpy.scalar) :
  Numpy.div t x S754_nan = S754_nan.
Proof. destruct x; reflexivity. Qed.

Lemma mul_nan_r (t : Numpy.dtype) (x : Numpy.scalar) :
  Numpy.mul t x S754_nan = S754_nan.
Proof. destruct x; reflexivity. Qed.

Lemma norm_with_nan (t : Numpy.dtype) (v : pattern1d) :
  In S754_nan v -> computed_norm t v = S754_nan.
Proof.
  intros Hin. unfold computed_norm, Numpy.sum.
  rewrite fold_add_with_nan; [reflexivity|].
  unfold Numpy.square. apply in_map_iff. exists S754_nan.
  split; [reflexivity|exact Hin].
Qed.

Lemma kernel_with_nan (t : Numpy.dtype) (v : pattern1d) :
  In S754_nan v -> _normalize_pattern1d t v = map (fun _ => S754_nan) v.
Proof.
  intros Hin. unfold _normalize_pattern1d. fold (computed_norm t v).
  rewrite (norm_with_nan t v Hin). unfold Numpy.div_scalar.
  apply map_ext. intros x. apply div_nan_r.
Qed.

(** The dot product with a pattern of NaN. *)
Lemma dot_nan (t : Numpy.dtype) (e : pattern1d) (v : list Numpy.scalar) :
  e <> [] -> v <> [] -> dot t e (map (fun _ => S754_nan) v) = S754_nan.
Proof.
  intros He Hv. unfold dot, Numpy.sum.
  destruct e as [|a e]; [contradiction|]. destruct v as [|b v]; [contradiction|].
  cbn [map combine fold_left]. rewrite mul_nan_r, add_nan_r.
  apply fold_add_nan.
Qed.

Lemma zeros_are_signs (p : pattern1d) :
  forallb is_zero p = true -> exists signs, p = map S754_zero signs.
Proof.
  induction p as [|x p IH]; cbn [forallb]; intros H.
  - exists []. reflexivity.
  - apply andb_true_iff in H. destruct H as [Hx Hp].
    destruct x as [s| | |]; try discriminate Hx.
    destruct (IH Hp) as (signs & ->). exists (s :: signs). reflexivity.
Qed.

Lemma kernel_unusable (t : Numpy.dtype) (p : pattern1d) :
  unusable p -> _normalize_pattern1d t p = map (fun _ => S754_nan) p.
Proof.
  intros [H|H].
  - apply kernel_with_nan. exact H.
  - destruct (zeros_are_signs p H) as (signs & ->).
    rewrite Kernels.kernel_of_zeros, map_map. reflexivity.
Qed.

End NanPixels.

(* ================================================================== *)
(** * Indices and scores, entry by entry *)

Module Alignment.
Import DictionaryIndexing Spec Wellformed Merging.

Lemma combine_app_eq {A B} (a a' : list A) (b b' : list B) :
  length a = length b ->
  combine (a ++ a') (b ++ b') = combine a b ++ combine a' b'.
Proof.
  revert b. induction a as [|x a IH]; intros [|y b] H; try discriminate H.
  - reflexivity.
  - cbn [app combine]. f_equal. apply IH. injection H as H. exact H.
Qed.

Lemma combine_map_both {A B C} (f : A -> B) (g : A -> C) (l : list A) :
  combine (map f l) (map g l) = map (fun x => (f x, g x)) l.
Proof. induction l as [|x l IH]; cbn; [reflexivity|f_equal; exact IH]. Qed.

(** The positions that the merge keeps of one row. *)
Definition best_row (metric : SimilarityMetric) (keep_n : Z)
  (row : list Numpy.scalar) : list nat :=
  Py.slice (Numpy.argsort (Numpy.int_mul (dtype metric) (- sign metric) row))
           0 keep_n.

Lemma best_row_nil (metric : SimilarityMetric) (keep_n : Z) :
  best_row metric keep_n [] = [].
Proof. unfold best_row. cbn. apply NdpShape.slice_nil. Qed.

(** Row [i] of the merged arrays: the row of the running arrays followed
    by the row of the chunk, at the positions that the merge keeps. *)
Lemma merged_rows (metric : SimilarityMetric) (keep_n : Z)
  (sc_acc sc_i : list (list Numpy.scalar)) (ix_acc ix_i : list (list Z))
  (i : nat) :
  length sc_acc = length sc_i -> length ix_acc = length ix_i ->
  length ix_acc = length sc_acc ->
  let all_sc := map (fun p => fst p ++ snd p) (combine sc_acc sc_i) in
  let all_ix := map (fun p => fst p ++ snd p) (combine ix_acc ix_i) in
  let row := nth i sc_acc [] ++ nth i sc_i [] in
  nth i (Numpy.take_along_axis S754_nan all_sc (best_indices metric keep_n all_sc)) []
    = Numpy.take S754_nan row (best_row metric keep_n row) /\
  nth i (Numpy.take_along_axis 0 all_ix (best_indices metric keep_n all_sc)) []
    = Numpy.take 0 (nth i ix_acc [] ++ nth i ix_i []) (best_row metric keep_n row).
Proof.
  intros H1 H2 H3 all_sc all_ix row.
  assert (Hrow : nth i all_sc [] = row).
  { unfold all_sc, row.
    rewrite (SinglePass.nth_map_default (fun p => fst p ++ snd p) _ ([], []) [] i)
      by reflexivity.
    rewrite combine_nth by exact H1. reflexivity. }
  assert (Hix : nth i all_ix [] = nth i ix_acc [] ++ nth i ix_i []).
  { unfold all_ix.
    rewrite (SinglePass.nth_map_default (fun p => fst p ++ snd p) _ ([], []) [] i)
      by reflexivity.
    rewrite combine_nth by exact H2. reflexivity. }
  assert (Hbest : nth i (best_indices metric keep_n all_sc) [] =
                  best_row metric keep_n row).
  { unfold best_indices. fold (best_row metric keep_n).
    rewrite (SinglePass.nth_map_default (best_row metric keep_n) _ [] [] i)
      by apply best_row_nil.
    exact (f_equal (best_row metric keep_n) Hrow). }
  split.
  - rewrite merged_scores. fold (best_row metric keep_n).
    rewrite (SinglePass.nth_map_default
               (fun r => Numpy.take S754_nan r (best_row metric keep_n r)) _ [] [] i).
    + exact (f_equal (fun r => Numpy.take S754_nan r (best_row metric keep_n r))
                     Hrow).
    + rewrite best_row_nil. reflexivity.
  - unfold Numpy.take_along_axis.
    rewrite (SinglePass.nth_map_default
               (fun '(r, ix) => Numpy.take 0 r ix) _ ([], []) [] i) by reflexivity.
    rewrite combine_nth.
    + exact (f_equal2 (Numpy.take 0) Hix Hbest).
    + unfold all_ix, all_sc, best_indices.
      rewrite !length_map, !length_combine. lia.
Qed.

(** An entry of the result that is a match: a dictionary position and,
    next to it, this position's score in the row [w] of the similarities
    of the whole dictionary. *)
Definition real (size : Z) (w : list Numpy.scalar) (p : Z * Numpy.scalar) : Prop :=
  0 <= fst p < size /\ snd p = nth (Z.to_nat (fst p)) w S754_nan.

(** Every entry of the running arrays is the initial one or a match. *)
Definition aligned (metric : SimilarityMetric) (size : Z)
  (sims : list (list Numpy.scalar)) (acc : xmap) : Prop :=
  forall i,
    Forall (fun p => p = (0, Numpy.of_int (dtype metric) (sign metric)) \/
                     real size (nth i sims []) p)
      (combine (nth i (simulation_indices acc) []) (nth i (scores acc) [])).

Lemma shaped_rows (n k : nat) (acc : xmap) (i : nat) :
  shaped n k acc ->
  length (nth i (simulation_indices acc) []) = length (nth i (scores acc) []).
Proof.
  intros (H1 & H2 & H3 & H4).
  destruct (Nat.lt_ge_cases i n) as [Hi|Hi].
  - rewrite Forall_forall in H3, H4.
    rewrite (H3 (nth i (scores acc) [])) by (apply nth_In; lia).
    rewrite (H4 (nth i (simulation_indices acc) [])) by (apply nth_In; lia).
    reflexivity.
  - rewrite !nth_overflow by lia. reflexivity.
Qed.

(** The entries of a chunk are matches. *)
Lemma chunk_entries_real (size start stop : Z) (k : Z) (w : list Numpy.scalar) :
  0 <= start -> start < stop -> stop <= size ->
  (w = [] \/ Z.of_nat (length w) = size) ->
  Forall (real size w)
    (combine (map (fun j => j + start)
                  (map Z.of_nat (Dask.argtopk k (Py.slice w start stop))))
             (Dask.topk k (Py.slice w start stop))).
Proof.
  intros H0 Hss Hstop Hw.
  rewrite TopK.topk_at_argtopk, map_map, combine_map_both.
  apply Forall_map. apply Forall_forall. intros j Hj.
  apply TopK.argtopk_in_range in Hj.
  destruct Hw as [->|Hw].
  { rewrite NdpShape.slice_nil in Hj. cbn in Hj. lia. }
  pose proof (Slicing.length_slice w start stop) as Hlen.
  unfold real. cbn [fst snd]. split; [lia|].
  rewrite Slicing.nth_slice by lia.
  f_equal. lia.
Qed.

Lemma merge_chunk_aligned (metric : SimilarityMetric)
  (experimental dictionary : batch) (keep_n : Z) (n : nat)
  (acc acc' : xmap) (bounds : Z * Z) (t t' : Py.trace) :
  scores_per_pattern metric -> chunkwise metric ->
  0 <= fst bounds /\ fst bounds < snd bounds /\
    snd bounds <= Z.of_nat (length dictionary) ->
  shaped n (Z.to_nat keep_n) acc /\
    aligned metric (Z.of_nat (length dictionary))
      (similarities metric experimental dictionary) acc ->
  merge_chunk metric experimental dictionary keep_n acc bounds t = (t', inr acc') ->
  aligned metric (Z.of_nat (length dictionary))
    (similarities metric experimental dictionary) acc'.
Proof.
  intros Hmetric Hchunk Hb [Hshape Hal] H.
  destruct bounds as [start stop]. cbn [fst snd] in Hb.
  apply merge_chunk_returns in H.
  destruct H as (idx_i & sc_i & Hm & _ & Hl1 & Hl2 & ->). cbv zeta.
  pose proof (match_chunk_returns _ _ _ _ _ _ _ _ Hm) as (Hk & _).
  assert (Hrows : Forall (fun row => length row =
                            length (Py.slice dictionary start stop))
                    (similarities metric experimental
                       (Py.slice dictionary start stop)))
    by apply Hmetric.
  pose proof (Slicing.length_slice dictionary start stop) as Hls.
  rewrite match_chunk_rowwise in Hm.
  2: exact Hk.
  2: { eapply Forall_impl; [|exact Hrows]. cbn. intros row Hrow. lia. }
  injection Hm as <- <-.
  set (sims := similarities metric experimental dictionary) in *.
  set (k := Z.min keep_n (stop - start)) in *.
  rewrite (Hchunk experimental dictionary start stop) in *. fold sims in Hl1, Hl2 |- *.
  intros i. cbn [scores simulation_indices].
  destruct (merged_rows metric keep_n (scores acc)
              (map (Dask.topk k) (map (fun row => Py.slice row start stop) sims))
              (simulation_indices acc)
              (map (map (fun j => j + start))
                   (map (fun row => map Z.of_nat (Dask.argtopk k row))
                        (map (fun row => Py.slice row start stop) sims)))
              i)
    as [Hsc Hix].
  { exact Hl1. }
  { rewrite Hl2, !length_map. reflexivity. }
  { destruct Hshape as (Hn1 & Hn2 & _). lia. }
  cbv zeta in Hsc, Hix. unfold Numpy.scalar in *.
  rewrite Hsc, Hix. clear Hsc Hix.
  rewrite SinglePass.nth_topk_rows.
  rewrite (SinglePass.nth_map_default (map (fun j => j + start)) _ [] [] i)
    by reflexivity.
  rewrite SinglePass.nth_argtopk_rows.
  rewrite (SinglePass.nth_map_default (fun row => Py.slice row start stop) _ [] [] i)
    by apply NdpShape.slice_nil.
  set (w := nth i sims []).
  set (x := nth i (scores acc) []).
  set (u := nth i (simulation_indices acc) []).
  set (y := Dask.topk k (Py.slice w start stop)).
  set (v := map (fun j => j + start)
                (map Z.of_nat (Dask.argtopk k (Py.slice w start stop)))).
  assert (Hux : length u = length x) by (apply (shaped_rows _ _ _ _ Hshape)).
  assert (Hvy : length v = length y).
  { unfold v, y. rewrite !length_map. unfold Dask.topk.
    rewrite Arrays.length_take. reflexivity. }
  assert (Hw : w = [] \/ Z.of_nat (length w) = Z.of_nat (length dictionary)).
  { destruct (Nat.lt_ge_cases i (length sims)) as [Hi|Hi].
    - right. f_equal.
      pose proof (Hmetric experimental dictionary) as Hsp.
      rewrite Forall_forall in Hsp. apply Hsp. apply nth_In. exact Hi.
    - left. apply nth_overflow. exact Hi. }
  unfold Numpy.take. rewrite combine_map_both.
  apply Forall_map. apply Forall_forall. intros j Hj.
  fold (best_row metric keep_n (x ++ y)) in Hj.
  unfold best_row in Hj. apply best_row_in_range in Hj.
  change (j < length (x ++ y))%nat in Hj.
  assert (Hpair : In (nth j (u ++ v) 0, nth j (x ++ y) S754_nan)
                     (combine (u ++ v) (x ++ y))).
  { rewrite <- (combine_nth (u ++ v) (x ++ y) j 0 S754_nan)
      by (rewrite !length_app; lia).
    apply nth_In. rewrite length_combine, !length_app. rewrite length_app in Hj. lia. }
  rewrite combine_app_eq in Hpair by exact Hux.
  apply in_app_or in Hpair. destruct Hpair as [Hp|Hp].
  - specialize (Hal i). rewrite Forall_forall in Hal. apply Hal. exact Hp.
  - right.
    pose proof (chunk_entries_real (Z.of_nat (length dictionary)) start stop k w
                  ltac:(lia) ltac:(lia) ltac:(lia) Hw) as Hreal.
    rewrite Forall_forall in Hreal. apply Hreal. exact Hp.
Qed.

End Alignment.

(* ================================================================== *)
(** * IEEE arithmetic: multiplication by one and by minus one *)

Module IeeeMul.
Import Spec.

Lemma iter_pos_nat {A} (f : A -> A) (p : positive) (x : A) :
  iter_pos f p x = Nat.iter (Pos.to_nat p) f x.
Proof.
  revert x. induction p as [p IH|p IH|]; intros x; cbn [iter_pos].
  - rewrite !IH, Pos2Nat.inj_xI.
    replace (S (2 * Pos.to_nat p)) with (S (Pos.to_nat p + Pos.to_nat p)) by lia.
    rewrite Nat.iter_succ_r, Nat.iter_add. reflexivity.
  - rewrite !IH, Pos2Nat.inj_xO.
    replace (2 * Pos.to_nat p)%nat with (Pos.to_nat p + Pos.to_nat p)%nat by lia.
    rewrite Nat.iter_add. reflexivity.
  - reflexivity.
Qed.

(** Shifting out [k] zero bits. *)
Lemma shr_1_zero_bits (k : nat) (n m : positive) :
  Z.pos n = Z.pos m * 2 ^ Z.of_nat k ->
  Nat.iter k shr_1 {| shr_m := Z.pos n; shr_r := false; shr_s := false |} =
  {| shr_m := Z.pos m; shr_r := false; shr_s := false |}.
Proof.
  revert n. induction k as [|k IH]; intros n H.
  - change (2 ^ Z.of_nat 0) with 1 in H. rewrite Z.mul_1_r in H.
    injection H as ->. reflexivity.
  - rewrite Nat.iter_succ_r.
    rewrite Nat2Z.inj_succ, Z.pow_succ_r in H by lia.
    destruct n as [n'|n'|]; [lia| |lia].
    cbn [shr_1 orb]. apply IH. lia.
Qed.

Section MulOne.
Variables prec emax : Z.
Variable m1 : positive.
Hypothesis Hprec : 1 < prec.
Hypothesis Hm1 : Z.pos m1 = 2 ^ (prec - 1).

(** The float [m1 * 2^(1 - prec)] is 1 or, with the sign bit, -1.
    Multiplying a finite float in canonical form by it multiplies the
    mantissa by a power of two, and the rounding shifts it back. *)
Lemma SFmul_one_finite (s1 s : bool) (m : positive) (e : Z) :
  bounded prec emax m e = true ->
  SFmul prec emax (S754_finite s1 m1 (1 - prec)) (S754_finite s m e) =
  S754_finite (xorb s1 s) m e.
Proof.
  unfold bounded, canonical_mantissa. intros H.
  apply andb_true_iff in H. destruct H as [Hc He].
  apply Z.eqb_eq in Hc.
  change (Z.pos (digits2_pos m)) with (Zdigits2 (Z.pos m)) in Hc.
  cbn [SFmul]. unfold binary_round_aux, shr_fexp.
  assert (Hd : Zdigits2 (Z.pos (m1 * m)) = Zdigits2 (Z.pos m) + (prec - 1)).
  { cbn [Zdigits2]. rewrite !Ieee.digits2_pos_log2, Pos2Z.inj_mul, Hm1.
    rewrite Z.mul_comm, Z.log2_mul_pow2 by lia. lia. }
  rewrite Hd.
  replace (Zdigits2 (Z.pos m) + (prec - 1) + (1 - prec + e))
    with (Zdigits2 (Z.pos m) + e) by lia.
  rewrite Hc.
  replace (e - (1 - prec + e)) with (prec - 1) by lia.
  cbn [shr_record_of_loc]. unfold shr at 1.
  destruct (prec - 1) as [|q|q] eqn:Eq; try lia.
  rewrite iter_pos_nat, (shr_1_zero_bits (Pos.to_nat q) (m1 * m) m).
  2: { rewrite Pos2Z.inj_mul, Hm1, positive_nat_Z. lia. }
  cbn [shr_m loc_of_shr_record round_nearest_even].
  replace (1 - prec + e + Z.pos q) with e by lia.
  rewrite Hc, Z.sub_diag. cbn [shr_record_of_loc shr shr_m].
  rewrite He. reflexivity.
Qed.

Lemma SFmul_one (s1 : bool) (x : spec_float) :
  SpecFloat.valid_binary prec emax x = true ->
  SFmul prec emax (S754_finite s1 m1 (1 - prec)) x =
  if s1 then SFopp x else x.
Proof.
  destruct x as [s|s| |s m e]; cbn [SpecFloat.valid_binary]; intros H.
  - destruct s1, s; reflexivity.
  - destruct s1, s; reflexivity.
  - destruct s1; reflexivity.
  - rewrite SFmul_one_finite by exact H. destruct s1, s; reflexivity.
Qed.

End MulOne.

(** The key of the merge for the two signs and the two dtypes: a
    negation for the sign +1, nothing for the sign -1. *)
Lemma key_of_score (t : Numpy.dtype) (sign : Z) (x : Numpy.scalar) :
  t = Numpy.float32 \/ t = Numpy.float64 ->
  sign = 1 \/ sign = -1 ->
  representable t x ->
  Numpy.mul t (Numpy.of_int t (- sign)) x = if 0 <? sign then SFopp x else x.
Proof.
  unfold representable, Numpy.mul.
  intros [-> | ->] [-> | ->] Hx; cbn [Z.opp Z.ltb Z.compare].
  - change (Numpy.of_int Numpy.float32 (-1))
      with (S754_finite true 8388608 (1 - Numpy.prec Numpy.float32)).
    rewrite SFmul_one; [reflexivity|cbn; lia|reflexivity|exact Hx].
  - change (Numpy.of_int Numpy.float32 1)
      with (S754_finite false 8388608 (1 - Numpy.prec Numpy.float32)).
    rewrite SFmul_one; [reflexivity|cbn; lia|reflexivity|exact Hx].
  - change (Numpy.of_int Numpy.float64 (-1))
      with (S754_finite true 4503599627370496 (1 - Numpy.prec Numpy.float64)).
    rewrite SFmul_one; [reflexivity|cbn; lia|reflexivity|exact Hx].
  - change (Numpy.of_int Numpy.float64 1)
      with (S754_finite false 4503599627370496 (1 - Numpy.prec Numpy.float64)).
    rewrite SFmul_one; [reflexivity|cbn; lia|reflexivity|exact Hx].
Qed.

Lemma SFcompare_opp (x y : spec_float) :
  SFcompare (SFopp x) (SFopp y) = SFcompare y x.
Proof.
  destruct x as [s1|s1| |s1 m1 e1], y as [s2|s2| |s2 m2 e2];
    try reflexivity;
    try (destruct s1; reflexivity);
    try (destruct s2; reflexivity);
    try (destruct s1, s2; reflexivity).
  cbn [SFopp SFcompare].
  destruct s1, s2; cbn [negb]; try reflexivity; f_equal;
    rewrite (Z.compare_antisym e1 e2);
    destruct (Z.compare e1 e2); cbn [CompOpp]; try reflexivity.
  - rewrite (Pos.compare_cont_antisym m2 m1 Eq). reflexivity.
  - rewrite (Pos.compare_cont_antisym m1 m2 Eq). reflexivity.
Qed.

Lemma SFltb_opp (x y : spec_float) : SFltb (SFopp x) (SFopp y) = SFltb y x.
Proof. unfold SFltb. rewrite SFcompare_opp. reflexivity. Qed.

Lemma is_nan_opp (x : spec_float) : Numpy.is_nan (SFopp x) = Numpy.is_nan x.
Proof. destruct x; reflexivity. Qed.

Lemma leb_not_ltb (x y : spec_float) : SFleb x y = true -> SFltb y x = false.
Proof.
  unfold SFleb, SFltb. rewrite (FloatOrder.SFcompare_swap x y).
  destruct (SFcompare x y) as [[| |]|]; cbn; congruence.
Qed.

Lemma ltb_leb (x y : spec_float) : SFltb x y = true -> SFleb x y = true.
Proof.
  unfold SFleb, SFltb. destruct (SFcompare x y) as [[| |]|]; cbn; congruence.
Qed.

Lemma leb_not_nan (x y : spec_float) :
  SFleb x y = true -> Numpy.is_nan x = false /\ Numpy.is_nan y = false.
Proof. destruct x, y; cbn; intros H; try discriminate; split; reflexivity. Qed.

End IeeeMul.

(* ================================================================== *)
(** * The order in which the merge ranks *)

Module MergeOrder.
Import DictionaryIndexing Spec Wellformed Merging Ranking.

Lemma sort_lt_irrefl (x : Numpy.scalar) : Numpy.sort_lt x x = false.
Proof.
  destruct (Numpy.sort_lt x x) eqn:E; [|reflexivity].
  rewrite (FloatOrder.sort_lt_asym _ _ E) in E. discriminate E.
Qed.

Lemma chain_repeat {A} (R : A -> A -> bool) (c : A) (k : nat) :
  R c c = true -> chain R (repeat c k) = true.
Proof.
  intros H. induction k as [|k IH]; [reflexivity|].
  cbn [repeat]. rewrite Chains.chain_cons, IH.
  destruct k; [reflexivity|cbn [repeat]; rewrite H; reflexivity].
Qed.

(** The initial score, for the two signs and the two dtypes. *)
Lemma fill_is_a_number (t : Numpy.dtype) (sign : Z) :
  t = Numpy.float32 \/ t = Numpy.float64 ->
  sign = 1 \/ sign = -1 ->
  representable t (Numpy.of_int t sign) /\
  Numpy.is_nan (Numpy.of_int t sign) = false.
Proof. intros [-> | ->] [-> | ->]; split; reflexivity. Qed.

(** Rows of numbers whose keys ascend are best first. *)
Lemma keys_ascending_best_first (t : Numpy.dtype) (sign : Z)
  (row : list Numpy.scalar) :
  t = Numpy.float32 \/ t = Numpy.float64 ->
  sign = 1 \/ sign = -1 ->
  Forall (fun s => representable t s /\ Numpy.is_nan s = false) row ->
  ascending (Numpy.int_mul t (- sign) row) = true ->
  best_first sign row = true.
Proof.
  intros Ht Hs Hrow H. rewrite Chains.best_first_chain.
  unfold ascending, Numpy.int_mul in H. rewrite Chains.chain_map in H.
  refine (Chains.chain_impl _ _ _ _ _ Hrow H).
  cbn beta. intros x y [Hx Hxn] [Hy Hyn] Hxy.
  apply negb_true_iff in Hxy.
  rewrite !(IeeeMul.key_of_score t sign) in Hxy by assumption.
  destruct Hs as [-> | ->]; cbn [Z.ltb Z.compare] in Hxy |- *.
  - unfold Numpy.sort_lt in Hxy. apply orb_false_iff in Hxy.
    destruct Hxy as [Hlt _]. rewrite IeeeMul.SFltb_opp in Hlt.
    apply FloatOrder.not_lt_leb; assumption.
  - apply FloatOrder.sort_lt_false_leb; assumption.
Qed.

(** A score that is not better than the initial one has a key that is
    not before the initial key. *)
Lemma key_not_before_fill (t : Numpy.dtype) (sign : Z) (s : Numpy.scalar) :
  t = Numpy.float32 \/ t = Numpy.float64 ->
  sign = 1 \/ sign = -1 ->
  representable t s ->
  best_first sign [Numpy.of_int t sign; s] = true ->
  Numpy.sort_lt (Numpy.mul t (Numpy.of_int t (- sign)) s)
                (Numpy.mul t (Numpy.of_int t (- sign)) (Numpy.of_int t sign)) = false.
Proof.
  intros Ht Hs Hrep H.
  destruct (fill_is_a_number t sign Ht Hs) as [Hfr Hfn].
  rewrite !(IeeeMul.key_of_score t sign) by assumption.
  cbn [best_first] in H. rewrite andb_true_r in H.
  unfold Numpy.sort_lt.
  destruct Hs as [-> | ->]; cbn [Z.ltb Z.compare] in H |- *.
  - rewrite IeeeMul.SFltb_opp, (IeeeMul.leb_not_ltb _ _ H).
    rewrite (IeeeMul.is_nan_opp (Numpy.of_int t 1)), Hfn, andb_false_r.
    reflexivity.
  - rewrite (IeeeMul.leb_not_ltb _ _ H), Hfn, andb_false_r. reflexivity.
Qed.

Lemma insert_key_front (p : Numpy.scalar * nat) (l : list (Numpy.scalar * nat)) :
  Forall (fun q => Numpy.sort_lt (fst q) (fst p) = false) l ->
  Numpy.insert_key p l = p :: l.
Proof.
  intros H. destruct H as [|q l Hq Hl]; [reflexivity|].
  cbn [Numpy.insert_key]. rewrite Hq. reflexivity.
Qed.

Lemma enumerate_from_app {A} (i : nat) (a b : list A) :
  Numpy.enumerate_from i (a ++ b) =
  Numpy.enumerate_from i a ++ Numpy.enumerate_from (i + length a) b.
Proof.
  revert i. induction a as [|x a IH]; intros i; cbn [app Numpy.enumerate_from length].
  - rewrite Nat.add_0_r. reflexivity.
  - rewrite IH. do 3 f_equal. lia.
Qed.

Lemma enumerate_from_fst {A} (i : nat) (v : list A) :
  map fst (Numpy.enumerate_from i v) = v.
Proof.
  revert i. induction v as [|x v IH]; intros i; cbn; [reflexivity|].
  f_equal. apply IH.
Qed.

(** Equal keys at the front stay at the front, in their order, when no
    key of the rest is before them. *)
Lemma sorted_fill_first (kf : Numpy.scalar) (k i : nat)
  (rest : list (Numpy.scalar * nat)) :
  Forall (fun q => Numpy.sort_lt (fst q) kf = false) rest ->
  fold_right Numpy.insert_key rest (Numpy.enumerate_from i (repeat kf k)) =
  Numpy.enumerate_from i (repeat kf k) ++ rest.
Proof.
  intros Hrest. revert i. induction k as [|k IH]; intros i.
  - reflexivity.
  - cbn [repeat Numpy.enumerate_from fold_right app]. rewrite IH.
    apply insert_key_front. cbn [fst]. apply Forall_app. split; [|exact Hrest].
    apply Forall_forall. intros q Hq.
    assert (Hk : fst q = kf).
    { apply (in_map fst) in Hq. rewrite enumerate_from_fst in Hq.
      apply repeat_spec in Hq. exact Hq. }
    rewrite Hk. apply sort_lt_irrefl.
Qed.

Lemma argsort_fill_first (kf : Numpy.scalar) (k : nat) (others : list Numpy.scalar) :
  Forall (fun c => Numpy.sort_lt c kf = false) others ->
  firstn k (Numpy.argsort (repeat kf k ++ others)) = seq 0 k.
Proof.
  intros H. unfold Numpy.argsort.
  rewrite enumerate_from_app, fold_right_app, sorted_fill_first.
  - rewrite map_app, Sorting.enumerate_from_snd, repeat_length.
    rewrite firstn_app, length_seq, Nat.sub_diag. cbn [firstn].
    rewrite app_nil_r. rewrite <- (length_seq k 0) at 1. apply firstn_all.
  - apply Forall_forall. intros q Hq.
    apply (Permutation_in _ (Sorting.sort_perm _)) in Hq.
    apply (in_map fst) in Hq. rewrite enumerate_from_fst in Hq.
    rewrite Forall_forall in H. apply H. exact Hq.
Qed.

Lemma take_seq_prefix {A} (d : A) (x y : list A) :
  Numpy.take d (x ++ y) (seq 0 (length x)) = x.
Proof.
  unfold Numpy.take. induction x as [|a x IH]; [reflexivity|].
  cbn [length seq map app nth]. f_equal.
  rewrite <- seq_shift, map_map. exact IH.
Qed.

Lemma map_constant {A B} (f : A -> B) (c : B) (l : list A) :
  (forall x, In x l -> f x = c) -> map f l = repeat c (length l).
Proof.
  induction l as [|x l IH]; intros H; [reflexivity|].
  cbn [map length repeat]. rewrite (H x) by (left; reflexivity).
  f_equal. apply IH. intros y Hy. apply H. right. exact Hy.
Qed.

(** The positions that the merge keeps of a row that starts with the
    initial scores, when no score of the chunk is better. *)
Lemma best_row_of_initial (metric : SimilarityMetric) (keep_n : Z)
  (y : list Numpy.scalar) :
  dtype metric = Numpy.float32 \/ dtype metric = Numpy.float64 ->
  sign metric = 1 \/ sign metric = -1 ->
  0 <= keep_n ->
  Forall (fun s => representable (dtype metric) s /\
                   best_first (sign metric)
                     [Numpy.of_int (dtype metric) (sign metric); s] = true) y ->
  Alignment.best_row metric keep_n
    (repeat (Numpy.of_int (dtype metric) (sign metric)) (Z.to_nat keep_n) ++ y) =
  seq 0 (Z.to_nat keep_n).
Proof.
  intros Ht Hs Hk Hy. unfold Alignment.best_row.
  rewrite Arrays.slice_prefix by exact Hk.
  unfold Numpy.int_mul. rewrite map_app, map_repeat.
  apply argsort_fill_first.
  apply Forall_map. eapply Forall_impl; [|exact Hy].
  cbn beta. intros s [Hrep Hbf]. apply key_not_before_fill; assumption.
Qed.

(** One turn of the loop on the initial arrays, when no score of the
    chunk is better than the initial score: the arrays do not change. *)
Lemma merge_chunk_keeps_initial (metric : SimilarityMetric)
  (experimental dictionary : batch) (keep_n : Z) (n : nat) (acc' : xmap)
  (start stop : Z) (t t' : Py.trace) :
  dtype metric = Numpy.float32 \/ dtype metric = Numpy.float64 ->
  sign metric = 1 \/ sign metric = -1 ->
  0 <= keep_n ->
  Forall (Forall (fun s => representable (dtype metric) s /\
                           best_first (sign metric)
                             [Numpy.of_int (dtype metric) (sign metric); s] = true))
    (similarities metric experimental (Py.slice dictionary start stop)) ->
  merge_chunk metric experimental dictionary keep_n
    (Returns.initial metric n keep_n) (start, stop) t = (t', inr acc') ->
  acc' = Returns.initial metric n keep_n.
Proof.
  intros Ht Hs Hk Hchunk H.
  apply merge_chunk_returns in H.
  destruct H as (idx_i & sc_i & Hm & _ & Hl1 & Hl2 & ->). cbv zeta.
  unfold Returns.initial in Hl1, Hl2 |- *. cbn [scores simulation_indices] in *.
  rewrite repeat_length in Hl1, Hl2.
  set (fill := Numpy.of_int (dtype metric) (sign metric)) in *.
  set (k := Z.to_nat keep_n) in *.
  apply match_chunk_returns in Hm. destruct Hm as (_ & _ & _ & _ & _ & Hsc).
  assert (Hsci : Forall (Forall (fun s => representable (dtype metric) s /\
                                   best_first (sign metric) [fill; s] = true)) sc_i).
  { apply Arrays.Forall_concat. rewrite Hsc. apply Arrays.Forall_concat.
    apply Forall_map. eapply Forall_impl; [|exact Hchunk].
    cbn beta. intros row Hrow. apply Forall_forall. intros x Hx.
    apply SinglePass.in_topk in Hx.
    rewrite Forall_forall in Hrow. apply Hrow. exact Hx. }
  set (all_sc := map (fun p => fst p ++ snd p) (combine (repeat (repeat fill k) n) sc_i)).
  assert (Hall : forall row, In row all_sc ->
                   Alignment.best_row metric keep_n row = seq 0 k /\
                   Numpy.take S754_nan row (seq 0 k) = repeat fill k).
  { intros row Hrow. unfold all_sc in Hrow. apply in_map_iff in Hrow.
    destruct Hrow as ([x y] & <- & Hxy). cbn [fst snd].
    pose proof (in_combine_l _ _ _ _ Hxy) as Hx. apply repeat_spec in Hx. subst x.
    pose proof (in_combine_r _ _ _ _ Hxy) as Hy.
    rewrite Forall_forall in Hsci. specialize (Hsci y Hy).
    split; [apply best_row_of_initial; assumption|].
    rewrite <- (repeat_length fill k) at 2. apply take_seq_prefix. }
  assert (Hlen : length all_sc = n).
  { unfold all_sc. rewrite length_map, length_combine, repeat_length. lia. }
  f_equal.
  - rewrite merged_scores. fold (Alignment.best_row metric keep_n).
    rewrite (map_constant _ (repeat fill k)).
    + f_equal. exact Hlen.
    + intros row Hrow. cbn beta.
      destruct (Hall row Hrow) as [Hbest Htake].
      unfold Alignment.best_row in Hbest. rewrite Hbest. exact Htake.
  - unfold Numpy.take_along_axis.
    rewrite (map_constant _ (repeat 0 k)).
    + f_equal. unfold best_indices. fold all_sc.
      rewrite length_combine, !length_map, length_combine, repeat_length.
      fold all_sc. rewrite length_map.
      assert (Hlen' : length all_sc = n) by exact Hlen.
      rewrite Hlen'. lia.
    + intros [row ix] Hp. cbn beta iota.
      pose proof (in_combine_l _ _ _ _ Hp) as Hrow.
      pose proof (in_combine_r _ _ _ _ Hp) as Hix.
      apply in_map_iff in Hrow. destruct Hrow as ([x y] & <- & Hxy). cbn [fst snd].
      apply in_combine_l in Hxy. apply repeat_spec in Hxy. subst x.
      unfold best_indices in Hix. fold (Alignment.best_row metric keep_n) in Hix.
      apply in_map_iff in Hix. destruct Hix as (row' & <- & Hrow').
      destruct (Hall row' Hrow') as [Hbest _]. rewrite Hbest.
      rewrite <- (repeat_length 0 k) at 2. apply take_seq_prefix.
Qed.

End MergeOrder.

(* ================================================================== *)
(** * The dot product without normalization *)

Module RawDot.
Import NormalizedDotProduct Wellformed MoreExamples.

Lemma raw_dot_scores_per_pattern (t : Numpy.dtype) : scores_per_pattern (raw_dot t).
Proof.
  intros experimental simulated. cbn [metric_match prepare_dictionary raw_dot].
  unfold compare. apply Forall_map. apply Forall_forall. intros e _.
  apply length_map.
Qed.

Lemma raw_dot_chunkwise (t : Numpy.dtype) : chunkwise (raw_dot t).
Proof.
  intros experimental dictionary start stop. unfold similarities.
  cbn [metric_match prepare_dictionary raw_dot]. apply NdpShape.compare_slice.
Qed.

End RawDot.

(* ================================================================== *)
(** * Looking up positions inside an array *)

Module GatherLemmas.
Import Gather.

Lemma getitem_in_range {A} (a : list A) (i : Z) (d : A) (t : Py.trace) :
  0 <= i < Z.of_nat (length a) ->
  getitem a i t = (t, inr (nth (Z.to_nat i) a d)).
Proof.
  intros Hi. unfold getitem.
  destruct (Z.ltb_spec i 0) as [H|_]; [lia|].
  destruct (Z.leb_spec 0 i) as [_|H]; [|lia].
  destruct (Z.ltb_spec i (Z.of_nat (length a))) as [_|H]; [|lia].
  cbn [andb].
  destruct (nth_error a (Z.to_nat i)) as [x|] eqn:E.
  - rewrite (nth_error_nth _ _ d E). reflexivity.
  - apply nth_error_None in E. lia.
Qed.

Lemma for_all_returns {A B} (f : A -> Py.M B) (g : A -> B) (P : A -> Prop)
  (l : list A) (t : Py.trace) :
  (forall x t, P x -> f x t = (t, inr (g x))) ->
  Forall P l -> for_all f l t = (t, inr (map g l)).
Proof.
  intros Hf Hl. induction Hl as [|x l Hx Hl IH]; cbn [for_all map].
  - reflexivity.
  - unfold Py.bind at 1. rewrite (Hf x t Hx).
    unfold Py.bind at 1. rewrite IH. reflexivity.
Qed.

(** Positions inside the array are looked up without an exception. *)
Lemma getitem_rows_in_range {A} (a : list A) (idx : list (list Z)) (d : A)
  (t : Py.trace) :
  Forall (Forall (fun i => 0 <= i < Z.of_nat (length a))) idx ->
  getitem_rows a idx t =
  (t, inr (map (map (fun i => nth (Z.to_nat i) a d)) idx)).
Proof.
  intros H. unfold getitem_rows.
  apply (for_all_returns _ _ (Forall (fun i => 0 <= i < Z.of_nat (length a)))).
  - intros row t0 Hrow.
    apply (for_all_returns _ _ (fun i => 0 <= i < Z.of_nat (length a))).
    + intros i t1 Hi. apply getitem_in_range. exact Hi.
    + exact Hrow.
  - exact H.
Qed.

End GatherLemmas.

(* ================================================================== *)
(** * Patterns that agree under the mask *)

Module MaskLemmas.
Import NormalizedDotProduct Pixels.

Lemma select_columns_agree (mask : list bool) (p q : pattern1d) :
  agree_on mask p q -> select_columns mask p = select_columns mask q.
Proof.
  revert p q. induction mask as [|b mask IH]; intros p q (Hp & Hq & H).
  - reflexivity.
  - destruct p as [|x p]; [discriminate Hp|].
    destruct q as [|y q]; [discriminate Hq|].
    cbn [select_columns].
    assert (Hrest : select_columns mask p = select_columns mask q).
    { apply IH. cbn [length] in Hp, Hq.
      split; [lia|]. split; [lia|].
      intros i Hi. exact (H (S i) Hi). }
    destruct b.
    + rewrite Hrest. f_equal. exact (H 0%nat eq_refl).
    + exact Hrest.
Qed.

Lemma length_select_columns {A} (mask : list bool) (p : list A) :
  length p = length mask ->
  length (select_columns mask p) = count_occ bool_dec mask true.
Proof.
  revert p. induction mask as [|b mask IH]; intros p Hp.
  - reflexivity.
  - destruct p as [|x p]; [discriminate Hp|].
    cbn [select_columns]. injection Hp as Hp.
    destruct b; cbn [length count_occ].
    + destruct (bool_dec true true) as [_|F]; [|contradiction].
      rewrite (IH p Hp). reflexivity.
    + destruct (bool_dec false true) as [F|_]; [discriminate F|].
      apply IH. exact Hp.
Qed.

Lemma astype_agree (t : Numpy.dtype) (mask : list bool) (p q : pattern1d) :
  agree_on mask p q ->
  agree_on mask (map (Numpy.astype t) p) (map (Numpy.astype t) q).
Proof.
  intros (Hp & Hq & H). unfold agree_on. rewrite !length_map.
  split; [exact Hp|]. split; [exact Hq|].
  intros i Hi.
  change S754_nan with (Numpy.astype t S754_nan).
  rewrite !map_nth. f_equal. exact (H i Hi).
Qed.

Lemma map_select_agree (mask : list bool) (P Q : batch) :
  Forall2 (agree_on mask) P Q ->
  map (select_columns mask) P = map (select_columns mask) Q.
Proof.
  induction 1 as [|p q P Q Hpq HPQ IH]; cbn [map]; [reflexivity|].
  rewrite (select_columns_agree mask p q Hpq), IH. reflexivity.
Qed.

Lemma prepare_chunk_simulated_agree (t : Numpy.dtype) (mask : list bool)
  (P Q : batch) :
  Forall2 (agree_on mask) P Q ->
  prepare_chunk_simulated t (Some mask) P = prepare_chunk_simulated t (Some mask) Q.
Proof.
  intros H. unfold prepare_chunk_simulated, apply_mask.
  rewrite (map_select_agree mask P Q H). reflexivity.
Qed.

Lemma prepare_all_experimental_agree (t : Numpy.dtype) (mask : list bool)
  (P Q : batch) :
  Forall2 (agree_on mask) P Q ->
  prepare_all_experimental t (Some mask) P = prepare_all_experimental t (Some mask) Q.
Proof.
  intros H. unfold prepare_all_experimental, apply_mask.
  rewrite (map_select_agree mask (map (map (Numpy.astype t)) P)
             (map (map (Numpy.astype t)) Q)); [reflexivity|].
  induction H as [|p q P Q Hpq HPQ IH]; cbn [map]; constructor.
  - apply astype_agree. exact Hpq.
  - exact IH.
Qed.

End MaskLemmas.

(* ================================================================== *)
(** * Indices that stay distinct in a merge *)

Module Distinct.
Import DictionaryIndexing Spec Wellformed Merging Once.

Lemma nodup_once (row : list Z) : NoDup row -> once row.
Proof.
  intros H c c' Hc Hc' Hne _ E.
  apply Hne. exact (proj1 (NoDup_nth row 0) H c c' Hc Hc' E).
Qed.

(** A row of indices below [m], followed by distinct indices from [m]
    on. *)
Lemma once_app (m : Z) (u v : list Z) :
  once u -> Forall (fun i => i = 0 \/ 0 <= i < m) u ->
  NoDup v -> Forall (fun i => m <= i) v ->
  once (u ++ v).
Proof.
  intros Hu Hum Hv Hvm c c' Hc Hc' Hne H0.
  rewrite length_app in Hc, Hc'.
  rewrite Forall_forall in Hum, Hvm.
  destruct (Nat.lt_ge_cases c (length u)) as [Hcu|Hcv];
    destruct (Nat.lt_ge_cases c' (length u)) as [Hcu'|Hcv'].
  - rewrite (app_nth1 u v 0 Hcu) in H0 |- *.
    rewrite (app_nth1 u v 0 Hcu').
    apply Hu; assumption.
  - rewrite (app_nth1 u v 0 Hcu) in H0 |- *.
    rewrite (app_nth2 u v 0 Hcv').
    assert (Hv' : (c' - length u < length v)%nat) by lia.
    pose proof (Hum (nth c u 0) (nth_In u 0 Hcu)) as H1.
    pose proof (Hvm (nth (c' - length u) v 0) (nth_In v 0 Hv')) as H2.
    lia.
  - rewrite (app_nth2 u v 0 Hcv) in H0 |- *.
    rewrite (app_nth1 u v 0 Hcu').
    assert (Hv' : (c - length u < length v)%nat) by lia.
    pose proof (Hum (nth c' u 0) (nth_In u 0 Hcu')) as H1.
    pose proof (Hvm (nth (c - length u) v 0) (nth_In v 0 Hv')) as H2.
    lia.
  - rewrite (app_nth2 u v 0 Hcv), (app_nth2 u v 0 Hcv').
    intros E.
    assert (Hv1 : (c - length u < length v)%nat) by lia.
    assert (Hv2 : (c' - length u < length v)%nat) by lia.
    pose proof (proj1 (NoDup_nth v 0) Hv (c - length u)%nat (c' - length u)%nat
                  Hv1 Hv2 E).
    lia.
Qed.

Lemma nodup_map_injective {A B} (f : A -> B) (l : list A) :
  (forall a b, f a = f b -> a = b) -> NoDup l -> NoDup (map f l).
Proof.
  intros Hf. induction 1 as [|x l Hx Hl IH]; cbn [map]; constructor.
  - intros H. apply in_map_iff in H. destruct H as (y & Hy & Hin).
    apply Hf in Hy. subst y. contradiction.
  - exact IH.
Qed.

Lemma nodup_slice {A} (l : list A) (a b : Z) : NoDup l -> NoDup (Py.slice l a b).
Proof.
  intros H. unfold Py.slice. apply Arrays.nodup_firstn, Arrays.nodup_skipn.
  exact H.
Qed.

Lemma nth_take {A} (d : A) (row : list A) (idx : list nat) (c : nat) :
  (c < length idx)%nat ->
  nth c (Numpy.take d row idx) d = nth (nth c idx 0%nat) row d.
Proof.
  intros Hc. unfold Numpy.take.
  rewrite (nth_indep _ d (nth 0%nat row d)) by (rewrite length_map; exact Hc).
  apply (map_nth (fun i => nth i row d)).
Qed.

(** Taking distinct positions of a row keeps it free of repetitions. *)
Lemma once_take (row : list Z) (idx : list nat) :
  once row -> NoDup idx -> Forall (fun i => (i < length row)%nat) idx ->
  once (Numpy.take 0 row idx).
Proof.
  intros Hrow Hidx Hin c c' Hc Hc' Hne H0.
  rewrite Arrays.length_take in Hc, Hc'.
  rewrite (nth_take 0 row idx c Hc) in H0 |- *.
  rewrite (nth_take 0 row idx c' Hc').
  rewrite Forall_forall in Hin.
  apply Hrow.
  - apply Hin. apply nth_In. exact Hc.
  - apply Hin. apply nth_In. exact Hc'.
  - intros E. apply Hne.
    exact (proj1 (NoDup_nth idx 0%nat) Hidx c c' Hc Hc' E).
  - exact H0.
Qed.

(** The indices of the running arrays before the chunk that starts at
    [m]: no repetition but of 0, and all below [m]. *)
Definition seen (m : Z) (acc : xmap) : Prop :=
  Forall (fun row => once row /\ Forall (fun i => i = 0 \/ 0 <= i < m) row)
    (simulation_indices acc).

Lemma merge_chunk_seen (metric : SimilarityMetric)
  (experimental dictionary : batch) (keep_n : Z) (n : nat)
  (acc acc' : xmap) (start stop : Z) (t t' : Py.trace) :
  scores_per_pattern metric ->
  0 <= start -> start < stop -> stop <= Z.of_nat (length dictionary) ->
  0 <= keep_n ->
  shaped n (Z.to_nat keep_n) acc /\ seen start acc ->
  merge_chunk metric experimental dictionary keep_n acc (start, stop) t =
    (t', inr acc') ->
  shaped n (Z.to_nat keep_n) acc' /\ seen stop acc'.
Proof.
  intros Hmetric H0 Hss Hstop Hk0 [Hshape Hseen] H.
  split; [exact (merge_chunk_shaped _ _ _ _ _ _ _ _ _ _ Hk0 Hshape H)|].
  apply merge_chunk_returns in H.
  destruct H as (idx_i & sc_i & Hm & _ & Hl1 & Hl2 & ->). cbv zeta.
  pose proof (match_chunk_returns _ _ _ _ _ _ _ _ Hm) as (Hk & _ & _ & _ & Hsc & _).
  assert (Hrows : Forall (fun row => length row =
                            length (Py.slice dictionary start stop))
                    (similarities metric experimental
                       (Py.slice dictionary start stop)))
    by apply Hmetric.
  pose proof (Slicing.length_slice dictionary start stop) as Hls.
  rewrite match_chunk_rowwise in Hm.
  2: exact Hk.
  2: { eapply Forall_impl; [|exact Hrows]. cbn. intros row Hrow. lia. }
  injection Hm as <- <-.
  set (k := Z.min keep_n (stop - start)) in *.
  set (sims := similarities metric experimental (Py.slice dictionary start stop)) in *.
  destruct Hshape as (Hn1 & Hn2 & Hs & Hi).
  unfold seen in *. cbn [simulation_indices].
  unfold Numpy.take_along_axis. apply Forall_map.
  apply Forall_forall. intros [row ix] Hp.
  pose proof (in_combine_l _ _ _ _ Hp) as Hrow.
  pose proof (in_combine_r _ _ _ _ Hp) as Hix.
  apply in_map_iff in Hrow. destruct Hrow as ([u v] & <- & Huv). cbn [fst snd].
  pose proof (in_combine_l _ _ _ _ Huv) as Hu.
  pose proof (in_combine_r _ _ _ _ Huv) as Hv.
  rewrite Forall_forall in Hseen, Hi, Hs, Hsc.
  destruct (Hseen u Hu) as [Honce Hbelow].
  apply in_map_iff in Hv. destruct Hv as (v0 & <- & Hv0).
  apply in_map_iff in Hv0. destruct Hv0 as (srow & <- & Hsrow).
  rewrite Forall_forall in Hrows.
  pose proof (Hrows srow Hsrow) as Hlen.
  assert (Hvn : NoDup (map (fun i => i + start)
                           (map Z.of_nat (Dask.argtopk k srow)))).
  { rewrite map_map. apply nodup_map_injective.
    - intros a b E. lia.
    - apply TopK.argtopk_nodup. }
  assert (Hvr : Forall (fun i => start <= i < stop)
                  (map (fun i => i + start)
                       (map Z.of_nat (Dask.argtopk k srow)))).
  { rewrite map_map. apply Forall_map. apply Forall_forall. intros j Hj.
    apply TopK.argtopk_in_range in Hj. lia. }
  set (v := map (fun i => i + start) (map Z.of_nat (Dask.argtopk k srow))) in *.
  assert (Hall : once (u ++ v)).
  { apply (once_app start); [exact Honce|exact Hbelow|exact Hvn|].
    eapply Forall_impl; [|exact Hvr]. cbn. intros; lia. }
  unfold best_indices in Hix. apply in_map_iff in Hix.
  destruct Hix as (arow & <- & Harow).
  apply in_map_iff in Harow. destruct Harow as ([x y] & <- & Hxy). cbn [fst snd].
  pose proof (in_combine_l _ _ _ _ Hxy) as Hx.
  pose proof (in_combine_r _ _ _ _ Hxy) as Hy.
  apply in_map_iff in Hy. destruct Hy as (srow' & <- & Hsrow').
  pose proof (Hrows srow' Hsrow') as Hlen'.
  assert (Hsame : length (x ++ Dask.topk k srow') = length (u ++ v)).
  { rewrite !length_app, (Hs x Hx), (Hi u Hu).
    unfold v. rewrite !length_map. unfold Dask.topk.
    rewrite Arrays.length_take, !TopK.length_argtopk by exact Hk. lia. }
  split.
  - apply once_take; [exact Hall| |].
    + apply nodup_slice. apply Sorting.argsort_nodup.
    + apply Forall_forall. intros j Hj. apply best_row_in_range in Hj. lia.
  - apply Forall_forall. intros i Hi'. apply Arrays.in_take in Hi'.
    destruct Hi' as [->|Hi']; [left; reflexivity|].
    apply in_app_or in Hi'. destruct Hi' as [Hi'|Hi'].
    + rewrite Forall_forall in Hbelow. specialize (Hbelow i Hi'). lia.
    + rewrite Forall_forall in Hvr. specialize (Hvr i Hi'). lia.
Qed.

End Distinct.

(* ================================================================== *)
(** * Indices that stay distinct over the loop *)

Module DistinctLoop.
Import DictionaryIndexing Spec Wellformed Merging Once.

(** A property of the running arrays that depends on how far the loop
    has come: what holds at the start of every chunk and is carried to
    its end holds, after the loop, at the end of the dictionary. *)
Lemma for_each_tiles (P : Z -> xmap -> Prop) (body : xmap -> Z * Z -> Py.M xmap)
  (a0 b0 : Z) :
  (forall acc start stop t t' acc',
     a0 <= start -> start < stop -> stop <= b0 ->
     P start acc -> body acc (start, stop) t = (t', inr acc') -> P stop acc') ->
  forall a b bounds,
    tiles a b bounds -> a0 <= a -> b <= b0 ->
    forall acc t t' r,
      P a acc -> Py.for_each bounds body acc t = (t', inr r) -> P b r.
Proof.
  intros Hbody a b bounds Htiles.
  induction Htiles as [a b Hab | a m b bounds Ham Hl IH];
    intros Ha Hb acc t t' r Hacc; cbn [Py.for_each]; unfold Py.bind.
  - destruct (body acc (a, b) t) as [t1 [e|acc1]] eqn:E; [discriminate|].
    intros H. injection H as _ <-.
    exact (Hbody _ _ _ _ _ _ Ha Hab Hb Hacc E).
  - destruct (body acc (a, m) t) as [t1 [e|acc1]] eqn:E; [discriminate|].
    pose proof (ChunkBounds.tiles_le _ _ _ Hl) as Hmb.
    apply IH; [lia|exact Hb|].
    exact (Hbody _ _ _ _ _ _ Ha Ham ltac:(lia) Hacc E).
Qed.

Lemma once_zeros (k : nat) : once (repeat 0 k).
Proof.
  intros c c' Hc _ _ H0. exfalso. apply H0.
  rewrite repeat_length in Hc. clear -Hc. revert c Hc.
  induction k as [|k IH]; intros c Hc; [lia|].
  destruct c; [reflexivity|]. cbn [repeat nth]. apply IH. lia.
Qed.

Lemma driver_indices_once (experimental : batch) (nav : list nat)
  (dictionary : batch) (metric : SimilarityMetric) (keep_n n_per_iteration : Z)
  (t : Py.trace) (r : xmap) :
  scores_per_pattern metric ->
  Py.run (_dictionary_indexing experimental nav dictionary metric
            keep_n n_per_iteration) = (t, inr r) ->
  Forall once (simulation_indices r) /\
  (Z.of_nat (length dictionary) = n_per_iteration ->
   Forall (@NoDup Z) (simulation_indices r)).
Proof.
  intros Hmetric H.
  destruct (Returns.driver_returns_arguments _ _ _ _ _ _ _ _ H) as (Hk & Hn).
  unfold Py.run in H.
  destruct (Z.eq_dec (Z.of_nat (length dictionary)) n_per_iteration) as [He|Hne].
  - rewrite EarlyExit.driver_single_pass in H by lia.
    rewrite SinglePass.single_pass_rowwise in H by (try assumption; lia).
    injection H as _ <-. cbn [simulation_indices].
    assert (Hnd : Forall (@NoDup Z)
                    (map (fun row => map Z.of_nat
                                       (Dask.argtopk
                                          (Z.min keep_n (Z.of_nat (length dictionary)))
                                          row))
                         (similarities metric
                            (prepare_experimental metric experimental) dictionary))).
    { apply Forall_map. apply Forall_forall. intros row _.
      apply SinglePass.nodup_map_of_nat, TopK.argtopk_nodup. }
    split; [|intros _; exact Hnd].
    eapply Forall_impl; [|exact Hnd]. intros row. apply Distinct.nodup_once.
  - split; [|intros E; contradiction].
    rewrite EarlyExit.driver_multi_chunk in H by lia.
    apply Returns.multi_chunk_path_returns in H; [|exact Hn].
    destruct H as (Hk0 & first_chunks & last_start & _ & _ & _ & _ & Htiles & Hloop).
    cbv zeta in Htiles, Hloop.
    set (n := fold_right Nat.mul 1%nat nav) in *.
    set (k := Z.min keep_n (Z.of_nat (length dictionary))) in *.
    assert (Hinv : shaped n (Z.to_nat k) r /\
                   Distinct.seen (Z.of_nat (length dictionary)) r).
    { refine (for_each_tiles
                (fun m acc => shaped n (Z.to_nat k) acc /\ Distinct.seen m acc)
                _ 0 (Z.of_nat (length dictionary)) _ _ _ _ Htiles
                (Z.le_refl 0) (Z.le_refl _) _ _ _ _ _ Hloop).
      - intros acc start stop t0 t1 acc' H0 Hss Hstop Hacc Hm.
        exact (Distinct.merge_chunk_seen _ _ _ _ _ _ _ _ _ _ _
                 Hmetric H0 Hss Hstop Hk0 Hacc Hm).
      - split; [apply Returns.initial_shaped|].
        unfold Distinct.seen, Returns.initial. cbn [simulation_indices].
        apply Forall_forall. intros row Hrow. apply repeat_spec in Hrow. subst row.
        split; [apply once_zeros|].
        apply Forall_forall. intros i Hi. apply repeat_spec in Hi. left. exact Hi. }
    destruct Hinv as [_ Hseen].
    eapply Forall_impl; [|exact Hseen]. cbn. intros row [Ho _]. exact Ho.
Qed.

End DistinctLoop.

(* ================================================================== *)
(** * IEEE arithmetic: shifting, rounding, and the division *)

Module RoundingLemmas.
Import Rounding.

Ltac boolcase :=
  repeat match goal with
  | |- context [?a <=? ?b] => destruct (Z.leb_spec a b)
  | |- context [?a =? ?b] => destruct (Z.eqb_spec a b)
  | |- context [?a <? ?b] => destruct (Z.ltb_spec a b)
  end.

Lemma shr_1_located (mrs : shr_record) (rho D : Z) :
  0 <= shr_m mrs -> located mrs rho D ->
  located (shr_1 mrs) ((shr_m mrs mod 2) * D + rho) (2 * D) /\
  shr_m (shr_1 mrs) = shr_m mrs / 2.
Proof.
  destruct mrs as [m r s]. cbn [shr_m shr_r shr_s].
  intros Hm (Hrho & Hr & Hs). cbn [shr_m shr_r shr_s] in Hr, Hs. subst r s.
  assert (Hdm : m = 2 * (m / 2) + m mod 2) by (apply Z.div_mod; lia).
  assert (Hmod : 0 <= m mod 2 < 2) by (apply Z.mod_pos_bound; lia).
  destruct m as [|[p|p|]|]; try lia; cbn [shr_1 shr_m shr_r shr_s].
  - rewrite Z.mod_0_l, Z.div_0_l by lia. unfold located. cbn [shr_m shr_r shr_s].
    split; [|reflexivity]. split; [lia|]. split; boolcase; cbn; lia.
  - assert (Hd : Z.pos p~1 / 2 = Z.pos p /\ Z.pos p~1 mod 2 = 1).
    { rewrite Pos2Z.inj_xI in *. split; lia. }
    destruct Hd as [Hd1 Hd2]. rewrite Hd1, Hd2. unfold located.
    cbn [shr_m shr_r shr_s].
    split; [|reflexivity]. split; [lia|]. split; boolcase; cbn; lia.
  - assert (Hd : Z.pos p~0 / 2 = Z.pos p /\ Z.pos p~0 mod 2 = 0).
    { rewrite Pos2Z.inj_xO in *. split; lia. }
    destruct Hd as [Hd1 Hd2]. rewrite Hd1, Hd2. unfold located.
    cbn [shr_m shr_r shr_s].
    split; [|reflexivity]. split; [lia|]. split; boolcase; cbn; lia.
  - change (1 / 2) with 0. change (1 mod 2) with 1. unfold located.
    cbn [shr_m shr_r shr_s].
    split; [|reflexivity]. split; [lia|]. split; boolcase; cbn; lia.
Qed.

Lemma iter_shr_1_located (k : nat) (mrs : shr_record) (rho D : Z) :
  0 <= shr_m mrs -> located mrs rho D ->
  exists rho',
    located (Nat.iter k shr_1 mrs) rho' (2 ^ Z.of_nat k * D) /\
    shr_m (Nat.iter k shr_1 mrs) * (2 ^ Z.of_nat k * D) + rho' =
      shr_m mrs * D + rho /\
    0 <= shr_m (Nat.iter k shr_1 mrs).
Proof.
  intros Hm Hloc. induction k as [|k IH].
  - exists rho. cbn [Nat.iter]. change (2 ^ Z.of_nat 0) with 1.
    rewrite Z.mul_1_l. repeat split; try assumption; apply Hloc.
  - destruct IH as (rho1 & Hloc1 & Hval & Hpos).
    change (Nat.iter (S k) shr_1 mrs) with (shr_1 (Nat.iter k shr_1 mrs)).
    set (mrs1 := Nat.iter k shr_1 mrs) in *.
    destruct (shr_1_located mrs1 rho1 _ Hpos Hloc1) as [Hloc2 Hm2].
    exists ((shr_m mrs1 mod 2) * (2 ^ Z.of_nat k * D) + rho1).
    rewrite Nat2Z.inj_succ, Z.pow_succ_r by lia.
    rewrite <- Z.mul_assoc. split; [exact Hloc2|].
    rewrite Hm2. split.
    + rewrite <- Hval.
      pose proof (Z.div_mod (shr_m mrs1) 2 ltac:(lia)) as Hdm.
      set (a := shr_m mrs1 / 2) in *. set (b := shr_m mrs1 mod 2) in *.
      set (E := 2 ^ Z.of_nat k * D) in *. clearbody a b E. rewrite Hdm. ring.
    + apply Z.div_pos; lia.
Qed.

(** [shr] by [n] positions: the mantissa is divided by [2 ^ n], and the
    record locates what was cut off. *)
Lemma shr_located (mrs : shr_record) (e n rho D : Z) :
  0 <= shr_m mrs -> located mrs rho D ->
  exists rho',
    located (fst (shr mrs e n)) rho' (2 ^ Z.max n 0 * D) /\
    shr_m (fst (shr mrs e n)) * (2 ^ Z.max n 0 * D) + rho' =
      shr_m mrs * D + rho /\
    0 <= shr_m (fst (shr mrs e n)) /\
    snd (shr mrs e n) = e + Z.max n 0.
Proof.
  intros Hm Hloc. destruct n as [|p|p]; cbn [shr fst snd].
  - exists rho. change (2 ^ Z.max 0 0) with 1. rewrite Z.mul_1_l, Z.add_0_r.
    repeat split; try assumption; apply Hloc.
  - rewrite IeeeMul.iter_pos_nat.
    destruct (iter_shr_1_located (Pos.to_nat p) mrs rho D Hm Hloc)
      as (rho' & H1 & H2 & H3).
    rewrite positive_nat_Z in H1, H2.
    exists rho'. rewrite Z.max_l by lia. repeat split; try assumption; apply H1.
  - exists rho. rewrite Z.max_r by lia. change (2 ^ 0) with 1.
    rewrite Z.mul_1_l, Z.add_0_r.
    repeat split; try assumption; apply Hloc.
Qed.

(** The location that the division computes from the remainder. *)
Lemma new_location_located (q r D : Z) :
  0 <= r < D ->
  located (shr_record_of_loc q (new_location D r)) r D.
Proof.
  intros Hr. unfold new_location, new_location_even, new_location_odd.
  destruct (Z.even D) eqn:Heven.
  - destruct (Z.eqb_spec r 0) as [->|Hr0].
    + unfold located; cbn. split; [lia|]. split; boolcase; cbn; lia.
    + destruct (Z.compare_spec (2 * r) D) as [Hc|Hc|Hc];
        unfold located; cbn [shr_record_of_loc shr_m shr_r shr_s];
        (split; [lia|]); split; boolcase; cbn; lia.
  - assert (Hodd : Z.odd D = true) by (rewrite <- Z.negb_even, Heven; reflexivity).
    apply Z.odd_spec in Hodd. destruct Hodd as [h Hh].
    destruct (Z.eqb_spec r 0) as [->|Hr0].
    + unfold located; cbn. split; [lia|]. split; boolcase; cbn; lia.
    + destruct (Z.compare_spec (2 * r + 1) D) as [Hc|Hc|Hc];
        unfold located; cbn [shr_record_of_loc shr_m shr_r shr_s];
        (split; [lia|]); split; boolcase; cbn; lia.
Qed.

Lemma shr_m_record_of_loc (m : Z) (l : location) :
  shr_m (shr_record_of_loc m l) = m.
Proof. destruct l as [|[| |]]; reflexivity. Qed.

(** Rounding to nearest, ties to even: the mantissa stays or goes up by
    one, and ends within half a unit of the located value. *)
Lemma round_nearest_even_located (mrs : shr_record) (rho D : Z) :
  located mrs rho D ->
  let mr := round_nearest_even (shr_m mrs) (loc_of_shr_record mrs) in
  (mr = shr_m mrs \/ mr = shr_m mrs + 1) /\
  2 * Z.abs (mr * D - (shr_m mrs * D + rho)) <= D.
Proof.
  destruct mrs as [m r s]. unfold located. cbn [shr_m shr_r shr_s].
  intros (Hrho & Hr & Hs).
  assert (Hup : (m + 1) * D - (m * D + rho) = D - rho) by ring.
  assert (Hdown : m * D - (m * D + rho) = - rho) by ring.
  destruct r, s; cbn [loc_of_shr_record round_nearest_even]; cbv zeta.
  - split; [right; reflexivity|]. rewrite Hup.
    revert Hr Hs. boolcase; cbn [negb andb]; intros; try discriminate; lia.
  - revert Hr Hs. boolcase; cbn [negb andb]; intros; try discriminate; try lia.
    destruct (Z.even m); (split; [auto|]); rewrite ?Hup, ?Hdown; lia.
  - split; [left; reflexivity|]. rewrite Hdown.
    revert Hr Hs. boolcase; cbn [negb andb]; intros; try discriminate; lia.
  - split; [left; reflexivity|]. rewrite Hdown.
    revert Hr Hs. boolcase; cbn [negb andb]; intros; try discriminate; lia.
Qed.

(** The number of binary digits. *)
Lemma Zdigits2_nonneg (m : Z) : 0 <= Zdigits2 m.
Proof. destruct m; cbn; lia. Qed.

Lemma Zdigits2_bounds (m : Z) :
  0 < m -> 2 ^ (Zdigits2 m - 1) <= m < 2 ^ Zdigits2 m.
Proof.
  intros Hm. destruct m as [|p|p]; try lia. cbn [Zdigits2].
  rewrite Ieee.digits2_pos_log2.
  replace (Z.log2 (Z.pos p) + 1 - 1) with (Z.log2 (Z.pos p)) by lia.
  replace (Z.log2 (Z.pos p) + 1) with (Z.succ (Z.log2 (Z.pos p))) by lia.
  apply Z.log2_spec. lia.
Qed.

Lemma Zdigits2_lt_pow (m d : Z) : 0 <= m -> 0 <= d -> m < 2 ^ d -> Zdigits2 m <= d.
Proof.
  intros Hm Hd H. destruct (Z.eq_dec m 0) as [->|Hm0]; [cbn; lia|].
  destruct (Zdigits2_bounds m ltac:(lia)) as [Hlo _].
  destruct (Z.le_gt_cases (Zdigits2 m) d) as [|Hgt]; [assumption|].
  assert (2 ^ d <= 2 ^ (Zdigits2 m - 1)) by (apply Z.pow_le_mono_r; lia).
  lia.
Qed.

Lemma Zdigits2_ge_pow (m d : Z) : 2 ^ d <= m -> 0 <= d -> d + 1 <= Zdigits2 m.
Proof.
  intros H Hd.
  assert (Hm : 0 < m) by (pose proof (Z.pow_pos_nonneg 2 d); lia).
  destruct (Zdigits2_bounds m Hm) as [_ Hhi].
  destruct (Z.le_gt_cases (d + 1) (Zdigits2 m)) as [|Hgt]; [assumption|].
  assert (2 ^ Zdigits2 m <= 2 ^ d)
    by (apply Z.pow_le_mono_r; [lia|lia]).
  lia.
Qed.

Section Round.
Variables prec emax : Z.
Hypothesis Hprec : 0 < prec.


Lemma fexp_ge_emin (e : Z) : SpecFloat.emin prec emax <= SpecFloat.fexp prec emax e.
Proof. unfold SpecFloat.fexp. lia. Qed.

Lemma fexp_mono (a b : Z) : a <= b -> SpecFloat.fexp prec emax a <= SpecFloat.fexp prec emax b.
Proof. unfold SpecFloat.fexp. lia. Qed.

(** [binary_round_aux] on a mantissa with at least as many digits as its
    exponent asks for.  With [e1] the exponent the format gives the
    value, the result is [mr * 2 ^ e1] for a mantissa [mr] within half a
    unit of the located value; when [e1] is above [emin] the value has
    [prec] digits at that exponent. *)
Lemma binary_round_aux_spec (sx : bool) (mx ex : Z) (lx : location) (rho D : Z) :
  0 <= mx -> located (shr_record_of_loc mx lx) rho D ->
  let e1 := SpecFloat.fexp prec emax (Zdigits2 mx + ex) in
  ex <= e1 ->
  exists mr,
    0 <= mr /\
    2 * Z.abs (mr * (2 ^ (e1 - ex) * D) - (mx * D + rho)) <= 2 ^ (e1 - ex) * D /\
    (e1 = SpecFloat.emin prec emax \/ 2 ^ (prec - 1) * (2 ^ (e1 - ex) * D) <= mx * D + rho) /\
    ((mr = 0 /\ binary_round_aux prec emax sx mx ex lx = S754_zero sx) \/
     exists m2 e2,
       binary_round_aux prec emax sx mx ex lx =
         (if e2 <=? emax - prec then S754_finite sx m2 e2 else S754_infinity sx) /\
       Z.pos m2 * 2 ^ (e2 - e1) = mr /\ e1 <= e2 <= e1 + 1).
Proof.
  intros Hmx Hloc e1 He1.
  assert (Hrho : 0 <= rho < D).
  { destruct Hloc as (Hrho & _). exact Hrho. }
  assert (HD : 0 < D) by lia.
  unfold binary_round_aux, shr_fexp. fold e1.
  pose proof (shr_located (shr_record_of_loc mx lx) ex (e1 - ex) rho D) as Hshr.
  rewrite shr_m_record_of_loc in Hshr. specialize (Hshr Hmx Hloc).
  destruct Hshr as (rho1 & Hloc1 & Hval1 & Hpos1 & Hexp1).
  rewrite Z.max_l in * by lia.
  destruct (shr (shr_record_of_loc mx lx) ex (e1 - ex)) as [mrs1 e1'] eqn:Eshr.
  cbn [fst snd] in *.
  assert (He1' : e1' = e1) by lia. clear Hexp1 Eshr. subst e1'.
  set (K := 2 ^ (e1 - ex)) in *.
  assert (HK : 0 < K) by (apply Z.pow_pos_nonneg; lia).
  destruct (round_nearest_even_located mrs1 rho1 (K * D) Hloc1) as [Hmr Herr].
  set (mr := round_nearest_even (shr_m mrs1) (loc_of_shr_record mrs1)) in *.
  assert (Hrho1 : 0 <= rho1 < K * D) by apply Hloc1.
  (* the truncated mantissa has at most [prec] digits *)
  assert (Hm1 : shr_m mrs1 < 2 ^ prec).
  { destruct (Z.eq_dec mx 0) as [Hz|Hz].
    - assert (HKD : D <= K * D) by nia.
      assert (shr_m mrs1 = 0) by nia.
      pose proof (Z.pow_pos_nonneg 2 prec). lia.
    - destruct (Zdigits2_bounds mx ltac:(lia)) as [_ Hhi].
      assert (Hd : Zdigits2 mx <= (e1 - ex) + prec).
      { unfold e1, SpecFloat.fexp. lia. }
      assert (Hp : 2 ^ Zdigits2 mx <= K * 2 ^ prec).
      { unfold K. rewrite <- Z.pow_add_r by lia. apply Z.pow_le_mono_r; lia. }
      assert (shr_m mrs1 * K <= mx) by nia.
      nia. }
  exists mr. split; [lia|]. split.
  { rewrite <- Hval1. exact Herr. }
  split.
  { destruct (Z.eq_dec e1 (SpecFloat.emin prec emax)) as [|Hne]; [left; assumption|right].
    assert (He : e1 = Zdigits2 mx + ex - prec) by (unfold e1, SpecFloat.fexp in *; lia).
    assert (Hmx0 : 0 < mx).
    { destruct (Z.eq_dec mx 0) as [->|]; [|lia]. cbn in He. lia. }
    destruct (Zdigits2_bounds mx Hmx0) as [Hlo _].
    assert (Hp : 2 ^ (Zdigits2 mx - 1) = 2 ^ (prec - 1) * K).
    { unfold K. rewrite <- Z.pow_add_r by lia. f_equal. lia. }
    nia. }
  (* the second shift *)
  assert (Hemin : SpecFloat.emin prec emax <= e1) by apply fexp_ge_emin.
  destruct (Z.eq_dec mr 0) as [Hmr0|Hmr0].
  { left. split; [exact Hmr0|]. rewrite Hmr0. cbn [Zdigits2].
    assert (Hn : SpecFloat.fexp prec emax (0 + e1) - e1 <= 0) by (unfold SpecFloat.fexp; lia).
    destruct (SpecFloat.fexp prec emax (0 + e1) - e1) as [| |]; try lia; reflexivity. }
  right.
  assert (Hmrpos : 0 < mr) by lia.
  destruct (Z.ltb_spec mr (2 ^ prec)) as [Hlt|Hge].
  - (* no carry into a new digit *)
    assert (Hd : Zdigits2 mr <= prec) by (apply Zdigits2_lt_pow; lia).
    assert (Hn : SpecFloat.fexp prec emax (Zdigits2 mr + e1) - e1 <= 0) by (unfold SpecFloat.fexp; lia).
    destruct mr as [|pm|]; try lia.
    exists pm, e1.
    rewrite Z.sub_diag. change (2 ^ 0) with 1. rewrite Z.mul_1_r.
    split; [|split; [reflexivity|lia]].
    destruct (SpecFloat.fexp prec emax (Zdigits2 (Z.pos pm) + e1) - e1) as [| |]; try lia;
      cbn [shr shr_record_of_loc shr_m]; reflexivity.
  - (* the mantissa became [2 ^ prec] *)
    assert (Hmr2 : mr = 2 ^ prec) by lia.
    assert (Hd : Zdigits2 mr = prec + 1).
    { apply Z.le_antisymm.
      - apply Zdigits2_lt_pow; try lia. rewrite Hmr2.
        apply Z.pow_lt_mono_r; lia.
      - apply Zdigits2_ge_pow; lia. }
    rewrite Hd.
    assert (Hn : SpecFloat.fexp prec emax (prec + 1 + e1) - e1 = 1) by (unfold SpecFloat.fexp; lia).
    rewrite Hn.
    assert (Hhalf : exists ph, Z.pos ph = 2 ^ (prec - 1)).
    { pose proof (Z.pow_pos_nonneg 2 (prec - 1) ltac:(lia) ltac:(lia)).
      destruct (2 ^ (prec - 1)) as [|ph|] eqn:E; try lia. exists ph. reflexivity. }
    destruct Hhalf as [ph Hph].
    assert (Hmr3 : mr = Z.pos ph~0).
    { assert (Hp2 : 2 ^ prec = 2 * 2 ^ (prec - 1)).
      { rewrite <- Z.pow_succ_r by lia. f_equal. lia. }
      pose proof (Pos2Z.inj_xO ph). lia. }
    rewrite Hmr3. cbn [shr shr_record_of_loc iter_pos shr_1 shr_m].
    exists ph, (e1 + 1). split; [reflexivity|].
    replace (e1 + 1 - e1) with 1 by lia. split; lia.
Qed.

(** The quotient of the mantissas has the digits of the difference of
    the operands' digits, or one more. *)
Lemma quotient_digits (m1 m2 q r s : Z) :
  0 < m1 -> 0 < m2 -> 0 <= s ->
  m1 * 2 ^ s = q * m2 + r -> 0 <= r < m2 ->
  0 <= q /\
  Zdigits2 m1 - Zdigits2 m2 + s <= Zdigits2 q /\
  (0 < q -> Zdigits2 q <= Zdigits2 m1 - Zdigits2 m2 + s + 1).
Proof.
  intros H1 H2 Hs Hq Hr.
  destruct (Zdigits2_bounds m1 H1) as [Hlo1 Hhi1].
  destruct (Zdigits2_bounds m2 H2) as [Hlo2 Hhi2].
  pose proof (Zdigits2_nonneg m1) as Hd1. pose proof (Zdigits2_nonneg m2) as Hd2.
  assert (Hd1' : 1 <= Zdigits2 m1).
  { destruct m1; try lia. cbn. lia. }
  assert (Hd2' : 1 <= Zdigits2 m2).
  { destruct m2; try lia. cbn. lia. }
  set (d1 := Zdigits2 m1) in *. set (d2 := Zdigits2 m2) in *.
  assert (HS : 0 < 2 ^ s) by (apply Z.pow_pos_nonneg; lia).
  assert (Hq0 : 0 <= q) by nia.
  split; [exact Hq0|]. split.
  - destruct (Z.le_gt_cases 0 (d1 - 1 + s - d2)) as [Ht|Ht].
    + assert (Hpow : 2 ^ (d1 - 1) * 2 ^ s = 2 ^ (d1 - 1 + s - d2) * 2 ^ d2).
      { rewrite <- !Z.pow_add_r by lia. f_equal. lia. }
      set (T := 2 ^ (d1 - 1 + s - d2)) in *.
      assert (HT : 0 < T) by (apply Z.pow_pos_nonneg; lia).
      assert (Hge : T <= q).
      { destruct (Z.le_gt_cases T q) as [|Hlt]; [assumption|exfalso].
        assert (H3 : (q + 1) * m2 <= T * m2) by (apply Z.mul_le_mono_nonneg_r; lia).
        assert (H4 : T * m2 < T * 2 ^ d2) by (apply Z.mul_lt_mono_pos_l; lia).
        assert (H5 : 2 ^ (d1 - 1) * 2 ^ s <= m1 * 2 ^ s)
          by (apply Z.mul_le_mono_nonneg_r; lia).
        lia. }
      pose proof (Zdigits2_ge_pow q (d1 - 1 + s - d2) Hge Ht). lia.
    + pose proof (Zdigits2_nonneg q). lia.
  - intros Hqpos.
    assert (H3 : q * 2 ^ (d2 - 1) <= q * m2) by (apply Z.mul_le_mono_nonneg_l; lia).
    assert (H4 : m1 * 2 ^ s < 2 ^ d1 * 2 ^ s) by (apply Z.mul_lt_mono_pos_r; lia).
    assert (H5 : q * 2 ^ (d2 - 1) < 2 ^ (d1 + s)).
    { rewrite Z.pow_add_r by lia. lia. }
    assert (Hu : 0 <= d1 + s - d2 + 1).
    { destruct (Z.le_gt_cases 0 (d1 + s - d2 + 1)) as [|Hneg]; [assumption|exfalso].
      assert (H6 : 2 ^ (d1 + s) <= 2 ^ (d2 - 1)) by (apply Z.pow_le_mono_r; lia).
      assert (H7 : 1 * 2 ^ (d2 - 1) <= q * 2 ^ (d2 - 1)).
      { apply Z.mul_le_mono_nonneg_r; [apply Z.pow_nonneg|]; lia. }
      lia. }
    replace (d1 - d2 + s + 1) with (d1 + s - d2 + 1) by lia.
    apply Zdigits2_lt_pow; [lia|lia|].
    assert (Hpow : 2 ^ (d1 + s) = 2 ^ (d1 + s - d2 + 1) * 2 ^ (d2 - 1)).
    { rewrite <- Z.pow_add_r by lia. f_equal. lia. }
    rewrite Hpow in H5.
    apply (Z.mul_lt_mono_pos_r (2 ^ (d2 - 1))); [apply Z.pow_pos_nonneg; lia|exact H5].
Qed.

Lemma shift_mantissa (m s : Z) :
  0 <= s ->
  match s with
  | 0 => m
  | Z.pos _ => Z.shiftl m s
  | Z.neg _ => 0
  end = m * 2 ^ s.
Proof.
  intros Hs. destruct s as [|ps|ps]; [lia| |lia].
  apply Z.shiftl_mul_pow2. lia.
Qed.

(** The division of two finite numbers, on the integers.  With [E] the
    exponent at which the quotient is rounded and [mr] the rounded
    mantissa, [mr * 2 ^ E] is within half a unit [2 ^ E] of the
    quotient [m1 * 2 ^ e1 / (m2 * 2 ^ e2)], and unless [E] is [emin] the
    quotient is at least [2 ^ (prec - 1)] units. *)
Lemma SFdiv_finite_spec (sx sy : bool) (m1 m2 : positive) (e1 e2 : Z) :
  exists E k s mr,
    0 <= k /\ 0 <= s /\ E - k + s = e1 - e2 /\ 0 <= mr /\
    SpecFloat.emin prec emax <= E /\
    E <= Z.max (Z.pos (digits2_pos m1) + e1 - (Z.pos (digits2_pos m2) + e2)
                + 1 - prec)
               (SpecFloat.emin prec emax) /\
    2 * Z.abs (mr * (2 ^ k * Z.pos m2) - Z.pos m1 * 2 ^ s) <= 2 ^ k * Z.pos m2 /\
    (E = SpecFloat.emin prec emax \/
     2 ^ (prec - 1) * (2 ^ k * Z.pos m2) <= Z.pos m1 * 2 ^ s) /\
    ((mr = 0 /\
      SFdiv prec emax (S754_finite sx m1 e1) (S754_finite sy m2 e2) =
        S754_zero (xorb sx sy)) \/
     exists m' e',
       SFdiv prec emax (S754_finite sx m1 e1) (S754_finite sy m2 e2) =
         (if e' <=? emax - prec then S754_finite (xorb sx sy) m' e'
          else S754_infinity (xorb sx sy)) /\
       Z.pos m' * 2 ^ (e' - E) = mr /\ E <= e' <= E + 1).
Proof.
  cbn [SFdiv]. unfold SFdiv_core_binary.
  set (d1 := Zdigits2 (Z.pos m1)). set (d2 := Zdigits2 (Z.pos m2)).
  set (e0 := Z.min (SpecFloat.fexp prec emax (d1 + e1 - (d2 + e2))) (e1 - e2)).
  set (s := e1 - e2 - e0).
  assert (Hs : 0 <= s) by (unfold s, e0; lia).
  set (m' := match s with
             | 0 => Z.pos m1
             | Z.pos _ => Z.shiftl (Z.pos m1) s
             | Z.neg _ => 0
             end).
  assert (Hm' : m' = Z.pos m1 * 2 ^ s).
  { unfold m'. apply shift_mantissa. exact Hs. }
  rewrite Ieee.div_eucl_div_mod.
  set (q := m' / Z.pos m2). set (r := m' mod Z.pos m2).
  assert (Hqr : Z.pos m1 * 2 ^ s = q * Z.pos m2 + r).
  { rewrite <- Hm'. unfold q, r. rewrite Z.mul_comm. apply Z.div_mod. lia. }
  assert (Hr : 0 <= r < Z.pos m2) by (apply Z.mod_pos_bound; lia).
  destruct (quotient_digits (Z.pos m1) (Z.pos m2) q r s ltac:(lia) ltac:(lia)
              Hs Hqr Hr) as (Hq0 & Hdlo & Hdhi).
  fold d1 d2 in Hdlo, Hdhi.
  set (E := SpecFloat.fexp prec emax (Zdigits2 q + e0)).
  assert (HE : e0 <= E).
  { unfold E. transitivity (SpecFloat.fexp prec emax (d1 + e1 - (d2 + e2))).
    - unfold e0. lia.
    - apply fexp_mono. unfold s in Hdlo. lia. }
  assert (HEhi : E <= Z.max (d1 + e1 - (d2 + e2) + 1 - prec)
                            (SpecFloat.emin prec emax)).
  { destruct (Z.eq_dec q 0) as [Hq|Hq].
    - unfold E. rewrite Hq. cbn [Zdigits2]. unfold e0, SpecFloat.fexp. lia.
    - specialize (Hdhi ltac:(lia)). unfold E, SpecFloat.fexp. unfold s in Hdhi. lia. }
  pose proof (new_location_located q r (Z.pos m2) Hr) as Hloc.
  destruct (binary_round_aux_spec (xorb sx sy) q e0
              (new_location (Z.pos m2) r) r (Z.pos m2) Hq0 Hloc HE)
    as (mr & Hmr & Herr & Hrel & Hres).
  fold E in Herr, Hrel, Hres.
  exists E, (E - e0), s, mr.
  rewrite Hqr.
  split; [lia|]. split; [exact Hs|]. split; [unfold s; lia|].
  split; [exact Hmr|]. split; [apply fexp_ge_emin|].
  split; [exact HEhi|]. split; [exact Herr|]. split; [exact Hrel|].
  exact Hres.
Qed.

End Round.

End RoundingLemmas.

(* ================================================================== *)
(** * The error of a division, on the rationals *)

Module Tolerance.
Import Rounding RoundingLemmas Exact.

Lemma pow2_pos (e : Z) : (0 < 2 ^ e)%Q.
Proof. apply Qpower_0_lt. reflexivity. Qed.

Lemma pow2_add (a b : Z) : (2 ^ (a + b) == 2 ^ a * 2 ^ b)%Q.
Proof. apply Qpower_plus. discriminate. Qed.

Lemma pow2_inject (k : Z) : 0 <= k -> (inject_Z (2 ^ k) == 2 ^ k)%Q.
Proof. intros Hk. rewrite Zpower_Qpower by exact Hk. reflexivity. Qed.

Lemma inject_pos (m : Z) : 0 < m -> (0 < inject_Z m)%Q.
Proof.
  intros H. change (inject_Z 0 < inject_Z m)%Q. rewrite <- Zlt_Qlt. exact H.
Qed.

Lemma inject_nonneg (m : Z) : 0 <= m -> (0 <= inject_Z m)%Q.
Proof.
  intros H. change (inject_Z 0 <= inject_Z m)%Q. rewrite <- Zle_Qle. exact H.
Qed.

Lemma pow2_half (e : Z) : (2 ^ e == 2 * 2 ^ (e - 1))%Q.
Proof.
  replace e with (1 + (e - 1)) at 1 by lia. rewrite pow2_add. reflexivity.
Qed.

(** From the integers to the rationals: the rounded quotient times the
    divisor is within [2 ^ - prec] of the dividend, relatively, or
    within half a unit [2 ^ emin] of the quotient. *)
Lemma div_error (m1 m2 mr k s E e1 e2 prec emin : Z) :
  0 <= k -> 0 <= s -> 0 < prec -> E - k + s = e1 - e2 ->
  0 <= m1 -> 0 < m2 ->
  2 * Z.abs (mr * (2 ^ k * m2) - m1 * 2 ^ s) <= 2 ^ k * m2 ->
  E = emin \/ 2 ^ (prec - 1) * (2 ^ k * m2) <= m1 * 2 ^ s ->
  let X := (inject_Z m1 * 2 ^ e1)%Q in
  let N := (inject_Z m2 * 2 ^ e2)%Q in
  let Y := (inject_Z mr * 2 ^ E)%Q in
  (- (2 ^ (- prec) * X + N * 2 ^ (emin - 1)) <= N * Y - X <=
   2 ^ (- prec) * X + N * 2 ^ (emin - 1))%Q.
Proof.
  intros Hk Hs Hprec Hexp Hm1 Hm2 Herr Hrel X N Y.
  set (c := (2 ^ (e2 + E - k))%Q).
  assert (Hc : (0 < c)%Q) by apply pow2_pos.
  assert (HcK : (2 ^ e2 * 2 ^ E == c * 2 ^ k)%Q).
  { unfold c. rewrite <- !pow2_add. replace (e2 + E - k + k) with (e2 + E) by lia.
    reflexivity. }
  assert (HcS : (2 ^ e1 == c * 2 ^ s)%Q).
  { unfold c. rewrite <- pow2_add. replace (e2 + E - k + s) with e1 by lia.
    reflexivity. }
  pose proof (pow2_pos k) as HpK. pose proof (pow2_pos s) as HpS.
  pose proof (pow2_pos E) as HpE. pose proof (pow2_pos e2) as Hpe2.
  pose proof (pow2_pos (emin - 1)) as Hpm. pose proof (pow2_pos (- prec)) as Hpp.
  assert (Ha2 : (0 < inject_Z m2)%Q) by (apply inject_pos; exact Hm2).
  (* the error, on the rationals *)
  assert (Herr1 : (inject_Z (2 * (mr * (2 ^ k * m2) - m1 * 2 ^ s)) <=
                   inject_Z (2 ^ k * m2))%Q) by (rewrite <- Zle_Qle; lia).
  assert (Herr2 : (inject_Z (- (2 ^ k * m2)) <=
                   inject_Z (2 * (mr * (2 ^ k * m2) - m1 * 2 ^ s)))%Q)
    by (rewrite <- Zle_Qle; lia).
  replace (mr * (2 ^ k * m2) - m1 * 2 ^ s) with (mr * (2 ^ k * m2) + - (m1 * 2 ^ s))
    in Herr1, Herr2 by lia.
  repeat first [rewrite inject_Z_mult in Herr1 | rewrite inject_Z_plus in Herr1
               | rewrite inject_Z_opp in Herr1].
  repeat first [rewrite inject_Z_mult in Herr2 | rewrite inject_Z_plus in Herr2
               | rewrite inject_Z_opp in Herr2].
  pose proof (pow2_inject k Hk) as HiK. pose proof (pow2_inject s Hs) as HiS.
  rewrite HiK, HiS in Herr1. rewrite HiK, HiS in Herr2.
  set (a1 := inject_Z m1) in *. set (a2 := inject_Z m2) in *.
  set (ar := inject_Z mr) in *.
  set (pk := (2 ^ k)%Q) in *. set (ps := (2 ^ s)%Q) in *.
  set (pE := (2 ^ E)%Q) in *. set (pe1 := (2 ^ e1)%Q) in *.
  set (pe2 := (2 ^ e2)%Q) in *.
  set (pp := (2 ^ (- prec))%Q) in *. set (pm := (2 ^ (emin - 1))%Q) in *.
  change (inject_Z 2) with 2%Q in Herr1, Herr2.
  assert (Hid : (N * Y - X == c * (ar * (pk * a2) - a1 * ps))%Q).
  { unfold N, Y, X.
    transitivity (a2 * ar * (pe2 * pE) - a1 * pe1)%Q; [ring|].
    rewrite HcK, HcS. ring. }
  assert (Hhalf : (c * (pk * a2) == pE * N)%Q).
  { unfold N. transitivity (a2 * (c * pk))%Q; [ring|]. rewrite <- HcK. ring. }
  assert (Hbound : (- (pE * N) <= 2 * (N * Y - X) <= pE * N)%Q).
  { rewrite Hid, <- Hhalf. split; nra. }
  assert (HN : (0 < N)%Q) by (unfold N; nra).
  assert (HX : (0 <= X)%Q).
  { unfold X. assert (0 <= a1)%Q by (apply inject_nonneg; exact Hm1).
    assert (0 < pe1)%Q by apply pow2_pos. nra. }
  destruct Hrel as [HE|Hrel].
  - assert (HEm : (pE == 2 * pm)%Q) by (unfold pE, pm; rewrite HE; apply pow2_half).
    rewrite HEm in Hbound.
    assert (0 <= pp * X)%Q by nra.
    split; lra.
  - assert (Hrel1 : (inject_Z (2 ^ (prec - 1) * (2 ^ k * m2)) <=
                     inject_Z (m1 * 2 ^ s))%Q) by (rewrite <- Zle_Qle; exact Hrel).
    rewrite !inject_Z_mult in Hrel1.
    pose proof (pow2_inject (prec - 1) ltac:(lia)) as HiQ.
    rewrite HiK, HiS, HiQ in Hrel1.
    fold a1 a2 pk ps in Hrel1.
    set (pq := (2 ^ (prec - 1))%Q) in *.
    assert (Hpq : (pp * pq == 1 # 2)%Q).
    { unfold pp, pq. rewrite <- pow2_add.
      replace (- prec + (prec - 1)) with (- 1) by lia. reflexivity. }
    assert (HXc : (X == c * (a1 * ps))%Q).
    { unfold X. fold pe1. rewrite HcS. ring. }
    assert (Hrel2 : (c * (pq * (pk * a2)) <= c * (a1 * ps))%Q) by nra.
    assert (Hrel3 : (pp * (c * (pq * (pk * a2))) <= pp * X)%Q).
    { rewrite HXc. nra. }
    assert (Hrel4 : (pp * (c * (pq * (pk * a2))) == (1 # 2) * (pE * N))%Q).
    { rewrite <- Hhalf, <- Hpq. ring. }
    rewrite Hrel4 in Hrel3.
    assert (0 <= N * pm)%Q by nra.
    split; lra.
Qed.

Lemma tolerance_of_error (X Y N u eta d : Q) :
  (0 <= X -> 1 # 2 <= N -> 0 <= u -> 0 <= eta -> N - 1 <= d -> 1 - N <= d ->
   - (u * X + N * eta) <= N * Y - X <= u * X + N * eta ->
   - (2 * (d + u) * X + eta) <= Y - X <= 2 * (d + u) * X + eta)%Q.
Proof.
  intros HX HN Hu Heta Hd1 Hd2 [Hlo Hhi].
  assert (H1 : (X * (1 - N) <= X * d)%Q) by nra.
  assert (H2 : (X * (N - 1) <= X * d)%Q) by nra.
  assert (H3 : (0 <= (d + u) * X)%Q) by nra.
  split.
  - destruct (Qlt_le_dec (Y - X + eta) 0) as [Hneg|Hpos]; [|lra].
    assert (H4 : ((N - (1 # 2)) * (Y - X + eta) <= 0)%Q) by nra.
    nra.
  - destruct (Qlt_le_dec 0 (Y - X - eta)) as [Hpos|Hneg]; [|lra].
    assert (H4 : (0 <= (N - (1 # 2)) * (Y - X - eta))%Q) by nra.
    nra.
Qed.

(** The size of a finite float and the digits of its mantissa. *)
Lemma digits_of_upper_bound (m : positive) (e B : Z) :
  (inject_Z (Z.pos m) * 2 ^ e < 2 ^ B)%Q -> Z.pos (digits2_pos m) + e <= B.
Proof.
  intros H.
  destruct (Zdigits2_bounds (Z.pos m) ltac:(lia)) as [Hlo _].
  cbn [Zdigits2] in Hlo. set (d := Z.pos (digits2_pos m)) in *.
  assert (Hd : 1 <= d) by (unfold d; lia).
  assert (Hq : (2 ^ (d - 1) <= inject_Z (Z.pos m))%Q).
  { rewrite <- (pow2_inject (d - 1)) by lia. rewrite <- Zle_Qle. exact Hlo. }
  pose proof (pow2_pos e) as He.
  assert (Hlt : (2 ^ (d - 1 + e) < 2 ^ B)%Q).
  { rewrite pow2_add. nra. }
  apply Qpower_lt_compat_l_inv in Hlt; [lia|reflexivity].
Qed.

Lemma digits_of_lower_bound (m : positive) (e B : Z) :
  (2 ^ B <= inject_Z (Z.pos m) * 2 ^ e)%Q -> B < Z.pos (digits2_pos m) + e.
Proof.
  intros H.
  destruct (Zdigits2_bounds (Z.pos m) ltac:(lia)) as [_ Hhi].
  cbn [Zdigits2] in Hhi. set (d := Z.pos (digits2_pos m)) in *.
  assert (Hd : 1 <= d) by (unfold d; lia).
  assert (Hq : (inject_Z (Z.pos m) < 2 ^ d)%Q).
  { rewrite <- (pow2_inject d) by lia. rewrite <- Zlt_Qlt. exact Hhi. }
  pose proof (pow2_pos e) as He.
  assert (Hlt : (2 ^ B < 2 ^ (d + e))%Q).
  { rewrite pow2_add. nra. }
  apply Qpower_lt_compat_l_inv in Hlt; [lia|reflexivity].
Qed.

Section Division.
Variables prec emax : Z.
Hypothesis Hprec : 0 < prec.
Hypothesis Hemax : 2 <= emax.

(** Division by a positive number [n] that is at least one half: the
    quotient of a finite [x] below [2 ^ (emax - 2)] in size is finite,
    and differs from [x] by at most the relative distance of [n] from 1
    and one rounding, twice over, and half a unit of the smallest
    exponent. *)
Lemma SFdiv_tolerance (x : spec_float) (m2 : positive) (e2 : Z) :
  let n := S754_finite false m2 e2 in
  Numpy.is_finite x = true ->
  (Qabs (value x) < 2 ^ (emax - 2))%Q ->
  (1 # 2 <= value n)%Q ->
  let y := SFdiv prec emax x n in
  Numpy.is_finite y = true /\
  (Qabs (value y - value x) <=
   2 * (Qabs (value n - 1) + 2 ^ (- prec)) * Qabs (value x) +
   2 ^ (SpecFloat.emin prec emax - 1))%Q.
Proof.
  intros n Hfin Hsize Hhalf y.
  pose proof (pow2_pos (- prec)) as Hpp.
  pose proof (pow2_pos (SpecFloat.emin prec emax - 1)) as Hpm.
  pose proof (Qabs_nonneg (value n - 1)) as Hd0.
  pose proof (Qabs_nonneg (value x)) as Hx0.
  destruct x as [sx|sx| |sx m1 e1]; try discriminate Hfin.
  - (* a zero *)
    set (d := Qabs (value n - 1)) in *. clearbody d.
    subst y n. cbn [SFdiv Numpy.is_finite value]. split; [reflexivity|].
    setoid_replace (0 - 0)%Q with 0%Q by ring.
    change (Qabs 0) with 0%Q. nra.
  - (* a finite number *)
    set (X := (inject_Z (Z.pos m1) * 2 ^ e1)%Q).
    set (N := (inject_Z (Z.pos m2) * 2 ^ e2)%Q).
    assert (HX : (0 < X)%Q).
    { unfold X. pose proof (pow2_pos e1). pose proof (inject_pos (Z.pos m1) ltac:(lia)).
      nra. }
    assert (HvN : (value n == N)%Q) by (unfold n, N; cbn [value]; ring).
    assert (HaX : (Qabs (value (S754_finite sx m1 e1)) == X)%Q).
    { cbn [value]. fold X. destruct sx.
      - setoid_replace (- 1 * X)%Q with (- X)%Q by ring.
        rewrite Qabs_opp. apply Qabs_pos. lra.
      - setoid_replace (1 * X)%Q with X by ring. apply Qabs_pos. lra. }
    rewrite HaX in Hsize, Hx0 |- *. rewrite HvN in Hhalf, Hd0 |- *.
    pose proof (digits_of_upper_bound m1 e1 (emax - 2) Hsize) as Hd1.
    assert (Hd2 : -1 < Z.pos (digits2_pos m2) + e2).
    { apply digits_of_lower_bound. fold N. exact Hhalf. }
    destruct (SFdiv_finite_spec prec emax Hprec sx false m1 m2 e1 e2)
      as (E & k & s & mr & Hk & Hs & Hexp & Hmr & HEmin & HEhi & Herr & Hrel & Hres).
    assert (HE : E + 1 <= emax - prec) by (unfold SpecFloat.emin in *; lia).
    pose proof (div_error (Z.pos m1) (Z.pos m2) mr k s E e1 e2 prec
                  (SpecFloat.emin prec emax) Hk Hs Hprec Hexp ltac:(lia) ltac:(lia)
                  Herr Hrel) as Hdiv.
    cbv zeta in Hdiv. fold X N in Hdiv.
    set (Y := (inject_Z mr * 2 ^ E)%Q) in *.
    pose proof (tolerance_of_error X Y N (2 ^ (- prec))
                  (2 ^ (SpecFloat.emin prec emax - 1)) (Qabs (N - 1))
                  ltac:(lra) Hhalf ltac:(lra) ltac:(lra)
                  (Qle_Qabs (N - 1))) as Htol.
    assert (Hd' : (1 - N <= Qabs (N - 1))%Q).
    { rewrite <- Qabs_opp. setoid_replace (- (N - 1))%Q with (1 - N)%Q by ring.
      apply Qle_Qabs. }
    specialize (Htol Hd' Hdiv).
    assert (Hval : (value y == (if sx then - 1 else 1) * Y)%Q /\
                   Numpy.is_finite y = true).
    { subst y. fold n in Hres. rewrite xorb_false_r in Hres.
      destruct Hres as [[Hmr0 Hres]|(m' & e' & Hres & Hm' & He')].
      - fold n. rewrite Hres. cbn [value Numpy.is_finite]. split; [|reflexivity].
        unfold Y. rewrite Hmr0. destruct sx; ring.
      - fold n. rewrite Hres.
        destruct (Z.leb_spec e' (emax - prec)) as [_|Hover]; [|lia].
        cbn [value Numpy.is_finite]. split; [|reflexivity].
        unfold Y. rewrite <- Hm', inject_Z_mult.
        rewrite (pow2_inject (e' - E)) by lia.
        setoid_replace (2 ^ e')%Q with (2 ^ (e' - E) * 2 ^ E)%Q.
        + destruct sx; ring.
        + rewrite <- pow2_add. replace (e' - E + E) with e' by lia. reflexivity. }
    destruct Hval as [Hval Hyfin]. split; [exact Hyfin|].
    apply Qabs_Qle_condition. rewrite Hval. cbn [value]. fold X.
    destruct sx; split; lra.
Qed.

End Division.

End Tolerance.

(* ================================================================== *)
(** * The kernel on a vector whose norm is near one *)

Module KernelTolerance.
Import Rounding RoundingLemmas Exact Tolerance NormalizedDotProduct Spec.

(** A number whose value is at least one half is finite and positive. *)
Lemma positive_of_value (n : Numpy.scalar) :
  (1 # 2 <= value n)%Q -> exists m e, n = S754_finite false m e.
Proof.
  intros H. destruct n as [s|s| |s m e]; cbn [value] in H;
    try (exfalso; revert H; apply Qlt_not_le; reflexivity).
  destruct s; [exfalso|exists m, e; reflexivity].
  pose proof (pow2_pos e) as He.
  pose proof (inject_pos (Z.pos m) ltac:(lia)) as Hm.
  nra.
Qed.

(** The kernel on a vector whose norm is computed as [n], element by
    element. *)
Lemma kernel_tolerance (t : Numpy.dtype) (v : pattern1d) :
  t = Numpy.float32 \/ t = Numpy.float64 ->
  (1 # 2 <= value (computed_norm t v))%Q ->
  Forall (fun x => Numpy.is_finite x = true /\
                   (Qabs (value x) < 2 ^ (Numpy.emax t - 2))%Q) v ->
  Forall2 (fun x y =>
             Numpy.is_finite y = true /\
             (Qabs (value y - value x) <=
              2 * (Qabs (value (computed_norm t v) - 1) + 2 ^ (- Numpy.prec t)) *
              Qabs (value x) +
              2 ^ (SpecFloat.emin (Numpy.prec t) (Numpy.emax t) - 1))%Q)
          v (_normalize_pattern1d t v).
Proof.
  intros Ht Hhalf Hv.
  assert (Hprec : 0 < Numpy.prec t) by (destruct Ht as [-> | ->]; reflexivity).
  assert (Hemax : 2 <= Numpy.emax t) by (destruct Ht as [-> | ->]; discriminate).
  unfold _normalize_pattern1d. fold (computed_norm t v).
  destruct (positive_of_value _ Hhalf) as (m & e & Hn).
  rewrite Hn in *. clear Hn. unfold Numpy.div_scalar, Numpy.div.
  induction Hv as [|x v [Hfin Hsize] Hv IH]; cbn [map]; constructor.
  - exact (SFdiv_tolerance (Numpy.prec t) (Numpy.emax t) Hprec Hemax x m e
             Hfin Hsize Hhalf).
  - exact IH.
Qed.

End KernelTolerance.

(* ================================================================== *)
(** * IEEE arithmetic: the square and the sum of numbers without sign *)

Module Operations.
Import Rounding RoundingLemmas Exact Tolerance Signs.

Lemma nonneg_value (x : Numpy.scalar) : nonneg x = true -> (0 <= value x)%Q.
Proof.
  destruct x as [[|]|s| |[|] m e]; intros H; try discriminate H; cbn [value].
  - apply Qle_refl.
  - pose proof (pow2_pos e). pose proof (inject_pos (Z.pos m) ltac:(lia)). nra.
Qed.

Lemma nonneg_finite (x : Numpy.scalar) : nonneg x = true -> Numpy.is_finite x = true.
Proof. destruct x as [[|]|s| |[|] m e]; intros H; try discriminate H; reflexivity. Qed.

Lemma Zdigits2_unique (m d : Z) :
  0 < m -> 2 ^ (d - 1) <= m < 2 ^ d -> Zdigits2 m = d.
Proof.
  intros Hm [Hlo Hhi].
  assert (Hd : 1 <= d).
  { destruct (Z.le_gt_cases 1 d) as [|Hlt]; [assumption|exfalso].
    assert (2 ^ d <= 2 ^ 0) by (destruct (Z.le_gt_cases 0 d);
      [apply Z.pow_le_mono_r; lia|rewrite Z.pow_neg_r by lia; cbn; lia]).
    change (2 ^ 0) with 1 in *. lia. }
  apply Z.le_antisymm.
  - apply Zdigits2_lt_pow; lia.
  - pose proof (Zdigits2_ge_pow m (d - 1) Hlo ltac:(lia)). lia.
Qed.

Lemma Zdigits2_shift (m k : Z) :
  0 < m -> 0 <= k -> Zdigits2 (m * 2 ^ k) = Zdigits2 m + k.
Proof.
  intros Hm Hk.
  destruct (Zdigits2_bounds m Hm) as [Hlo Hhi].
  assert (Hd : 1 <= Zdigits2 m) by (destruct m; try lia; cbn; lia).
  assert (HK : 0 < 2 ^ k) by (apply Z.pow_pos_nonneg; lia).
  apply Zdigits2_unique; [nia|].
  replace (Zdigits2 m + k - 1) with (Zdigits2 m - 1 + k) by lia.
  rewrite !Z.pow_add_r by lia. split; nia.
Qed.

Lemma iter_xO (m d : positive) :
  Z.pos (Pos.iter xO m d) = Z.pos m * 2 ^ Z.pos d.
Proof.
  induction d as [|d IH] using Pos.peano_ind.
  - cbn [Pos.iter]. rewrite Pos2Z.inj_xO. change (2 ^ 1) with 2. lia.
  - rewrite Pos.iter_succ, Pos2Z.inj_xO, IH, Pos2Z.inj_succ, Z.pow_succ_r by lia.
    ring.
Qed.

(** [shl_align] lowers the exponent to the smaller of the two without
    changing the number. *)
Lemma shl_align_spec (mx : positive) (ex ex' : Z) :
  snd (shl_align mx ex ex') = Z.min ex ex' /\
  Z.pos (fst (shl_align mx ex ex')) = Z.pos mx * 2 ^ (ex - Z.min ex ex').
Proof.
  unfold shl_align. destruct (ex' - ex) as [|d|d] eqn:Ed; cbn [fst snd].
  - rewrite Z.min_l by lia. rewrite Z.sub_diag. change (2 ^ 0) with 1. lia.
  - rewrite Z.min_l by lia. rewrite Z.sub_diag. change (2 ^ 0) with 1. lia.
  - rewrite Z.min_r by lia. split; [reflexivity|].
    rewrite iter_xO. f_equal. f_equal. lia.
Qed.

Section Ops.
Variables prec emax : Z.
Hypothesis Hprec : 0 < prec.
Hypothesis Hemax : 2 <= emax.

(** Rounding an integer multiple of a power of two: the result is a
    number without sign, within one rounding of the exact value. *)
Lemma round_exact (mx ex : Z) :
  0 <= mx ->
  ex <= SpecFloat.fexp prec emax (Zdigits2 mx + ex) ->
  Zdigits2 mx + ex <= emax - 1 ->
  let r := binary_round_aux prec emax false mx ex loc_Exact in
  let z := (inject_Z mx * 2 ^ ex)%Q in
  nonneg r = true /\
  (- (2 ^ (- prec) * z + 2 ^ (SpecFloat.emin prec emax - 1)) <= value r - z <=
   2 ^ (- prec) * z + 2 ^ (SpecFloat.emin prec emax - 1))%Q.
Proof.
  intros Hmx Hex Hsize r z.
  assert (Hloc : located (shr_record_of_loc mx loc_Exact) 0 1).
  { unfold located. cbn. split; [lia|]. split; reflexivity. }
  destruct (binary_round_aux_spec prec emax Hprec false mx ex loc_Exact 0 1
              Hmx Hloc Hex) as (mr & Hmr & Herr & Hrel & Hres).
  set (E := SpecFloat.fexp prec emax (Zdigits2 mx + ex)) in *.
  assert (HE : E + 1 <= emax - prec).
  { unfold E, SpecFloat.fexp, SpecFloat.emin. lia. }
  assert (Herr' : 2 * Z.abs (mr * (2 ^ (E - ex) * 1) - mx * 2 ^ 0) <=
                  2 ^ (E - ex) * 1).
  { change (2 ^ 0) with 1. replace (mx * 1) with (mx * 1 + 0) by lia. exact Herr. }
  assert (Hrel' : E = SpecFloat.emin prec emax \/
                  2 ^ (prec - 1) * (2 ^ (E - ex) * 1) <= mx * 2 ^ 0).
  { change (2 ^ 0) with 1. replace (mx * 1) with (mx * 1 + 0) by lia. exact Hrel. }
  pose proof (div_error mx 1 mr (E - ex) 0 E ex 0 prec (SpecFloat.emin prec emax)
                ltac:(lia) ltac:(lia) Hprec ltac:(lia) Hmx ltac:(lia)
                Herr' Hrel') as Hdiv.
  cbv zeta in Hdiv.
  fold z in Hdiv.
  assert (Hone : (inject_Z 1 * 2 ^ 0 == 1)%Q) by reflexivity.
  rewrite Hone in Hdiv.
  assert (Hval : nonneg r = true /\ (value r == inject_Z mr * 2 ^ E)%Q).
  { subst r. destruct Hres as [[Hmr0 Hres]|(m' & e' & Hres & Hm' & He')].
    - rewrite Hres, Hmr0. cbn [nonneg value]. split; [reflexivity|ring].
    - rewrite Hres.
      destruct (Z.leb_spec e' (emax - prec)) as [_|Hover]; [|lia].
      cbn [nonneg value]. split; [reflexivity|].
      rewrite <- Hm', inject_Z_mult, (pow2_inject (e' - E)) by lia.
      setoid_replace (2 ^ e')%Q with (2 ^ (e' - E) * 2 ^ E)%Q; [ring|].
      rewrite <- pow2_add. replace (e' - E + E) with e' by lia. reflexivity. }
  destruct Hval as [Hnn Hval]. split; [exact Hnn|].
  rewrite Hval. split; lra.
Qed.

Lemma emin_nonpos : SpecFloat.emin prec emax <= 0.
Proof. unfold SpecFloat.emin. lia. Qed.

(** The value of a finite float without its sign. *)
Lemma value_square (s : bool) (m : positive) (e : Z) :
  (value (S754_finite s m e) * value (S754_finite s m e) ==
   inject_Z (Z.pos (m * m)) * 2 ^ (e + e))%Q.
Proof.
  cbn [value]. rewrite Pos2Z.inj_mul, inject_Z_mult, pow2_add.
  destruct s; ring.
Qed.

(** The square of a number of the format: a number without sign,
    within one rounding of the exact square. *)
Lemma SFmul_square (x : spec_float) :
  SpecFloat.valid_binary prec emax x = true -> Numpy.is_finite x = true ->
  (value x * value x < 2 ^ (emax - 1))%Q ->
  let r := SFmul prec emax x x in
  let z := (value x * value x)%Q in
  nonneg r = true /\
  (- (2 ^ (- prec) * z + 2 ^ (SpecFloat.emin prec emax - 1)) <= value r - z <=
   2 ^ (- prec) * z + 2 ^ (SpecFloat.emin prec emax - 1))%Q.
Proof.
  intros Hvalid Hfin Hsize r z.
  pose proof (pow2_pos (SpecFloat.emin prec emax - 1)) as Heta.
  destruct x as [s|s| |s m e]; try discriminate Hfin.
  - subst r z. cbn [SFmul value]. rewrite xorb_nilpotent. cbn [nonneg value].
    split; [reflexivity|]. split; lra.
  - subst r z. cbn [SFmul]. rewrite xorb_nilpotent.
    cbn [SpecFloat.valid_binary] in Hvalid. unfold SpecFloat.bounded, SpecFloat.canonical_mantissa in Hvalid.
    apply andb_true_iff in Hvalid. destruct Hvalid as [Hcan _].
    apply Z.eqb_eq in Hcan.
    rewrite value_square in Hsize |- *.
    set (d := Z.pos (digits2_pos m)) in *.
    assert (Hd : Zdigits2 (Z.pos m) = d) by reflexivity.
    destruct (Zdigits2_bounds (Z.pos m) ltac:(lia)) as [Hlo _]. rewrite Hd in Hlo.
    assert (Hd1 : 1 <= d) by (unfold d; lia).
    assert (Hsq : 2 ^ (d - 1 + (d - 1)) <= Z.pos (m * m)).
    { rewrite Z.pow_add_r, Pos2Z.inj_mul by lia.
      apply Z.mul_le_mono_nonneg; try lia; apply Z.pow_nonneg; lia. }
    pose proof (Zdigits2_ge_pow _ _ Hsq ltac:(lia)) as Hdd.
    pose proof emin_nonpos as Hemin.
    apply round_exact.
    + lia.
    + unfold SpecFloat.fexp in *. lia.
    + apply (digits_of_upper_bound (m * m) (e + e) (emax - 1)). exact Hsize.
Qed.

(** The sum of two numbers without sign: a number without sign, within
    one rounding of the exact sum. *)
Lemma SFadd_nonneg (a b : spec_float) :
  nonneg a = true -> nonneg b = true ->
  (value a + value b < 2 ^ (emax - 1))%Q ->
  let r := SFadd prec emax a b in
  let z := (value a + value b)%Q in
  nonneg r = true /\
  (- (2 ^ (- prec) * z + 2 ^ (SpecFloat.emin prec emax - 1)) <= value r - z <=
   2 ^ (- prec) * z + 2 ^ (SpecFloat.emin prec emax - 1))%Q.
Proof.
  intros Ha Hb Hsize r z.
  pose proof (pow2_pos (SpecFloat.emin prec emax - 1)) as Heta.
  pose proof (pow2_pos (- prec)) as Hu.
  pose proof (nonneg_value a Ha) as Ha0. pose proof (nonneg_value b Hb) as Hb0.
  assert (Hexact : forall r', r' = a \/ r' = b -> (value r' == value a + value b)%Q ->
            nonneg r' = true /\
            (- (2 ^ (- prec) * z + 2 ^ (SpecFloat.emin prec emax - 1)) <=
               value r' - z <=
             2 ^ (- prec) * z + 2 ^ (SpecFloat.emin prec emax - 1))%Q).
  { intros r' Hr' Hv. split; [destruct Hr' as [-> | ->]; assumption|].
    rewrite Hv. fold z.
    assert (Hz : (0 <= z)%Q) by (unfold z; lra).
    clearbody z.
    assert (0 <= 2 ^ (- prec) * z)%Q by nra.
    split; lra. }
  destruct a as [[|]|sa| |[|] ma ea]; try discriminate Ha;
    destruct b as [[|]|sb| |[|] mb eb]; try discriminate Hb.
  - apply Hexact; [left; reflexivity|]. subst r. cbn [SFadd value]. ring.
  - apply Hexact; [right; reflexivity|]. subst r. cbn [SFadd value]. ring.
  - apply Hexact; [left; reflexivity|]. subst r. cbn [SFadd value]. ring.
  - subst r. cbn [SFadd cond_Zopp].
    set (ez := Z.min ea eb).
    destruct (shl_align_spec ma ea ez) as [_ Hma].
    destruct (shl_align_spec mb eb ez) as [_ Hmb].
    rewrite Z.min_r in Hma by (unfold ez; lia).
    rewrite Z.min_r in Hmb by (unfold ez; lia).
    set (pa := fst (shl_align ma ea ez)) in *.
    set (pb := fst (shl_align mb eb ez)) in *.
    change (Z.pos pa + Z.pos pb) with (Z.pos (pa + pb)).
    cbn [binary_normalize]. unfold binary_round.
    set (F := SpecFloat.fexp prec emax (Z.pos (digits2_pos (pa + pb)) + ez)).
    destruct (shl_align_spec (pa + pb) ez F) as [Hez' Hmz].
    destruct (shl_align (pa + pb) ez F) as [mz ez'] eqn:Esh.
    cbn [fst snd] in Hez', Hmz.
    assert (Hk : 0 <= ez - ez') by lia.
    assert (Hdig : Zdigits2 (Z.pos mz) + ez' = Z.pos (digits2_pos (pa + pb)) + ez).
    { rewrite Hmz, <- Hez'. rewrite Zdigits2_shift by lia. cbn [Zdigits2]. lia. }
    (* the exact sum *)
    assert (Hsum : (inject_Z (Z.pos mz) * 2 ^ ez' == z)%Q).
    { unfold z. cbn [value].
      rewrite Hmz, <- Hez', inject_Z_mult, (pow2_inject (ez - ez')) by lia.
      rewrite Pos2Z.inj_add, inject_Z_plus, Hma, Hmb, !inject_Z_mult.
      rewrite (pow2_inject (ea - ez)), (pow2_inject (eb - ez)) by (unfold ez; lia).
      setoid_replace (2 ^ ea)%Q with (2 ^ (ea - ez) * (2 ^ (ez - ez') * 2 ^ ez'))%Q.
      - setoid_replace (2 ^ eb)%Q with (2 ^ (eb - ez) * (2 ^ (ez - ez') * 2 ^ ez'))%Q.
        + ring.
        + rewrite <- !pow2_add. replace (eb - ez + (ez - ez' + ez')) with eb by lia.
          reflexivity.
      - rewrite <- !pow2_add. replace (ea - ez + (ez - ez' + ez')) with ea by lia.
        reflexivity. }
    assert (Hround := round_exact (Z.pos mz) ez' ltac:(lia)).
    rewrite Hdig in Hround. fold F in Hround.
    specialize (Hround ltac:(lia)).
    assert (Hlt : Z.pos (digits2_pos (pa + pb)) + ez <= emax - 1).
    { rewrite <- Hdig. apply digits_of_upper_bound. rewrite Hsum. exact Hsize. }
    specialize (Hround Hlt). cbv zeta in Hround.
    destruct Hround as [Hnn Hb']. split; [exact Hnn|].
    rewrite Hsum in Hb'. exact Hb'.
Qed.

End Ops.

End Operations.

(* ================================================================== *)
(** * IEEE arithmetic: the square root *)

Module SquareRoot.
Import Rounding RoundingLemmas Exact Tolerance Signs Operations.

Lemma half_bounds (a : Z) : 2 * (a / 2) <= a <= 2 * (a / 2) + 1.
Proof.
  pose proof (Z.div_mod a 2 ltac:(lia)).
  pose proof (Z.mod_pos_bound a 2 ltac:(lia)). lia.
Qed.

(** The digits of an integer square root. *)
Lemma sqrt_digits (m q r : Z) :
  0 < m -> m = q * q + r -> 0 <= r <= 2 * q ->
  Zdigits2 q = Z.div2 (Zdigits2 m + 1).
Proof.
  intros Hm Hq Hr. rewrite Z.div2_div.
  destruct (Zdigits2_bounds m Hm) as [Hlo Hhi].
  assert (Hd : 1 <= Zdigits2 m) by (destruct m; try lia; cbn; lia).
  set (d := Zdigits2 m) in *.
  assert (Hq0 : 0 <= q) by lia.
  apply Z.le_antisymm.
  - (* q < 2 ^ J with 2 J >= d *)
    pose proof (half_bounds (d + 1)) as HJ2.
    set (J := (d + 1) / 2) in *.
    assert (HJ : d <= J + J) by lia.
    apply Zdigits2_lt_pow; [lia|lia|].
    assert (Hp : 2 ^ d <= 2 ^ J * 2 ^ J).
    { rewrite <- Z.pow_add_r by lia. apply Z.pow_le_mono_r; lia. }
    assert (HpJ : 0 < 2 ^ J) by (apply Z.pow_pos_nonneg; lia).
    nia.
  - (* 2 ^ j <= q with 2 j <= d - 1 *)
    pose proof (half_bounds (d - 1)) as Hj2.
    pose proof (half_bounds (d + 1)) as HJ2.
    set (j := (d - 1) / 2) in *.
    assert (Hj : j + j <= d - 1) by lia.
    assert (Hj0 : 0 <= j) by lia.
    assert (Hp : 2 ^ j * 2 ^ j <= 2 ^ (d - 1)).
    { rewrite <- Z.pow_add_r by lia. apply Z.pow_le_mono_r; lia. }
    assert (Hpj : 0 < 2 ^ j) by (apply Z.pow_pos_nonneg; lia).
    assert (Hge : 2 ^ j <= q) by nia.
    pose proof (Zdigits2_ge_pow q j Hge Hj0). lia.
Qed.

Lemma sqrt_location_located (q r : Z) :
  located (shr_record_of_loc q
             (if r =? 0 then loc_Exact
              else loc_Inexact (if r <=? q then Lt else Gt)))
          (fst (sqrt_fraction q r)) (snd (sqrt_fraction q r)).
Proof.
  unfold sqrt_fraction.
  destruct (r =? 0); [|destruct (r <=? q)]; unfold located; cbn;
    (split; [lia|]); split; reflexivity.
Qed.

(** Rounding the integer root with that location rounds the root
    itself: the rounded mantissa, in units of [K], is within half a
    unit of the square root of [m]. *)
Lemma sqrt_round_bound (m q r mr k : Z) :
  m = q * q + r -> 0 <= r <= 2 * q -> 0 <= k -> 0 <= mr ->
  let rho := fst (sqrt_fraction q r) in
  let D := snd (sqrt_fraction q r) in
  let K := 2 ^ k in
  2 * Z.abs (mr * (K * D) - (q * D + rho)) <= K * D ->
  (1 <= mr -> (2 * mr * K - K) * (2 * mr * K - K) <= 4 * m) /\
  4 * m <= (2 * mr * K + K) * (2 * mr * K + K).
Proof.
  intros Hm Hr Hk Hmr rho D K Herr.
  assert (Hq0 : 0 <= q) by lia.
  assert (HK : 1 <= K) by (unfold K; pose proof (Z.pow_pos_nonneg 2 k); lia).
  destruct (Z.eq_dec k 0) as [Hk0|Hk0].
  - assert (HK1 : K = 1) by (unfold K; rewrite Hk0; reflexivity).
    rewrite HK1 in *. clear HK1.
    unfold rho, D, sqrt_fraction in Herr.
    destruct (Z.eqb_spec r 0) as [Hr0|Hr0]; [|destruct (Z.leb_spec r q) as [Hrq|Hrq]];
      cbn [fst snd] in Herr.
    + assert (mr = q) by lia. subst mr. split; [intros Hmr1|]; nia.
    + assert (mr = q) by lia. subst mr. split; [intros Hmr1|]; nia.
    + assert (mr = q + 1) by lia. subst mr. split; [intros Hmr1|]; nia.
  - assert (HK2 : K = 2 * 2 ^ (k - 1)).
    { unfold K. rewrite <- Z.pow_succ_r by lia. f_equal. lia. }
    set (K' := 2 ^ (k - 1)) in *.
    assert (HK' : 1 <= K') by (unfold K'; pose proof (Z.pow_pos_nonneg 2 (k - 1)); lia).
    rewrite HK2 in *.
    assert (HD : 0 <= rho < D /\ (rho = 0 -> r = 0)).
    { unfold rho, D, sqrt_fraction.
      destruct (Z.eqb_spec r 0); [|destruct (r <=? q)]; cbn [fst snd]; lia. }
    destruct HD as [HD Hrho].
    set (I := 2 * mr * K' - K') in *. set (J := 2 * mr * K' + K') in *.
    assert (Hlo : I * D <= q * D + rho) by (unfold I; nia).
    assert (Hhi : q * D + rho <= J * D) by (unfold J; nia).
    assert (HIq : I <= q) by nia.
    assert (HqJ : q <= J) by nia.
    replace (2 * mr * (2 * K') - 2 * K') with (2 * I) by (unfold I; ring).
    replace (2 * mr * (2 * K') + 2 * K') with (2 * J) by (unfold J; ring).
    split.
    + intros Hmr1. assert (0 <= I) by (unfold I; nia). nia.
    + destruct (Z.eq_dec rho 0) as [Hz|Hz].
      * specialize (Hrho Hz). nia.
      * assert (q + 1 <= J) by nia. nia.
Qed.

Section Root.
Variables prec emax : Z.
Hypothesis Hprec : 0 < prec.
Hypothesis Hemax : 2 <= emax.

(** The square root of a number without sign, on the integers. *)
Lemma SFsqrt_finite_spec (m : positive) (e : Z) :
  Z.pos (digits2_pos m) + e <= emax - 1 ->
  exists E k e0 mr,
    0 <= k /\ E = e0 + k /\ e0 + e0 <= e /\ 0 <= mr /\
    E + 1 <= emax - prec /\
    (1 <= mr ->
     (2 * mr * 2 ^ k - 2 ^ k) * (2 * mr * 2 ^ k - 2 ^ k) <=
     4 * (Z.pos m * 2 ^ (e - (e0 + e0)))) /\
    4 * (Z.pos m * 2 ^ (e - (e0 + e0))) <=
      (2 * mr * 2 ^ k + 2 ^ k) * (2 * mr * 2 ^ k + 2 ^ k) /\
    (E = SpecFloat.emin prec emax \/ 2 ^ (prec - 1) <= mr) /\
    ((mr = 0 /\ SFsqrt prec emax (S754_finite false m e) = S754_zero false) \/
     exists m' e',
       SFsqrt prec emax (S754_finite false m e) = S754_finite false m' e' /\
       Z.pos m' * 2 ^ (e' - E) = mr /\ E <= e' <= E + 1).
Proof.
  intros Hsize. cbn [SFsqrt]. unfold SFsqrt_core_binary.
  set (d := Zdigits2 (Z.pos m)).
  assert (Hd : d = Z.pos (digits2_pos m)) by reflexivity.
  set (e0 := Z.min (SpecFloat.fexp prec emax (Z.div2 (d + e + 1))) (Z.div2 e)).
  set (s := e - 2 * e0).
  pose proof (Z.div2_div e) as Hdiv2e.
  pose proof (Z.div2_div (d + e + 1)) as Hdiv2d.
  pose proof (half_bounds e) as Hhalfe.
  pose proof (half_bounds (d + e + 1)) as Hhalfd.
  assert (Hs : 0 <= s) by (unfold s, e0; lia).
  set (m' := match s with
             | 0 => Z.pos m
             | Z.pos _ => Z.shiftl (Z.pos m) s
             | Z.neg _ => 0
             end).
  assert (Hm' : m' = Z.pos m * 2 ^ s).
  { unfold m'. apply shift_mantissa. exact Hs. }
  assert (Hm'pos : 0 < m').
  { rewrite Hm'. pose proof (Z.pow_pos_nonneg 2 s). nia. }
  pose proof (Z.sqrtrem_spec m' ltac:(lia)) as Hsq.
  destruct (Z.sqrtrem m') as [q r]. destruct Hsq as [Hqr Hr].
  pose proof (sqrt_digits m' q r Hm'pos Hqr Hr) as Hdq.
  rewrite Hm', Zdigits2_shift in Hdq by lia. fold d in Hdq.
  rewrite Z.div2_div in Hdq.
  pose proof (half_bounds (d + s + 1)) as Hhalfq.
  assert (Hq0 : 0 <= q) by lia.
  set (E := SpecFloat.fexp prec emax (Zdigits2 q + e0)).
  assert (Hsum : Zdigits2 q + e0 = Z.div2 (d + e + 1)).
  { assert (Hsdef : s = e - 2 * e0) by reflexivity.
    rewrite Hdq, Hdiv2d. clearbody s. lia. }
  assert (HE : e0 <= E) by (unfold E; rewrite Hsum; unfold e0; lia).
  pose proof (sqrt_location_located q r) as Hloc.
  destruct (binary_round_aux_spec prec emax Hprec false q e0 _ _ _ Hq0 Hloc HE)
    as (mr & Hmr & Herr & Hrel & Hres).
  fold E in Herr, Hrel, Hres.
  assert (HEhi : E + 1 <= emax - prec).
  { unfold E. rewrite Hsum. unfold SpecFloat.fexp, SpecFloat.emin. lia. }
  destruct (sqrt_round_bound m' q r mr (E - e0) Hqr Hr ltac:(lia) Hmr Herr)
    as [Hlo Hhi].
  exists E, (E - e0), e0, mr.
  replace (e - (e0 + e0)) with s by (unfold s; lia). rewrite <- Hm'.
  split; [lia|]. split; [lia|]. split; [unfold s in Hs; lia|].
  split; [exact Hmr|]. split; [exact HEhi|].
  split; [exact Hlo|]. split; [exact Hhi|]. split.
  - destruct Hrel as [Hrel|Hrel]; [left; exact Hrel|right].
    set (K := 2 ^ (E - e0)) in *.
    assert (HK : 0 < K) by (apply Z.pow_pos_nonneg; lia).
    assert (HD : 0 <= fst (sqrt_fraction q r) < snd (sqrt_fraction q r))
      by apply Hloc.
    set (rho := fst (sqrt_fraction q r)) in *.
    set (D := snd (sqrt_fraction q r)) in *.
    assert (Hp : 2 ^ prec = 2 * 2 ^ (prec - 1)).
    { rewrite <- Z.pow_succ_r by lia. f_equal. lia. }
    set (P := 2 ^ (prec - 1)) in *.
    assert (HKD : 0 < K * D) by nia.
    assert (H1 : 2 * (P * (K * D)) - K * D <= 2 * (mr * (K * D))) by lia.
    assert (H2 : (2 * P - 1) * (K * D) <= (2 * mr) * (K * D)) by lia.
    assert (H3 : 2 * P - 1 <= 2 * mr).
    { apply (Z.mul_le_mono_pos_r _ _ (K * D)); assumption. }
    lia.
  - destruct Hres as [[Hmr0 Hres]|(m2 & e2 & Hres & Hm2 & He2)].
    + left. split; assumption.
    + right. exists m2, e2. split; [|split; assumption].
      rewrite Hres. destruct (Z.leb_spec e2 (emax - prec)); [reflexivity|lia].
Qed.

End Root.

End SquareRoot.

(* ================================================================== *)
(** * The square root, on the rationals *)

Module RootValue.
Import Rounding RoundingLemmas Exact Tolerance Signs Operations SquareRoot.

Ltac inject_all H :=
  unfold Z.sub in H;
  repeat first [rewrite inject_Z_mult in H | rewrite inject_Z_plus in H
               | rewrite inject_Z_opp in H].

Section RootValues.
Variables prec emax : Z.
Hypothesis Hprec : 0 < prec.
Hypothesis Hemax : 2 <= emax.

(** The square root of a number without sign: a number [y] without
    sign whose distance [h] from the root is at most one rounding, said
    without the root: the square of [y + h] is at least the number, and
    the square of [y - h] is at most the number. *)
Lemma SFsqrt_nonneg (a : spec_float) :
  nonneg a = true ->
  (value a < 2 ^ (emax - 1))%Q ->
  let y := value (SFsqrt prec emax a) in
  nonneg (SFsqrt prec emax a) = true /\
  exists h : Q,
    (0 <= h /\ h <= 2 ^ (- prec) * y + 2 ^ (SpecFloat.emin prec emax - 1) /\
     value a <= (y + h) * (y + h) /\
     (y == 0 \/ (h <= y /\ (y - h) * (y - h) <= value a)))%Q.
Proof.
  intros Ha Hsize y.
  pose proof (pow2_pos (SpecFloat.emin prec emax - 1)) as Heta.
  pose proof (pow2_pos (- prec)) as Hu.
  destruct a as [[|]|sa| |[|] m e]; try discriminate Ha.
  - subst y. cbn [SFsqrt nonneg value]. split; [reflexivity|].
    exists 0%Q. repeat split; lra.
  - cbn [value] in Hsize.
    assert (Hsize' : (inject_Z (Z.pos m) * 2 ^ e < 2 ^ (emax - 1))%Q) by lra.
    pose proof (digits_of_upper_bound m e (emax - 1) Hsize') as Hdig.
    destruct (SFsqrt_finite_spec prec emax Hprec Hemax m e Hdig)
      as (E & k & e0 & mr & Hk & HE & He0 & Hmr & HEhi & Hlo & Hhi & Hrel & Hres).
    set (s := e - (e0 + e0)) in *.
    assert (Hs : 0 <= s) by (unfold s; lia).
    (* the powers of two involved *)
    set (c := (2 ^ e0)%Q).
    assert (Hc : (0 < c)%Q) by apply pow2_pos.
    assert (Hpe : (2 ^ e == inject_Z (2 ^ s) * (c * c))%Q).
    { rewrite (pow2_inject s Hs). unfold c. rewrite <- !pow2_add.
      replace (s + (e0 + e0)) with e by (unfold s; lia). reflexivity. }
    assert (HpE : (2 ^ E == inject_Z (2 ^ k) * c)%Q).
    { rewrite (pow2_inject k Hk). unfold c. rewrite <- pow2_add.
      replace (k + e0) with E by lia. reflexivity. }
    assert (HiK : (0 < inject_Z (2 ^ k))%Q).
    { apply inject_pos. apply Z.pow_pos_nonneg; lia. }
    (* the value of the result *)
    assert (Hval : nonneg (SFsqrt prec emax (S754_finite false m e)) = true /\
                   (y == inject_Z mr * 2 ^ E)%Q).
    { subst y. destruct Hres as [[Hmr0 Hres]|(m' & e' & Hres & Hm' & He')].
      - rewrite Hres, Hmr0. cbn [nonneg value]. split; [reflexivity|ring].
      - rewrite Hres. cbn [nonneg value]. split; [reflexivity|].
        rewrite <- Hm', inject_Z_mult, (pow2_inject (e' - E)) by lia.
        setoid_replace (2 ^ e')%Q with (2 ^ (e' - E) * 2 ^ E)%Q; [ring|].
        rewrite <- pow2_add. replace (e' - E + E) with e' by lia. reflexivity. }
    destruct Hval as [Hnn Hval]. split; [exact Hnn|].
    clearbody y.
    set (iK := inject_Z (2 ^ k)) in *. set (iS := inject_Z (2 ^ s)) in *.
    set (im := inject_Z (Z.pos m)). set (ir := inject_Z mr).
    assert (Hir : (0 <= ir)%Q) by (apply inject_nonneg; exact Hmr).
    exists ((1 # 2) * (iK * c))%Q.
    assert (HA : (value (S754_finite false m e) == im * iS * (c * c))%Q).
    { cbn [value]. fold im. rewrite Hpe. ring. }
    assert (HY : (y == ir * iK * c)%Q).
    { rewrite Hval, HpE. unfold ir. ring. }
    rewrite HA, HY.
    assert (HrK : (0 <= ir * iK)%Q) by nra.
    assert (HKc : (0 < iK * c)%Q) by nra.
    assert (HrKc : (0 <= ir * iK * c)%Q) by nra.
    (* the two bounds, from the integers *)
    assert (Hhi' : (4 * (im * iS) <= (2 * ir * iK + iK) * (2 * ir * iK + iK))%Q).
    { rewrite Zle_Qle in Hhi. inject_all Hhi. exact Hhi. }
    split; [nra|]. split.
    + (* the distance is at most one rounding *)
      destruct Hrel as [Hrel|Hrel].
      * assert (Hh : ((1 # 2) * (iK * c) == 2 ^ (SpecFloat.emin prec emax - 1))%Q).
        { rewrite <- HpE, Hrel, (pow2_half (SpecFloat.emin prec emax)). ring. }
        rewrite Hh. assert (0 <= 2 ^ (- prec) * (ir * iK * c))%Q by nra. lra.
      * assert (Hrel' : (2 ^ (prec - 1) <= ir)%Q).
        { rewrite <- (pow2_inject (prec - 1)) by lia. unfold ir.
          rewrite <- Zle_Qle. exact Hrel. }
        assert (Hpq : (2 ^ (- prec) * 2 ^ (prec - 1) == 1 # 2)%Q).
        { rewrite <- pow2_add. replace (- prec + (prec - 1)) with (- 1) by lia.
          reflexivity. }
        set (pp := (2 ^ (- prec))%Q) in *. set (pq := (2 ^ (prec - 1))%Q) in *.
        assert (H0 : (0 <= pp * (ir - pq))%Q) by nra.
        assert (H0' : (0 <= pp * (ir - pq) * (iK * c))%Q)
          by (apply Qmult_le_0_compat; lra).
        assert (H1 : (pp * pq * (iK * c) <= pp * ir * (iK * c))%Q) by lra.
        rewrite Hpq in H1. lra.
    + split.
      * setoid_replace ((ir * iK * c + (1 # 2) * (iK * c)) *
                        (ir * iK * c + (1 # 2) * (iK * c)))%Q
          with ((1 # 4) * ((2 * ir * iK + iK) * (2 * ir * iK + iK)) * (c * c))%Q
          by ring.
        assert (0 < c * c)%Q by nra. nra.
      * destruct (Z.eq_dec mr 0) as [Hz|Hz].
        -- left. unfold ir. rewrite Hz. ring.
        -- right. specialize (Hlo ltac:(lia)).
           assert (Hir1 : (1 <= ir)%Q).
           { change 1%Q with (inject_Z 1). unfold ir. rewrite <- Zle_Qle. lia. }
           assert (Hlo' : ((2 * ir * iK + - iK) * (2 * ir * iK + - iK) <=
                           4 * (im * iS))%Q).
           { rewrite Zle_Qle in Hlo. inject_all Hlo. exact Hlo. }
           split; [nra|].
           setoid_replace ((ir * iK * c - (1 # 2) * (iK * c)) *
                           (ir * iK * c - (1 # 2) * (iK * c)))%Q
             with ((1 # 4) * ((2 * ir * iK + - iK) * (2 * ir * iK + - iK)) *
                   (c * c))%Q by ring.
           assert (0 < c * c)%Q by nra. nra.
Qed.

End RootValues.

End RootValue.

(* ================================================================== *)
(** * The error of the computed norm *)

Module NormError.
Import Exact ExactNorm Tolerance Signs Operations RootValue Spec
  NormalizedDotProduct.

Lemma sum_of_squares_nonneg (v : list Numpy.scalar) : (0 <= sum_of_squares v)%Q.
Proof.
  induction v as [|x v IH]; cbn [sum_of_squares fold_right]; [lra|].
  fold (sum_of_squares v). nra.
Qed.

Lemma square_le_sum (v : list Numpy.scalar) (x : Numpy.scalar) :
  In x v -> (value x * value x <= sum_of_squares v)%Q.
Proof.
  induction v as [|y v IH]; intros Hin; [contradiction|].
  cbn [sum_of_squares fold_right]. fold (sum_of_squares v).
  pose proof (sum_of_squares_nonneg v).
  destruct Hin as [->|Hin]; [|specialize (IH Hin)]; nra.
Qed.

Lemma pow2_le (a b : Z) : a <= b -> (2 ^ a <= 2 ^ b)%Q.
Proof. intros H. apply Qpower_le_compat_l; [exact H|discriminate]. Qed.

Section Sum.
Variables prec emax : Z.
Hypothesis Hprec : 0 < prec.
Hypothesis Hemax : 5 <= emax.

Lemma roundoff_small : (0 < 2 ^ (- prec) <= 1 # 2)%Q.
Proof.
  split; [apply pow2_pos|]. change (1 # 2)%Q with (2 ^ (- 1))%Q.
  apply pow2_le. lia.
Qed.

Lemma tiny_small : (0 < 2 ^ (SpecFloat.emin prec emax - 1) <= 1 # 2)%Q.
Proof.
  split; [apply pow2_pos|]. change (1 # 2)%Q with (2 ^ (- 1))%Q.
  apply pow2_le. unfold SpecFloat.emin. lia.
Qed.

Lemma sixteen_fits : (16 <= 2 ^ (emax - 1))%Q.
Proof. change 16%Q with (2 ^ 4)%Q. apply pow2_le. lia. Qed.

(** One turn of the sum of squares: the square of [x], rounded, added
    to the accumulator, rounded.  The error grows by at most
    [6 * 2 ^ - prec + 3 * 2 ^ (emin - 1)] while the exact sum is at
    most 2 and the error at most 1. *)
Lemma add_square_error (acc x : spec_float) (A eps : Q) :
  SpecFloat.valid_binary prec emax x = true -> Numpy.is_finite x = true ->
  nonneg acc = true ->
  (0 <= A -> 0 <= eps <= 1 -> - eps <= value acc - A <= eps ->
   A + value x * value x <= 2 ->
   let c := 6 * 2 ^ (- prec) + 3 * 2 ^ (SpecFloat.emin prec emax - 1) in
   let r := SFadd prec emax acc (SFmul prec emax x x) in
   nonneg r = true /\
   - (eps + c) <= value r - (A + value x * value x) <= eps + c)%Q.
Proof.
  intros Hvalid Hfin Hacc HA Heps Herr Hsum c r.
  destruct roundoff_small as [Hu0 Hu1]. destruct tiny_small as [He0 He1].
  pose proof sixteen_fits as H16.
  set (u := (2 ^ (- prec))%Q) in *.
  set (eta := (2 ^ (SpecFloat.emin prec emax - 1))%Q) in *.
  set (X2 := (value x * value x)%Q) in *.
  assert (HX2 : (0 <= X2)%Q) by (unfold X2; nra).
  destruct (SFmul_square prec emax Hprec ltac:(lia) x Hvalid Hfin ltac:(fold X2; lra))
    as [Hsn Hs].
  fold X2 u eta in Hs.
  set (s := SFmul prec emax x x) in *.
  pose proof (nonneg_value s Hsn) as Hs0.
  pose proof (nonneg_value acc Hacc) as Ha0.
  assert (HuX : (u * X2 <= 2 * u)%Q) by nra.
  assert (Hsize : (value acc + value s < 2 ^ (emax - 1))%Q) by lra.
  destruct (SFadd_nonneg prec emax Hprec ltac:(lia) acc s Hacc Hsn Hsize)
    as [Hrn Hr].
  fold u eta r in Hr. split; [exact Hrn|].
  assert (Hz : (u * (value acc + value s) <= 3 * u + 2 * u * u + u * eta)%Q).
  { assert (value acc + value s <= 3 + 2 * u + eta)%Q by lra.
    nra. }
  assert (Huu : (2 * u * u <= u)%Q) by nra.
  assert (Hue : (u * eta <= eta)%Q) by nra.
  unfold c. fold u eta. split; lra.
Qed.

(** The sum of the squares as the kernel accumulates it, against the
    exact sum. *)
Lemma fold_squares_error (v : list spec_float) :
  forall (acc : spec_float) (A eps : Q),
  Forall (fun x => SpecFloat.valid_binary prec emax x = true /\
                   Numpy.is_finite x = true) v ->
  nonneg acc = true ->
  (0 <= A -> 0 <= eps -> - eps <= value acc - A <= eps ->
   A + sum_of_squares v <= 2 ->
   let c := 6 * 2 ^ (- prec) + 3 * 2 ^ (SpecFloat.emin prec emax - 1) in
   eps + inject_Z (Z.of_nat (length v)) * c <= 1 ->
   let r := fold_left (SFadd prec emax)
              (map (fun x => SFmul prec emax x x) v) acc in
   nonneg r = true /\
   - (eps + inject_Z (Z.of_nat (length v)) * c) <=
     value r - (A + sum_of_squares v) <=
   eps + inject_Z (Z.of_nat (length v)) * c)%Q.
Proof.
  induction v as [|x v IH]; intros acc A eps Hv Hacc HA Heps Herr Hsum c Hlen r.
  - subst r. cbn [map fold_left length sum_of_squares fold_right Z.of_nat] in *.
    split; [exact Hacc|]. change (inject_Z 0) with 0%Q. lra.
  - inversion Hv as [|x' v' [Hvalid Hfin] Hv']; subst x' v'.
    destruct roundoff_small as [Hu0 Hu1]. destruct tiny_small as [He0 He1].
    assert (Hc : (0 < c)%Q) by (unfold c; lra).
    pose proof (sum_of_squares_nonneg v) as Hss.
    cbn [sum_of_squares fold_right] in Hsum |- *. fold (sum_of_squares v) in Hsum |- *.
    assert (Hn : (inject_Z (Z.of_nat (length (x :: v))) ==
                  inject_Z (Z.of_nat (length v)) + 1)%Q).
    { cbn [length]. rewrite Nat2Z.inj_succ. unfold Z.succ.
      rewrite inject_Z_plus. reflexivity. }
    assert (Hn0 : (0 <= inject_Z (Z.of_nat (length v)))%Q)
      by (apply inject_nonneg; lia).
    rewrite Hn in Hlen |- *.
    assert (Hnc : (0 <= inject_Z (Z.of_nat (length v)) * c)%Q) by nra.
    assert (HX2 : (0 <= value x * value x)%Q) by nra.
    destruct (add_square_error acc x A eps Hvalid Hfin Hacc HA ltac:(lra) Herr
                ltac:(lra)) as [Hn1 Hstep].
    fold c in Hstep.
    subst r. cbn [map fold_left].
    destruct (IH (SFadd prec emax acc (SFmul prec emax x x))
                (A + value x * value x)%Q (eps + c)%Q Hv' Hn1
                ltac:(lra) ltac:(lra) Hstep ltac:(lra) ltac:(fold c; lra))
      as [Hrn Hr].
    fold c in Hr. split; [exact Hrn|]. split; lra.
Qed.

(** The norm as the kernel computes it, of a vector whose exact sum of
    squares is within [delta] of 1. *)
Lemma computed_norm_error (v : list spec_float) (delta : Q) :
  Forall (fun x => SpecFloat.valid_binary prec emax x = true /\
                   Numpy.is_finite x = true) v ->
  (- delta <= sum_of_squares v - 1 <= delta ->
   let tau := delta +
              inject_Z (Z.of_nat (length v)) *
                (6 * 2 ^ (- prec) + 3 * 2 ^ (SpecFloat.emin prec emax - 1)) +
              2 ^ (- prec) + 2 ^ (SpecFloat.emin prec emax - 1) in
   tau <= 1 # 2 ->
   let n := SFsqrt prec emax
              (fold_left (SFadd prec emax)
                 (map (fun x => SFmul prec emax x x) v) (S754_zero false)) in
   nonneg n = true /\ - tau <= value n - 1 <= 2 * tau)%Q.
Proof.
  intros Hv Hdelta tau Htau n.
  destruct roundoff_small as [Hu0 Hu1]. destruct tiny_small as [He0 He1].
  pose proof sixteen_fits as H16.
  set (u := (2 ^ (- prec))%Q) in *.
  set (eta := (2 ^ (SpecFloat.emin prec emax - 1))%Q) in *.
  set (c := (6 * u + 3 * eta)%Q) in *.
  set (len := inject_Z (Z.of_nat (length v))) in *.
  assert (Hlen0 : (0 <= len)%Q) by (apply inject_nonneg; lia).
  assert (Hlc : (0 <= len * c)%Q) by (unfold c; nra).
  assert (Hd0 : (0 <= delta)%Q) by lra.
  destruct (fold_squares_error v (S754_zero false) 0%Q 0%Q Hv eq_refl
              ltac:(lra) ltac:(lra) ltac:(cbn [value]; lra)
              ltac:(unfold tau in Htau; lra)
              ltac:(fold u eta c len; unfold tau in Htau; lra))
    as [Hsn Hs].
  fold u eta c len in Hs.
  set (acc := fold_left (SFadd prec emax)
                (map (fun x => SFmul prec emax x x) v) (S754_zero false)) in *.
  set (eps := (delta + len * c)%Q).
  assert (Heps : (0 <= eps /\ eps + u + eta == tau)%Q).
  { unfold eps, tau. split; [lra|ring]. }
  destruct Heps as [Heps0 Heps].
  assert (HA : (1 - eps <= value acc <= 1 + eps)%Q) by (unfold eps; lra).
  destruct (SFsqrt_nonneg prec emax Hprec ltac:(lia) acc Hsn ltac:(lra))
    as (Hnn & h & Hh0 & Hh & Hup & Hdown).
  fold n u eta in Hnn, Hh, Hup, Hdown.
  pose proof (nonneg_value n Hnn) as Hy0.
  set (y := value n) in *. set (a := value acc) in *.
  clearbody tau. split; [exact Hnn|].
  (* from below *)
  assert (Hlow : (1 - eps <= y + h)%Q).
  { destruct (Qlt_le_dec (y + h) (1 - eps)) as [Hlt|]; [exfalso|assumption].
    assert ((y + h) * (y + h) < (1 - eps) * (1 - eps))%Q by nra.
    assert ((1 - eps) * (1 - eps) <= 1 - eps)%Q by nra.
    lra. }
  assert (Hy : (1 - tau <= y)%Q).
  { destruct (Qlt_le_dec y (1 - tau)) as [Hlt|]; [exfalso|assumption].
    assert (y * (1 + u) < (1 - tau) * (1 + u))%Q by nra.
    assert (0 <= u * tau)%Q by nra.
    lra. }
  split; [lra|].
  (* from above *)
  destruct Hdown as [Hzero|[Hhy Hdown]]; [lra|].
  assert (Hhigh : (y - h <= 1 + eps)%Q).
  { destruct (Qlt_le_dec (1 + eps) (y - h)) as [Hlt|]; [exfalso|assumption].
    assert ((1 + eps) * (1 + eps) < (y - h) * (y - h))%Q by nra.
    assert (1 + eps <= (1 + eps) * (1 + eps))%Q by nra.
    lra. }
  destruct (Qlt_le_dec (1 + 2 * tau) y) as [Hlt|]; [exfalso|lra].
  assert ((1 + 2 * tau) * (1 - u) < y * (1 - u))%Q by nra.
  assert (0 <= tau * (1 - 2 * u))%Q by nra.
  lra.
Qed.

End Sum.

End NormError.

(* ================================================================== *)
(** * The kernel on a vector of unit norm *)

Module UnitNorm.
Import Exact ExactNorm Tolerance Signs Operations NormError KernelTolerance Spec
  NormalizedDotProduct.

Lemma computed_norm_unfold (t : Numpy.dtype) (v : pattern1d) :
  computed_norm t v =
  SFsqrt (Numpy.prec t) (Numpy.emax t)
    (fold_left (SFadd (Numpy.prec t) (Numpy.emax t))
       (map (fun x => SFmul (Numpy.prec t) (Numpy.emax t) x x) v)
       (S754_zero false)).
Proof. reflexivity. Qed.

Lemma Forall2_impl {A B} (P Q : A -> B -> Prop) (l : list A) (l' : list B) :
  (forall x y, In x l -> P x y -> Q x y) -> Forall2 P l l' -> Forall2 Q l l'.
Proof.
  intros H HF. induction HF as [|x y l l' Hxy HF IH]; constructor.
  - apply H; [left; reflexivity|exact Hxy].
  - apply IH. intros a b Ha. apply H. right. exact Ha.
Qed.

(** A vector whose exact sum of squares is within [delta] of 1: the
    norm is computed within [2 * tau] of 1, and the kernel moves no
    element by more than [2 * (2 * tau + 2 ^ - prec)], relatively, and
    half of the smallest positive float. *)
Lemma kernel_unit_norm_tolerance (t : Numpy.dtype) (v : pattern1d) (delta : Q) :
  t = Numpy.float32 \/ t = Numpy.float64 ->
  Forall (representable t) v ->
  Forall (fun x => Numpy.is_finite x = true) v ->
  (Qabs (sum_of_squares v - 1) <= delta)%Q ->
  let tau := (delta +
              inject_Z (Z.of_nat (length v)) *
                (6 * 2 ^ (- Numpy.prec t) +
                 3 * 2 ^ (SpecFloat.emin (Numpy.prec t) (Numpy.emax t) - 1)) +
              2 ^ (- Numpy.prec t) +
              2 ^ (SpecFloat.emin (Numpy.prec t) (Numpy.emax t) - 1))%Q in
  (tau <= 1 # 2)%Q ->
  (Qabs (value (computed_norm t v) - 1) <= 2 * tau)%Q /\
  Forall2 (fun x y =>
             Numpy.is_finite y = true /\
             (Qabs (value y - value x) <=
              2 * (2 * tau + 2 ^ (- Numpy.prec t)) * Qabs (value x) +
              2 ^ (SpecFloat.emin (Numpy.prec t) (Numpy.emax t) - 1))%Q)
          v (_normalize_pattern1d t v).
Proof.
  intros Ht Hrep Hfin Hdelta tau Htau.
  assert (Hprec : 0 < Numpy.prec t) by (destruct Ht as [-> | ->]; reflexivity).
  assert (Hemax : 5 <= Numpy.emax t) by (destruct Ht as [-> | ->]; discriminate).
  apply Qabs_Qle_condition in Hdelta.
  assert (Hv : Forall (fun x =>
                 SpecFloat.valid_binary (Numpy.prec t) (Numpy.emax t) x = true /\
                 Numpy.is_finite x = true) v).
  { rewrite Forall_forall in *. intros x Hx. split; [apply Hrep|apply Hfin]; exact Hx. }
  destruct (computed_norm_error (Numpy.prec t) (Numpy.emax t) Hprec Hemax v delta
              Hv Hdelta Htau) as [Hnn Hn].
  rewrite <- computed_norm_unfold in Hnn, Hn.
  set (n := computed_norm t v) in *.
  assert (Hn' : (- tau <= value n - 1 <= 2 * tau)%Q) by exact Hn.
  clear Hn.
  destruct (roundoff_small (Numpy.prec t) Hprec) as [Hu0 Hu1].
  destruct (tiny_small (Numpy.prec t) (Numpy.emax t) Hprec Hemax) as [He0 He1].
  assert (Hdt : (0 <= delta <= tau)%Q).
  { assert (0 <= inject_Z (Z.of_nat (length v)))%Q by (apply inject_nonneg; lia).
    assert (0 <= delta)%Q by lra.
    unfold tau.
    assert (0 <= inject_Z (Z.of_nat (length v)) *
                 (6 * 2 ^ (- Numpy.prec t) +
                  3 * 2 ^ (SpecFloat.emin (Numpy.prec t) (Numpy.emax t) - 1)))%Q
      by nra.
    lra. }
  assert (Htau0 : (0 <= tau)%Q) by lra.
  assert (Htau' : (tau <= 1 # 2)%Q) by exact Htau.
  clearbody tau.
  assert (Hnabs : (Qabs (value n - 1) <= 2 * tau)%Q).
  { apply Qabs_Qle_condition. split; lra. }
  split; [exact Hnabs|].
  assert (Hsize : Forall (fun x => Numpy.is_finite x = true /\
                    (Qabs (value x) < 2 ^ (Numpy.emax t - 2))%Q) v).
  { rewrite Forall_forall in *. intros x Hx. split; [apply Hfin; exact Hx|].
    pose proof (square_le_sum v x Hx) as Hsq.
    assert (H8 : (8 <= 2 ^ (Numpy.emax t - 2))%Q).
    { change 8%Q with (2 ^ 3)%Q. apply pow2_le. lia. }
    pose proof (Qabs_nonneg (value x)) as Ha0.
    assert (Habs : (Qabs (value x) * Qabs (value x) == value x * value x)%Q).
    { rewrite <- Qabs_Qmult. apply Qabs_pos. nra. }
    destruct (Qlt_le_dec (Qabs (value x)) 2) as [Hlt|Hge]; [lra|exfalso].
    assert (4 <= Qabs (value x) * Qabs (value x))%Q by nra.
    lra. }
  pose proof (kernel_tolerance t v Ht ltac:(fold n; lra) Hsize) as Hk.
  fold n in Hk.
  refine (Forall2_impl _ _ _ _ _ Hk).
  intros x y _ [Hy Hb]. split; [exact Hy|].
  pose proof (Qabs_nonneg (value x)) as Hx0.
  assert (Hmono : (2 * (Qabs (value n - 1) + 2 ^ (- Numpy.prec t)) * Qabs (value x) <=
                   2 * (2 * tau + 2 ^ (- Numpy.prec t)) * Qabs (value x))%Q) by nra.
  lra.
Qed.

End UnitNorm.

(* ================================================================== *)
(** * The properties of the specification, one by one *)

Import DictionaryIndexing NormalizedDotProduct Spec Examples Exact ExactNorm.

(** ** Top-k over chunks (C1, C2, C4, C5) and the order of a row (C6) *)

(** C1, evaluated where it fails.  One experimental pattern, the
    three-pattern dictionary with the scores 0.6, 0.8 and 0, the
    normalized dot product on binary64, [keep_n = 1].  A single pass of
    [_match_chunk] over the whole dictionary returns the simulated
    pattern 1 with the score 0.8.  The driver in chunks of one pattern
    (1 divides 3) and in chunks of two (2 does not divide 3) returns the
    index 0 with the score 1: the initial entry of the running arrays,
    which no chunk replaces. *)
Theorem chunked_result_differs_from_single_pass :
  Py.run (single_pass ndp64 (prepare_experimental ndp64 experimental) dictionary3 1) =
    ([Py.Matched 3 1],
     inr {| scores := [[f64 0.8]]; simulation_indices := [[1]] |}) /\
  Py.run (_dictionary_indexing experimental [1%nat] dictionary3 ndp64 1 1) =
    ([Py.Sliced 0 1; Py.Matched 1 1; Py.Merged;
      Py.Sliced 1 2; Py.Matched 1 1; Py.Merged;
      Py.Sliced 2 3; Py.Matched 1 1; Py.Merged],
     inr {| scores := [[f64 1]]; simulation_indices := [[0]] |}) /\
  Py.run (_dictionary_indexing experimental [1%nat] dictionary3 ndp64 1 2) =
    ([Py.Sliced 0 3; Py.Matched 3 1; Py.Merged],
     inr {| scores := [[f64 1]]; simulation_indices := [[0]] |}).
Proof. repeat split; vm_compute; reflexivity. Qed.

(** C2, evaluated where it fails.  The running scores start at the
    metric's sign, 1 for the normalized dot product.  Under the order of
    the merge (the sign +1: higher is better) that value is better than
    the real score 0.8 of the second simulated pattern, and merging the
    chunk that holds this pattern into the initial arrays keeps the
    initial entry and drops the real match. *)
Theorem initial_score_displaces_real_match :
  Numpy.of_int (dtype ndp64) (sign ndp64) = f64 1 /\
  Py.run (_match_chunk ndp64 (prepare_experimental ndp64 experimental)
            (Py.slice dictionary 1 2) 1) =
    ([Py.Matched 1 1], inr ([[0]], [[f64 0.8]])) /\
  SFltb (f64 0.8) (Numpy.of_int (dtype ndp64) (sign ndp64)) = true /\
  Py.run (merge_chunk ndp64 (prepare_experimental ndp64 experimental) dictionary 1
            {| scores := [[Numpy.of_int (dtype ndp64) (sign ndp64)]];
               simulation_indices := [[0]] |}
            (1, 2)) =
    ([Py.Sliced 1 2; Py.Matched 1 1; Py.Merged],
     inr {| scores := [[f64 1]]; simulation_indices := [[0]] |}).
Proof. repeat split; vm_compute; reflexivity. Qed.

(** C4, evaluated where it fails.  With two simulated patterns and
    [n_per_iteration = 2] the driver takes the single pass: one call of
    [_match_chunk], no slice and no merge, and the result is the pattern
    1 with the score 0.8.  The multi-chunk branch on the same data with
    one iteration returns the index 0 with the score 1. *)
Theorem single_pass_differs_from_one_iteration :
  Py.run (_dictionary_indexing experimental [1%nat] dictionary ndp64 1 2) =
    ([Py.Matched 2 1],
     inr {| scores := [[f64 0.8]]; simulation_indices := [[1]] |}) /\
  Py.run (multi_chunk_path ndp64 (prepare_experimental ndp64 experimental)
            dictionary 1 1 2 1) =
    ([Py.Sliced 0 2; Py.Matched 2 1; Py.Merged],
     inr {| scores := [[f64 1]]; simulation_indices := [[0]] |}).
Proof. repeat split; vm_compute; reflexivity. Qed.

(** C5, evaluated where it fails.  With [keep_n = 5] and two simulated
    patterns the result has two columns, and each chunk of one pattern
    is matched with [keep_n = 1]: the clamping is there.  The two
    entries of the result are the initial ones, twice the index 0 with
    the score 1, although the scores of the two patterns are 0.6 and
    0.8. *)
Theorem clamped_result_holds_initial_entries :
  metric_match ndp64 (prepare_experimental ndp64 experimental)
    (prepare_dictionary ndp64 dictionary) = [[f64 0.6; f64 0.8]] /\
  Py.run (_dictionary_indexing experimental [1%nat] dictionary ndp64 5 1) =
    ([Py.Sliced 0 1; Py.Matched 1 1; Py.Merged;
      Py.Sliced 1 2; Py.Matched 1 1; Py.Merged],
     inr {| scores := [[f64 1; f64 1]]; simulation_indices := [[0; 0]] |}).
Proof. repeat split; vm_compute; reflexivity. Qed.

(** C6, evaluated where it fails.  For a metric with the sign -1 (the
    squared distance: 20 to the first simulated pattern, 18 to the
    second) the single pass returns the scores largest first, which for
    this sign is worst first.  The multi-chunk branch sorts by the sign;
    [_match_chunk] does not. *)
Theorem single_pass_ignores_sign :
  sign (distance_metric Numpy.float64) = -1 /\
  Py.run (_dictionary_indexing experimental [1%nat] dictionary
            (distance_metric Numpy.float64) 2 2) =
    ([Py.Matched 2 2],
     inr {| scores := [[f64 20; f64 18]]; simulation_indices := [[0; 1]] |}) /\
  best_first (-1) [f64 20; f64 18] = false.
Proof. repeat split; vm_compute; reflexivity. Qed.

(** ** Chunk boundaries (C3) *)

(** C3 as stated fails: the dictionary size 2 is at least the chunk size
    -1, and the driver computes no chunk at all: it raises [IndexError]
    before any pattern is touched. *)
Lemma chunk_bounds_negative_chunk_size :
  Z.of_nat (length dictionary) >= -1 /\
  Py.run (_dictionary_indexing experimental [1%nat] dictionary ndp64 1 (-1)) =
    ([], inl Py.IndexError).
Proof. split; [cbn; lia | vm_compute; reflexivity]. Qed.

(** C3, amended: the chunk size is positive.  For a dictionary of 23
    patterns and chunks of 10 the driver computes 2 iterations with the
    boundaries [0,10) and [10,23), and it slices and matches these two
    chunks, of 10 and of 13 patterns.  For every dictionary and every
    positive chunk size that is at most the dictionary size, the
    boundaries are computed without an exception, there is one per
    iteration, they are non-empty and consecutive from 0 to the
    dictionary size, and the rows of the chunks, one after the other, are
    the rows of the dictionary, each once.  A call that returns has
    sliced the dictionary at exactly these boundaries; when the chunk
    size is the dictionary size it has matched the whole dictionary in
    one piece instead. *)
Theorem chunk_bounds_cover (experimental : batch) (nav : list nat)
  (dictionary : batch) (metric : SimilarityMetric) (keep_n n_per_iteration : Z) :
  let dictionary_size := Z.of_nat (length dictionary) in
  0 < n_per_iteration <= dictionary_size ->
  (Py.run (Py.floordiv 23 10) = ([], inr 2) /\
   Py.run (chunk_bounds 23 10 2) = ([], inr [(0, 10); (10, 23)]) /\
   fst (Py.run (_dictionary_indexing Examples.experimental [1%nat] dictionary23
                  ndp64 1 10)) =
     [Py.Sliced 0 10; Py.Matched 10 1; Py.Merged;
      Py.Sliced 10 23; Py.Matched 13 1; Py.Merged]) /\
  exists n_iterations bounds,
    Py.run (Py.floordiv dictionary_size n_per_iteration) = ([], inr n_iterations) /\
    Py.run (chunk_bounds dictionary_size n_per_iteration n_iterations) =
      ([], inr bounds) /\
    Z.of_nat (length bounds) = n_iterations /\
    tiles 0 dictionary_size bounds /\
    concat (map rows_of bounds) = rows_of (0, dictionary_size) /\
    forall t r,
      Py.run (_dictionary_indexing experimental nav dictionary metric
                keep_n n_per_iteration) = (t, inr r) ->
      if dictionary_size =? n_per_iteration
      then t = [Py.Matched (length (prepare_dictionary metric dictionary))
                  (Z.min keep_n dictionary_size)]
      else sliced t = bounds.
Proof.
  intros dictionary_size [Hn Hsize]. split.
  - repeat split; vm_compute; reflexivity.
  - assert (Hq : 0 < dictionary_size / n_per_iteration)
      by (apply Z.div_str_pos; lia).
    assert (Hmul : n_per_iteration * (dictionary_size / n_per_iteration)
                   <= dictionary_size)
      by (apply Z.mul_div_le; lia).
    set (k := Z.to_nat (dictionary_size / n_per_iteration - 1)).
    assert (Hk : dictionary_size / n_per_iteration = Z.of_nat (S k))
      by (unfold k; lia).
    destruct (ChunkBounds.chunk_bounds_S dictionary_size n_per_iteration k [] Hn)
      as (bounds & Hrun & Hlen & Htiles).
    rewrite <- Hk in Hrun, Htiles.
    rewrite Z.max_r in Htiles by exact Hmul.
    exists (dictionary_size / n_per_iteration), bounds.
    split; [apply EarlyExit.floordiv_nonzero; lia|].
    split; [exact Hrun|].
    split; [lia|].
    split; [exact Htiles|].
    split; [apply ChunkBounds.tiles_rows; exact Htiles|].
    intros t r Hcall. unfold Py.run in Hcall.
    destruct (Z.eqb_spec dictionary_size n_per_iteration) as [He|Hne].
    + rewrite EarlyExit.driver_single_pass in Hcall by (fold dictionary_size; lia).
      apply (f_equal fst) in Hcall.
      rewrite Slices.single_pass_trace in Hcall. symmetry. exact Hcall.
    + rewrite EarlyExit.driver_multi_chunk in Hcall by (fold dictionary_size; lia).
      exact (Slices.multi_chunk_path_slices _ _ _ _ _ _ _ _ _ _ Hrun Hcall).
Qed.

(** The dictionary of 23 patterns in chunks of 10. *)
Lemma chunk_bounds_cover_witness :
  0 < 10 <= Z.of_nat (length dictionary23) /\
  exists n_iterations bounds,
    Py.run (Py.floordiv 23 10) = ([], inr n_iterations) /\
    Py.run (chunk_bounds 23 10 n_iterations) = ([], inr bounds) /\
    Z.of_nat (length bounds) = n_iterations /\
    tiles 0 23 bounds /\
    concat (map rows_of bounds) = rows_of (0, 23) /\
    forall t r,
      Py.run (_dictionary_indexing Examples.experimental [1%nat] dictionary23
                ndp64 1 10) = (t, inr r) ->
      sliced t = bounds.
Proof.
  split; [cbn; lia|].
  apply (chunk_bounds_cover Examples.experimental [1%nat] dictionary23 ndp64 1 10).
  cbn. lia.
Defined.

(** ** Malformed arguments (C9) *)

(** C9 as stated fails twice.  With [n_per_iteration = 0] the exception
    is a [ZeroDivisionError].  With [keep_n = 0] nothing is raised before
    the first chunk is sliced and matched, and what is raised then is no
    [ConfigurationError]. *)
Lemma malformed_arguments_counterexample :
  Py.run (_dictionary_indexing experimental [1%nat] dictionary ndp64 1 0) =
    ([], inl Py.ZeroDivisionError) /\
  fst (Py.run (_dictionary_indexing experimental [1%nat] dictionary ndp64 0 1)) =
    [Py.Sliced 0 1; Py.Matched 1 0] /\
  snd (Py.run (_dictionary_indexing experimental [1%nat] dictionary ndp64 0 1)) <>
    inl Py.ConfigurationError.
Proof.
  split; [vm_compute; reflexivity|].
  split; [vm_compute; reflexivity|].
  vm_compute. discriminate.
Qed.

(** C9, amended.  The driver checks neither argument and never raises a
    [ConfigurationError].  What a call with [keep_n <= 0] or
    [n_per_iteration <= 0] does instead, on a dictionary that is not
    empty:
    - [n_per_iteration = 0]: [ZeroDivisionError], no chunk touched (also
      on an empty dictionary);
    - [n_per_iteration < 0]: [IndexError], or [ValueError] when [keep_n]
      is negative too, no chunk touched;
    - [keep_n < 0] on the multi-chunk branch: [ValueError], no chunk
      touched;
    - on the single-pass branch the dictionary is matched first;
    - [keep_n = 0] with a chunk size below the dictionary size: the
      first chunk is sliced and matched first. *)
Theorem malformed_arguments_not_checked (experimental : batch) (nav : list nat)
  (dictionary : batch) (metric : SimilarityMetric) (keep_n n_per_iteration : Z) :
  keep_n <= 0 \/ n_per_iteration <= 0 ->
  let size := Z.of_nat (length dictionary) in
  let call := _dictionary_indexing experimental nav dictionary metric
                keep_n n_per_iteration in
  snd (Py.run call) <> inl Py.ConfigurationError /\
  (n_per_iteration = 0 -> Py.run call = ([], inl Py.ZeroDivisionError)) /\
  (n_per_iteration < 0 -> 0 < size ->
   Py.run call = ([], inl (if keep_n <? 0 then Py.ValueError else Py.IndexError))) /\
  (0 < n_per_iteration -> 0 < size -> size <> n_per_iteration -> keep_n < 0 ->
   Py.run call = ([], inl Py.ValueError)) /\
  (0 < n_per_iteration -> size = n_per_iteration ->
   fst (Py.run call) =
     [Py.Matched (length (prepare_dictionary metric dictionary)) keep_n]) /\
  (0 < n_per_iteration < size -> keep_n = 0 ->
   exists stop n, fst (Py.run call) = [Py.Sliced 0 stop; Py.Matched n 0]).
Proof.
  intros H size call. unfold call, Py.run.
  split; [apply Exceptions.unconfigured_driver|].
  split; [intros ->; reflexivity|].
  split.
  { intros Hn Hpos. apply EarlyExit.driver_no_iteration; [exact Hpos|].
    left. exact Hn. }
  split.
  { intros Hn Hpos Hne Hk.
    rewrite EarlyExit.driver_multi_chunk by (fold size; lia).
    apply EarlyExit.multi_chunk_path_negative_keep_n. lia. }
  split.
  { intros Hn He.
    rewrite EarlyExit.driver_single_pass by (fold size; lia).
    rewrite NonPositiveKeepN.single_pass_nonpositive by (fold size; lia).
    cbn [fst app]. f_equal. f_equal. fold size. lia. }
  intros Hn Hk. subst keep_n.
  rewrite EarlyExit.driver_multi_chunk by (fold size; lia).
  fold size. replace (Z.min 0 size) with 0 by lia.
  assert (Hq : 0 < size / n_per_iteration) by (apply Z.div_str_pos; lia).
  replace (size / n_per_iteration)
    with (Z.of_nat (S (Z.to_nat (size / n_per_iteration - 1)))) by lia.
  destruct (NonPositiveKeepN.multi_chunk_path_zero_keep_n metric
              (prepare_experimental metric experimental) dictionary
              (fold_right Nat.mul 1%nat nav) n_per_iteration
              (Z.to_nat (size / n_per_iteration - 1)) [])
    as (stop & ->); [lia|].
  eexists _, _. reflexivity.
Qed.

(** [keep_n = 0] on the two-pattern dictionary. *)
Lemma malformed_arguments_not_checked_witness :
  (0 <= 0 \/ 1 <= 0) /\
  snd (Py.run (_dictionary_indexing experimental [1%nat] dictionary ndp64 0 1)) <>
    inl Py.ConfigurationError.
Proof.
  split; [left; lia|].
  apply (malformed_arguments_not_checked experimental [1%nat] dictionary ndp64 0 1).
  left. lia.
Defined.

(** ** A chunk size above the dictionary size (C10) *)

(** C10 as stated fails for a negative [keep_n]: with two simulated
    patterns and [n_per_iteration = 3] the call with [keep_n = -1] ends
    in the [ValueError] of the allocation of the running arrays, which
    comes before the chunk boundaries. *)
Lemma oversized_chunk_negative_keep_n :
  0 < Z.of_nat (length dictionary) < 3 /\
  Py.run (_dictionary_indexing experimental [1%nat] dictionary ndp64 (-1) 3) =
    ([], inl Py.ValueError).
Proof. split; [cbn; lia | vm_compute; reflexivity]. Qed.

(** C10, amended: [keep_n] is not negative.  When the dictionary is not
    empty and smaller than [n_per_iteration], the number of iterations is
    0, [chunk_ends] is empty, writing its last element raises
    [IndexError], and the call ends in that exception with an empty
    trace: no chunk was sliced or matched, and the chunk size was not
    lowered to the dictionary size. *)
Theorem oversized_chunk_raises_index_error (experimental : batch)
  (nav : list nat) (dictionary : batch) (metric : SimilarityMetric)
  (keep_n n_per_iteration : Z) :
  0 < Z.of_nat (length dictionary) < n_per_iteration ->
  0 <= keep_n ->
  Py.run (Py.floordiv (Z.of_nat (length dictionary)) n_per_iteration) =
    ([], inr 0) /\
  chunk_ends n_per_iteration 0 = [] /\
  Py.run (chunk_bounds (Z.of_nat (length dictionary)) n_per_iteration 0) =
    ([], inl Py.IndexError) /\
  Py.run (_dictionary_indexing experimental nav dictionary metric
            keep_n n_per_iteration) =
    ([], inl Py.IndexError).
Proof.
  intros Hsize Hk.
  split.
  { unfold Py.run. rewrite EarlyExit.floordiv_nonzero by lia.
    rewrite Z.div_small by lia. reflexivity. }
  split; [reflexivity|].
  split; [reflexivity|].
  rewrite EarlyExit.driver_no_iteration by lia.
  destruct (Z.ltb_spec keep_n 0); [lia|reflexivity].
Qed.

(** Two patterns in chunks of three. *)
Lemma oversized_chunk_raises_index_error_witness :
  0 < Z.of_nat (length dictionary) < 3 /\ 0 <= 1 /\
  Py.run (_dictionary_indexing experimental [1%nat] dictionary ndp64 1 3) =
    ([], inl Py.IndexError).
Proof.
  split; [cbn; lia|]. split; [lia|].
  apply (oversized_chunk_raises_index_error experimental [1%nat] dictionary ndp64 1 3).
  - cbn. lia.
  - lia.
Defined.

(** ** The normalization kernels (C7, C8) *)

(** C7.  For both kernels (binary32 and binary64), on a vector [v] of
    values of the dtype, the floats read as rational numbers where a
    distance is bounded:
    - when the norm of [v] is computed as 1, [v] is returned unchanged,
      bit for bit;
    - when [v] has unit norm, up to [delta]: the exact sum of the
      squares of its elements is within [delta] of 1.  With
      [tau = delta + len(v) * (6 * 2 ^ - prec + 3 * 2 ^ (emin - 1))
             + 2 ^ - prec + 2 ^ (emin - 1)] at most 1/2 (the
      roundings of the squares, of their sum and of the square root),
      the norm is computed within [2 * tau] of 1, and every element [x]
      is mapped to a finite [y] with
      [|y - x| <= 2 * (2 * tau + 2 ^ - prec) * |x| + 2 ^ (emin - 1)];
      [delta = 0] is a vector of exact unit norm;
    - whatever the exact norm, when the norm of [v] is computed as a
      number [n] of at least 1/2, every finite element [x] below
      [2 ^ (emax - 2)] in size is mapped to a finite [y] with
      [|y - x| <= 2 * (|n - 1| + 2 ^ - prec) * |x| + 2 ^ (emin - 1)]:
      the distance of the computed norm from 1 and one rounding of the
      division, twice over since [n] can be as small as 1/2, and half of
      the smallest positive float where the quotient is subnormal;
    - the kernel's result is the reference [v / sqrt(sum(v_i^2))] on
      every vector;
    - the vector (3, 4) is normalized to (0.6, 0.8): the two floats of
      the result are the binary64 literals, respectively the binary32
      bit patterns, of 0.6 and 0.8, each within half a unit in the last
      place of 3/5 and 4/5.
    The tolerance is needed when the norm of a normalized vector is not
    computed as 1: the normalized (1, 1) has the computed norm just
    below 1, and normalizing it again moves each element by one unit in
    the last place, at both precisions. *)
Theorem normalize_unit_norm_unchanged (t : Numpy.dtype) (v : pattern1d) :
  t = Numpy.float32 \/ t = Numpy.float64 ->
  Forall (representable t) v ->
  (computed_norm t v = Numpy.of_int t 1 -> _normalize_pattern1d t v = v) /\
  (forall delta : Q,
     Forall (fun x => Numpy.is_finite x = true) v ->
     (Qabs (sum_of_squares v - 1) <= delta)%Q ->
     let tau := (delta +
                 inject_Z (Z.of_nat (length v)) *
                   (6 * 2 ^ (- Numpy.prec t) +
                    3 * 2 ^ (SpecFloat.emin (Numpy.prec t) (Numpy.emax t) - 1)) +
                 2 ^ (- Numpy.prec t) +
                 2 ^ (SpecFloat.emin (Numpy.prec t) (Numpy.emax t) - 1))%Q in
     (tau <= 1 # 2)%Q ->
     (Qabs (value (computed_norm t v) - 1) <= 2 * tau)%Q /\
     Forall2 (fun x y =>
                Numpy.is_finite y = true /\
                (Qabs (value y - value x) <=
                 2 * (2 * tau + 2 ^ (- Numpy.prec t)) * Qabs (value x) +
                 2 ^ (SpecFloat.emin (Numpy.prec t) (Numpy.emax t) - 1))%Q)
             v (_normalize_pattern1d t v)) /\
  ((1 # 2 <= value (computed_norm t v))%Q ->
   Forall (fun x => Numpy.is_finite x = true /\
                    (Qabs (value x) < 2 ^ (Numpy.emax t - 2))%Q) v ->
   Forall2 (fun x y =>
              Numpy.is_finite y = true /\
              (Qabs (value y - value x) <=
               2 * (Qabs (value (computed_norm t v) - 1) + 2 ^ (- Numpy.prec t)) *
               Qabs (value x) +
               2 ^ (SpecFloat.emin (Numpy.prec t) (Numpy.emax t) - 1))%Q)
           v (_normalize_pattern1d t v)) /\
  (forall w, _normalize_pattern1d t w = naive_l2_normalize t w) /\
  (_normalize_pattern1d_float64 [f64 3; f64 4] = [f64 0.6; f64 0.8] /\
   nearest 3 5 (f64 0.6) /\ nearest 4 5 (f64 0.8)) /\
  (_normalize_pattern1d_float32
     [Numpy.of_int Numpy.float32 3; Numpy.of_int Numpy.float32 4] =
     [f32_0_6; f32_0_8] /\
   nearest 3 5 f32_0_6 /\ nearest 4 5 f32_0_8) /\
  (let u := _normalize_pattern1d_float64 [f64 1; f64 1] in
   map (fun '(x, y) => ulps_apart x y)
       (combine (_normalize_pattern1d_float64 u) u) = [Some 1; Some 1]) /\
  (let u := _normalize_pattern1d_float32
              [Numpy.of_int Numpy.float32 1; Numpy.of_int Numpy.float32 1] in
   map (fun '(x, y) => ulps_apart x y)
       (combine (_normalize_pattern1d_float32 u) u) = [Some 1; Some 1]).
Proof.
  intros Ht Hv.
  split; [intros Hnorm; apply Kernels.kernel_unit_norm; assumption|].
  split.
  { intros delta Hfin Hdelta tau Htau.
    exact (UnitNorm.kernel_unit_norm_tolerance t v delta Ht Hv Hfin Hdelta Htau). }
  split; [intros Hhalf Hsize; apply KernelTolerance.kernel_tolerance; assumption|].
  split; [intros w; apply Kernels.kernel_is_naive|].
  split.
  { split; [vm_compute; reflexivity|].
    split; vm_compute; split; discriminate. }
  split.
  { split; [vm_compute; reflexivity|].
    split; vm_compute; split; discriminate. }
  split; vm_compute; reflexivity.
Qed.

(** Two binary64 vectors: (0.6, 0.8), whose norm is computed as exactly
    1, and the normalized (1, 3), whose exact sum of squares is within
    [2 ^ - 52] of 1 and whose norm is computed as [1 - 2 ^ - 53];
    normalizing the second again moves both elements to the next float,
    within the bound. *)
Lemma normalize_unit_norm_unchanged_witness :
  (Numpy.float64 = Numpy.float32 \/ Numpy.float64 = Numpy.float64) /\
  (Forall (representable Numpy.float64) [f64 0.6; f64 0.8] /\
   computed_norm Numpy.float64 [f64 0.6; f64 0.8] = Numpy.of_int Numpy.float64 1 /\
   _normalize_pattern1d Numpy.float64 [f64 0.6; f64 0.8] = [f64 0.6; f64 0.8]) /\
  (_normalize_pattern1d Numpy.float64 [f64 1; f64 3] =
     [S754_finite false 5696652996790543 (-54);
      S754_finite false 8544979495185814 (-53)] /\
   Forall (representable Numpy.float64)
     [S754_finite false 5696652996790543 (-54);
      S754_finite false 8544979495185814 (-53)] /\
   (Qabs (sum_of_squares
            [S754_finite false 5696652996790543 (-54);
             S754_finite false 8544979495185814 (-53)] - 1) <= 2 ^ (- 52))%Q /\
   computed_norm Numpy.float64
     [S754_finite false 5696652996790543 (-54);
      S754_finite false 8544979495185814 (-53)] =
     S754_finite false 9007199254740991 (-53) /\
   _normalize_pattern1d Numpy.float64
     [S754_finite false 5696652996790543 (-54);
      S754_finite false 8544979495185814 (-53)] =
     [S754_finite false 5696652996790544 (-54);
      S754_finite false 8544979495185815 (-53)] /\
   let tau := (2 ^ (- 52) + 2 * (6 * 2 ^ (- 53) + 3 * 2 ^ (- 1075)) +
               2 ^ (- 53) + 2 ^ (- 1075))%Q in
   (Qabs (value (S754_finite false 9007199254740991 (-53)) - 1) <= 2 * tau)%Q /\
   Forall2 (fun x y =>
              Numpy.is_finite y = true /\
              (Qabs (value y - value x) <=
               2 * (2 * tau + 2 ^ (- 53)) * Qabs (value x) + 2 ^ (- 1075))%Q)
     [S754_finite false 5696652996790543 (-54);
      S754_finite false 8544979495185814 (-53)]
     [S754_finite false 5696652996790544 (-54);
      S754_finite false 8544979495185815 (-53)]).
Proof.
  assert (Ht : Numpy.float64 = Numpy.float32 \/ Numpy.float64 = Numpy.float64)
    by (right; reflexivity).
  assert (Hv : Forall (representable Numpy.float64) [f64 0.6; f64 0.8])
    by (repeat constructor; vm_compute; reflexivity).
  assert (Hn : computed_norm Numpy.float64 [f64 0.6; f64 0.8] =
               Numpy.of_int Numpy.float64 1)
    by (vm_compute; reflexivity).
  split; [exact Ht|]. split.
  { split; [exact Hv|]. split; [exact Hn|].
    exact (proj1 (normalize_unit_norm_unchanged Numpy.float64 [f64 0.6; f64 0.8]
                    Ht Hv) Hn). }
  set (u := [S754_finite false 5696652996790543 (-54);
             S754_finite false 8544979495185814 (-53)]).
  assert (Hu : Forall (representable Numpy.float64) u)
    by (repeat constructor; vm_compute; reflexivity).
  assert (Hfin : Forall (fun x => Numpy.is_finite x = true) u)
    by (repeat constructor).
  assert (Hdelta : (Qabs (sum_of_squares u - 1) <= 2 ^ (- 52))%Q)
    by (vm_compute; discriminate).
  assert (Hnu : computed_norm Numpy.float64 u =
                S754_finite false 9007199254740991 (-53))
    by (vm_compute; reflexivity).
  assert (Hmoved : _normalize_pattern1d Numpy.float64 u =
                   [S754_finite false 5696652996790544 (-54);
                    S754_finite false 8544979495185815 (-53)])
    by (vm_compute; reflexivity).
  split; [vm_compute; reflexivity|]. split; [exact Hu|]. split; [exact Hdelta|].
  split; [exact Hnu|]. split; [exact Hmoved|].
  pose proof (proj1 (proj2 (normalize_unit_norm_unchanged Numpy.float64 u Ht Hu))
                (2 ^ (- 52))%Q Hfin Hdelta) as Hb.
  cbv zeta in Hb. rewrite Hnu, Hmoved in Hb.
  apply Hb. vm_compute. discriminate.
Defined.

(** C8.  At either precision, for a vector of zeros of any length and
    any signs: the norm is computed as +0, the kernel divides by it all
    the same, and every element of the result is NaN, so none is finite;
    the preparation of the experimental patterns does the same.  For
    every vector, zero or not, the kernel's result is the reference
    computation exactly: there is no guard on the norm. *)
Theorem normalize_divides_unguarded (t : Numpy.dtype) (signs : list bool)
  (v : pattern1d) :
  computed_norm t (map S754_zero signs) = S754_zero false /\
  _normalize_pattern1d t (map S754_zero signs) = map (fun _ => S754_nan) signs /\
  forallb (fun x => negb (Numpy.is_finite x))
    (_normalize_pattern1d t (map S754_zero signs)) = true /\
  prepare_all_experimental t None [map S754_zero signs] =
    [map (fun _ => S754_nan) signs] /\
  _normalize_pattern1d t v = naive_l2_normalize t v.
Proof.
  split; [apply Kernels.norm_of_zeros|].
  split; [apply Kernels.kernel_of_zeros|].
  split.
  - rewrite Kernels.kernel_of_zeros.
    induction signs as [|s signs IH]; [reflexivity|exact IH].
  - split; [apply Kernels.prepare_experimental_of_zeros|].
    apply Kernels.kernel_is_naive.
Qed.

(* ================================================================== *)
(** * Further properties of the driver, the chunk matcher and the metric *)

Import Wellformed Ranking Traces Pixels MoreExamples Once.

(** ** What a call that returns was given, and the shape of its result *)

(** X1.  A call of [_dictionary_indexing] returns a result only when [keep_n]
    is positive and [n_per_iteration] is positive and at most the number
    of dictionary patterns; with any other arguments it ends in an
    exception. *)
Theorem returning_call_arguments (experimental : batch) (nav : list nat)
  (dictionary : batch) (metric : SimilarityMetric) (keep_n n_per_iteration : Z)
  (t : Py.trace) (r : xmap) :
  Py.run (_dictionary_indexing experimental nav dictionary metric
            keep_n n_per_iteration) = (t, inr r) ->
  0 < keep_n /\ 0 < n_per_iteration <= Z.of_nat (length dictionary).
Proof. apply Returns.driver_returns_arguments. Qed.

(** Three simulated patterns in chunks of two. *)
Lemma returning_call_arguments_witness :
  Py.run (_dictionary_indexing experimental [1%nat] dictionary3 ndp64 1 2) =
    ([Py.Sliced 0 3; Py.Matched 3 1; Py.Merged],
     inr {| scores := [[f64 1]]; simulation_indices := [[0]] |}) /\
  0 < 1 /\ 0 < 2 <= Z.of_nat (length dictionary3).
Proof.
  assert (H : Py.run (_dictionary_indexing experimental [1%nat] dictionary3
                        ndp64 1 2) =
              ([Py.Sliced 0 3; Py.Matched 3 1; Py.Merged],
               inr {| scores := [[f64 1]]; simulation_indices := [[0]] |}))
    by (vm_compute; reflexivity).
  split; [exact H|].
  exact (returning_call_arguments _ _ _ _ _ _ _ _ H).
Defined.

(** X2.  For a metric that returns one score per simulated pattern, in the
    result of every call that returns each row of [scores] and each row
    of [simulation_indices] has exactly [min(keep_n, dictionary_size)]
    entries, and the two arrays have the same number of rows; on the
    multi-chunk branch that number is the product of the navigation
    shape.  With one score per simulated pattern every row that
    [_match_chunk] ranks has as many entries as the chunk has patterns,
    [argtopk] and [topk] keep [keep_n] of them, and the reshape to
    [(-1, keep_n)] leaves the rows as they are. *)
Theorem result_shape (experimental : batch) (nav : list nat)
  (dictionary : batch) (metric : SimilarityMetric) (keep_n n_per_iteration : Z)
  (t : Py.trace) (r : xmap) :
  scores_per_pattern metric ->
  Py.run (_dictionary_indexing experimental nav dictionary metric
            keep_n n_per_iteration) = (t, inr r) ->
  let dictionary_size := Z.of_nat (length dictionary) in
  let columns := Z.to_nat (Z.min keep_n dictionary_size) in
  Forall (fun row => length row = columns) (scores r) /\
  Forall (fun row => length row = columns) (simulation_indices r) /\
  length (scores r) = length (simulation_indices r) /\
  (dictionary_size <> n_per_iteration ->
   length (scores r) = fold_right Nat.mul 1%nat nav).
Proof.
  intros _ H dictionary_size columns.
  destruct (Returns.driver_returns_arguments _ _ _ _ _ _ _ _ H) as (Hk & Hn).
  unfold Py.run in H.
  destruct (Z.eq_dec dictionary_size n_per_iteration) as [He|Hne].
  - rewrite EarlyExit.driver_single_pass in H by (fold dictionary_size; lia).
    unfold single_pass, Py.bind in H.
    destruct (_match_chunk _ _ _ _ _) as [t1 [e|[idx sc]]] eqn:Em; [discriminate|].
    injection H as <- <-. cbn [scores simulation_indices].
    pose proof (Returns.match_chunk_same_rows _ _ _ _ _ _ _ _ Em) as Hrows.
    apply Merging.match_chunk_returns in Em.
    destruct Em as (_ & _ & Hi & _ & Hs & _).
    repeat split; [exact Hs|exact Hi|symmetry; exact Hrows|contradiction].
  - rewrite EarlyExit.driver_multi_chunk in H by (fold dictionary_size; lia).
    apply Returns.multi_chunk_path_returns in H; [|exact Hn].
    destruct H as (Hk0 & first_chunks & last_start & _ & _ & _ & _ & _ & Hloop).
    assert (Hshape : Merging.shaped (fold_right Nat.mul 1%nat nav) columns r).
    { refine (Merging.for_each_invariant
                (Merging.shaped (fold_right Nat.mul 1%nat nav) columns)
                (fun _ => True) _ _ _ _ _ _ _ _ _ Hloop).
      - intros acc x t0 t1 acc' _ Hacc Hm.
        exact (Merging.merge_chunk_shaped _ _ _ _ _ _ _ _ _ _ Hk0 Hacc Hm).
      - apply Forall_forall. intros; exact I.
      - apply Returns.initial_shaped. }
    destruct Hshape as (H1 & H2 & H3 & H4).
    repeat split; [exact H3|exact H4|lia|intros _; exact H1].
Qed.

(** Two simulated patterns, [keep_n = 5], chunks of one pattern. *)
Lemma result_shape_witness :
  scores_per_pattern ndp64 /\
  Py.run (_dictionary_indexing experimental [1%nat] dictionary ndp64 5 1) =
    ([Py.Sliced 0 1; Py.Matched 1 1; Py.Merged;
      Py.Sliced 1 2; Py.Matched 1 1; Py.Merged],
     inr {| scores := [[f64 1; f64 1]]; simulation_indices := [[0; 0]] |}) /\
  Forall (fun row => length row = 2%nat) [[f64 1; f64 1]].
Proof.
  assert (Hm : scores_per_pattern ndp64)
    by exact (NdpShape.ndp_scores_per_pattern Numpy.float64 None).
  assert (H : Py.run (_dictionary_indexing experimental [1%nat] dictionary
                        ndp64 5 1) =
    ([Py.Sliced 0 1; Py.Matched 1 1; Py.Merged;
      Py.Sliced 1 2; Py.Matched 1 1; Py.Merged],
     inr {| scores := [[f64 1; f64 1]]; simulation_indices := [[0; 0]] |}))
    by (vm_compute; reflexivity).
  split; [exact Hm|]. split; [exact H|].
  exact (proj1 (result_shape _ _ _ _ _ _ _ _ Hm H)).
Defined.


(** X3.  For a metric that returns one score per simulated pattern, every
    entry of [simulation_indices] in the result of a call that returns is
    a position of the dictionary: at least 0 and below the number of
    dictionary patterns. *)
Theorem returned_indices_in_dictionary (experimental : batch) (nav : list nat)
  (dictionary : batch) (metric : SimilarityMetric) (keep_n n_per_iteration : Z)
  (t : Py.trace) (r : xmap) :
  scores_per_pattern metric ->
  Py.run (_dictionary_indexing experimental nav dictionary metric
            keep_n n_per_iteration) = (t, inr r) ->
  Forall (Forall (fun i => 0 <= i < Z.of_nat (length dictionary)))
    (simulation_indices r).
Proof. apply IndexRange.driver_indices_in_range. Qed.

(** The normalized dot product on three simulated patterns, the best
    two on the single pass. *)
Lemma returned_indices_in_dictionary_witness :
  scores_per_pattern ndp64 /\
  Py.run (_dictionary_indexing experimental [1%nat] dictionary3 ndp64 2 3) =
    ([Py.Matched 3 2],
     inr {| scores := [[f64 0.8; f64 0.6]]; simulation_indices := [[1; 0]] |}) /\
  Forall (Forall (fun i => 0 <= i < Z.of_nat (length dictionary3))) [[1; 0]].
Proof.
  assert (Hm : scores_per_pattern ndp64)
    by exact (NdpShape.ndp_scores_per_pattern Numpy.float64 None).
  assert (H : Py.run (_dictionary_indexing experimental [1%nat] dictionary3
                        ndp64 2 3) =
    ([Py.Matched 3 2],
     inr {| scores := [[f64 0.8; f64 0.6]]; simulation_indices := [[1; 0]] |}))
    by (vm_compute; reflexivity).
  split; [exact Hm|]. split; [exact H|].
  exact (returned_indices_in_dictionary _ _ _ _ _ _ _ _ Hm H).
Defined.

(** X4.  The rotations of the returned map are looked up as
    [dictionary_xmap.rotations[simulation_indices]].  For a metric that
    returns one score per simulated pattern and a dictionary map with one
    rotation per simulated pattern, this lookup raises no [IndexError]
    after a call that returns: the result holds, entry by entry, the
    rotation at the returned index. *)
Theorem rotations_lookup_succeeds {R : Type} (rotations : list R) (d : R)
  (experimental : batch) (nav : list nat) (dictionary : batch)
  (metric : SimilarityMetric) (keep_n n_per_iteration : Z)
  (t : Py.trace) (r : xmap) :
  scores_per_pattern metric ->
  length rotations = length dictionary ->
  Py.run (_dictionary_indexing experimental nav dictionary metric
            keep_n n_per_iteration) = (t, inr r) ->
  Gather.getitem_rows rotations (simulation_indices r) t =
  (t, inr (map (map (fun i => nth (Z.to_nat i) rotations d))
               (simulation_indices r))).
Proof.
  intros Hmetric Hlen H.
  apply GatherLemmas.getitem_rows_in_range. rewrite Hlen.
  exact (IndexRange.driver_indices_in_range _ _ _ _ _ _ _ _ Hmetric H).
Qed.

(** Three rotations, here the numbers 10, 20 and 30, for the three
    simulated patterns. *)
Lemma rotations_lookup_succeeds_witness :
  scores_per_pattern ndp64 /\
  length [10; 20; 30] = length dictionary3 /\
  Py.run (_dictionary_indexing experimental [1%nat] dictionary3 ndp64 2 3) =
    ([Py.Matched 3 2],
     inr {| scores := [[f64 0.8; f64 0.6]]; simulation_indices := [[1; 0]] |}) /\
  Gather.getitem_rows [10; 20; 30] [[1; 0]] [Py.Matched 3 2] =
    ([Py.Matched 3 2], inr [[20; 10]]).
Proof.
  assert (Hm : scores_per_pattern ndp64)
    by exact (NdpShape.ndp_scores_per_pattern Numpy.float64 None).
  assert (Hl : length [10; 20; 30] = length dictionary3) by reflexivity.
  assert (H : Py.run (_dictionary_indexing experimental [1%nat] dictionary3
                        ndp64 2 3) =
    ([Py.Matched 3 2],
     inr {| scores := [[f64 0.8; f64 0.6]]; simulation_indices := [[1; 0]] |}))
    by (vm_compute; reflexivity).
  split; [exact Hm|]. split; [exact Hl|]. split; [exact H|].
  exact (rotations_lookup_succeeds [10; 20; 30] 0 _ _ _ _ _ _ _ _ Hm Hl H).
Defined.

(** ** The chunks of the multi-chunk branch *)

(** X5.  With [0 < n_per_iteration <= dictionary_size], every chunk but the
    last has exactly [n_per_iteration] dictionary patterns, and the last
    has [n_per_iteration + dictionary_size mod n_per_iteration]: at
    least [n_per_iteration] and fewer than twice as many.  A multi-chunk
    call that returns has sliced the dictionary into these chunks. *)
Theorem chunk_sizes (experimental : batch) (nav : list nat)
  (dictionary : batch) (metric : SimilarityMetric) (keep_n n_per_iteration : Z) :
  let dictionary_size := Z.of_nat (length dictionary) in
  0 < n_per_iteration <= dictionary_size ->
  exists first_chunks last_start,
    Py.run (chunk_bounds dictionary_size n_per_iteration
              (dictionary_size / n_per_iteration)) =
      ([], inr (first_chunks ++ [(last_start, dictionary_size)])) /\
    Z.of_nat (length first_chunks) = dictionary_size / n_per_iteration - 1 /\
    Forall (fun bd => snd bd - fst bd = n_per_iteration) first_chunks /\
    dictionary_size - last_start =
      n_per_iteration + dictionary_size mod n_per_iteration /\
    n_per_iteration <= dictionary_size - last_start < 2 * n_per_iteration /\
    forall t r,
      Py.run (_dictionary_indexing experimental nav dictionary metric
                keep_n n_per_iteration) = (t, inr r) ->
      dictionary_size <> n_per_iteration ->
      sliced t = first_chunks ++ [(last_start, dictionary_size)].
Proof.
  intros dictionary_size Hn.
  destruct (ChunkSizes.chunk_bounds_of_call dictionary_size n_per_iteration [] Hn)
    as (first_chunks & last_start & Hb & Hlen & Hsizes & Hlast & Htiles).
  exists first_chunks, last_start.
  split; [exact Hb|]. split; [exact Hlen|]. split; [exact Hsizes|].
  split; [exact Hlast|].
  split.
  { pose proof (Z.mod_pos_bound dictionary_size n_per_iteration ltac:(lia)). lia. }
  intros t r Hcall Hne. unfold Py.run in Hcall.
  rewrite EarlyExit.driver_multi_chunk in Hcall by (fold dictionary_size; lia).
  exact (Slices.multi_chunk_path_slices _ _ _ _ _ _ _ _ _ _ Hb Hcall).
Qed.

(** 23 simulated patterns in chunks of 10: one chunk of 10 and a last
    chunk of 13. *)
Lemma chunk_sizes_witness :
  0 < 10 <= Z.of_nat (length dictionary23) /\
  exists first_chunks last_start,
    Py.run (chunk_bounds 23 10 2) =
      ([], inr (first_chunks ++ [(last_start, 23)])) /\
    Z.of_nat (length first_chunks) = 1 /\
    Forall (fun bd => snd bd - fst bd = 10) first_chunks /\
    23 - last_start = 13 /\
    10 <= 23 - last_start < 20 /\
    forall t r,
      Py.run (_dictionary_indexing experimental [1%nat] dictionary23 ndp64 1 10) =
        (t, inr r) ->
      23 <> 10 ->
      sliced t = first_chunks ++ [(last_start, 23)].
Proof.
  split; [cbn; lia|].
  apply (chunk_sizes experimental [1%nat] dictionary23 ndp64 1 10).
  cbn. lia.
Defined.

(** X6.  A call that returns has called [_match_chunk] once per iteration:
    [dictionary_size // n_per_iteration] times.  On the single pass its
    trace is that one call, on the whole dictionary with the clamped
    [keep_n].  On the multi-chunk branch the trace is, chunk by chunk,
    one slice, one call of [_match_chunk] on that slice with
    [min(keep_n, stop - start)], and one merge. *)
Theorem one_match_per_iteration (experimental : batch) (nav : list nat)
  (dictionary : batch) (metric : SimilarityMetric) (keep_n n_per_iteration : Z)
  (t : Py.trace) (r : xmap) :
  Py.run (_dictionary_indexing experimental nav dictionary metric
            keep_n n_per_iteration) = (t, inr r) ->
  let dictionary_size := Z.of_nat (length dictionary) in
  let keep_n := Z.min keep_n dictionary_size in
  Z.of_nat (length (matched t)) = dictionary_size / n_per_iteration /\
  (dictionary_size = n_per_iteration ->
   t = [Py.Matched (length (prepare_dictionary metric dictionary)) keep_n]) /\
  (dictionary_size <> n_per_iteration ->
   t = flat_map (turn metric dictionary keep_n) (sliced t)).
Proof.
  intros H dictionary_size keep_n'.
  destruct (Returns.driver_returns_arguments _ _ _ _ _ _ _ _ H) as (Hk & Hn).
  unfold Py.run in H.
  destruct (Z.eq_dec dictionary_size n_per_iteration) as [He|Hne].
  - rewrite EarlyExit.driver_single_pass in H by (fold dictionary_size; lia).
    apply (f_equal fst) in H. rewrite Slices.single_pass_trace in H.
    cbn [fst app] in H. subst t.
    split; [|split; [reflexivity|contradiction]].
    cbn [matched length]. rewrite He, Z.div_same by lia. reflexivity.
  - rewrite EarlyExit.driver_multi_chunk in H by (fold dictionary_size; lia).
    apply Returns.multi_chunk_path_returns in H; [|exact Hn].
    destruct H as (_ & first_chunks & last_start & _ & Hlen & _ & _ & _ & Hloop).
    cbv zeta in Hloop.
    apply Merging.for_each_trace in Hloop. cbn [app] in Hloop.
    fold dictionary_size keep_n' in Hloop.
    split.
    { rewrite Hloop, TraceShape.matched_turns, length_map, length_app.
      cbn [length]. fold dictionary_size in Hlen. lia. }
    split; [contradiction|intros _].
    rewrite Hloop at 1. rewrite Hloop, TraceShape.sliced_turns. reflexivity.
Qed.

(** Two simulated patterns, [keep_n = 5], in chunks of one: two
    iterations, each matched with [keep_n = 1]. *)
Lemma one_match_per_iteration_witness :
  Py.run (_dictionary_indexing experimental [1%nat] dictionary ndp64 5 1) =
    ([Py.Sliced 0 1; Py.Matched 1 1; Py.Merged;
      Py.Sliced 1 2; Py.Matched 1 1; Py.Merged],
     inr {| scores := [[f64 1; f64 1]]; simulation_indices := [[0; 0]] |}) /\
  Z.of_nat (length (matched [Py.Sliced 0 1; Py.Matched 1 1; Py.Merged;
                             Py.Sliced 1 2; Py.Matched 1 1; Py.Merged])) =
    Z.of_nat (length dictionary) / 1.
Proof.
  assert (H : Py.run (_dictionary_indexing experimental [1%nat] dictionary
                        ndp64 5 1) =
    ([Py.Sliced 0 1; Py.Matched 1 1; Py.Merged;
      Py.Sliced 1 2; Py.Matched 1 1; Py.Merged],
     inr {| scores := [[f64 1; f64 1]]; simulation_indices := [[0; 0]] |}))
    by (vm_compute; reflexivity).
  split; [exact H|].
  exact (proj1 (one_match_per_iteration _ _ _ _ _ _ _ _ H)).
Defined.

(** X7.  The chunks that a multi-chunk call slices, one after the other, are
    the dictionary: every simulated pattern is handed to [_match_chunk]
    once, in the order of the dictionary. *)
Theorem chunks_concatenate_to_dictionary (experimental : batch) (nav : list nat)
  (dictionary : batch) (metric : SimilarityMetric) (keep_n n_per_iteration : Z)
  (t : Py.trace) (r : xmap) :
  Py.run (_dictionary_indexing experimental nav dictionary metric
            keep_n n_per_iteration) = (t, inr r) ->
  Z.of_nat (length dictionary) <> n_per_iteration ->
  concat (map (fun bd => Py.slice dictionary (fst bd) (snd bd)) (sliced t)) =
  dictionary.
Proof.
  intros H Hne.
  destruct (Returns.driver_returns_arguments _ _ _ _ _ _ _ _ H) as (Hk & Hn).
  unfold Py.run in H.
  rewrite EarlyExit.driver_multi_chunk in H by lia.
  pose proof H as H'.
  apply Returns.multi_chunk_path_returns in H; [|exact Hn].
  destruct H as (_ & first_chunks & last_start & Hb & _ & _ & _ & Htiles & _).
  cbv zeta in Hb, Htiles.
  rewrite (Slices.multi_chunk_path_slices _ _ _ _ _ _ _ _ _ _ Hb H').
  rewrite (Slicing.tiles_slices dictionary _ _ _ Htiles) by lia.
  apply Slicing.slice_all.
Qed.

(** Three simulated patterns in chunks of one. *)
Lemma chunks_concatenate_to_dictionary_witness :
  Py.run (_dictionary_indexing experimental [1%nat] dictionary3 ndp64 1 1) =
    ([Py.Sliced 0 1; Py.Matched 1 1; Py.Merged;
      Py.Sliced 1 2; Py.Matched 1 1; Py.Merged;
      Py.Sliced 2 3; Py.Matched 1 1; Py.Merged],
     inr {| scores := [[f64 1]]; simulation_indices := [[0]] |}) /\
  Z.of_nat (length dictionary3) <> 1 /\
  concat (map (fun bd => Py.slice dictionary3 (fst bd) (snd bd))
              [(0, 1); (1, 2); (2, 3)]) = dictionary3.
Proof.
  assert (H : Py.run (_dictionary_indexing experimental [1%nat] dictionary3
                        ndp64 1 1) =
    ([Py.Sliced 0 1; Py.Matched 1 1; Py.Merged;
      Py.Sliced 1 2; Py.Matched 1 1; Py.Merged;
      Py.Sliced 2 3; Py.Matched 1 1; Py.Merged],
     inr {| scores := [[f64 1]]; simulation_indices := [[0]] |}))
    by (vm_compute; reflexivity).
  assert (Hne : Z.of_nat (length dictionary3) <> 1) by (cbn; lia).
  split; [exact H|]. split; [exact Hne|].
  exact (chunks_concatenate_to_dictionary _ _ _ _ _ _ _ _ H Hne).
Defined.

(** ** The single pass *)

(** X9.  For a metric that returns one score per simulated pattern, a call
    with [0 < keep_n] and [n_per_iteration] equal to the number of
    dictionary patterns returns, after one call of [_match_chunk] on the
    whole dictionary.  Row [i] of the result holds
    [min(keep_n, dictionary_size)] distinct dictionary positions, and the
    score next to each position is the similarity of experimental
    pattern [i] and the simulated pattern at that position. *)
Theorem single_pass_result (experimental : batch) (nav : list nat)
  (dictionary : batch) (metric : SimilarityMetric) (keep_n n_per_iteration : Z) :
  scores_per_pattern metric ->
  0 < keep_n -> 0 < n_per_iteration ->
  Z.of_nat (length dictionary) = n_per_iteration ->
  let dictionary_size := Z.of_nat (length dictionary) in
  let columns := Z.min keep_n dictionary_size in
  let similarities :=
    metric_match metric (prepare_experimental metric experimental)
      (prepare_dictionary metric dictionary) in
  exists r,
    Py.run (_dictionary_indexing experimental nav dictionary metric
              keep_n n_per_iteration) =
      ([Py.Matched (length (prepare_dictionary metric dictionary)) columns],
       inr r) /\
    length (scores r) = length similarities /\
    length (simulation_indices r) = length similarities /\
    forall i,
      let indices := nth i (simulation_indices r) [] in
      (i < length similarities)%nat ->
      length indices = Z.to_nat columns /\
      NoDup indices /\
      Forall (fun j => 0 <= j < dictionary_size) indices /\
      nth i (scores r) [] =
        map (fun j => nth (Z.to_nat j) (nth i similarities []) S754_nan) indices.
Proof.
  intros Hmetric Hk Hn He dictionary_size columns sims.
  eexists. split.
  { unfold Py.run. rewrite EarlyExit.driver_single_pass by assumption.
    rewrite SinglePass.single_pass_rowwise by (try assumption; lia).
    reflexivity. }
  cbn [scores simulation_indices].
  fold sims. unfold Wellformed.similarities. fold sims.
  rewrite !length_map.
  split; [reflexivity|]. split; [reflexivity|].
  intros i Hi.
  assert (Hrow : length (nth i sims []) = length dictionary).
  { pose proof (Hmetric (prepare_experimental metric experimental) dictionary) as H.
    rewrite Forall_forall in H. apply H. apply nth_In. exact Hi. }
  rewrite SinglePass.nth_argtopk_rows, SinglePass.nth_topk_rows.
  split.
  { rewrite length_map, TopK.length_argtopk by lia. rewrite Hrow.
    unfold columns, dictionary_size. lia. }
  split; [apply SinglePass.nodup_map_of_nat, TopK.argtopk_nodup|].
  split.
  { apply Forall_map. apply Forall_forall. intros j Hj.
    apply TopK.argtopk_in_range in Hj. unfold dictionary_size. lia. }
  rewrite TopK.topk_at_argtopk, map_map. apply map_ext. intros j.
  rewrite Nat2Z.id. reflexivity.
Qed.

(** Three simulated patterns, the best two. *)
Lemma single_pass_result_witness :
  scores_per_pattern ndp64 /\ 0 < 2 /\ 0 < 3 /\
  Z.of_nat (length dictionary3) = 3 /\
  exists r,
    Py.run (_dictionary_indexing experimental [1%nat] dictionary3 ndp64 2 3) =
      ([Py.Matched (length (prepare_dictionary ndp64 dictionary3))
          (Z.min 2 (Z.of_nat (length dictionary3)))], inr r) /\
    length (scores r) =
      length (metric_match ndp64 (prepare_experimental ndp64 experimental)
                (prepare_dictionary ndp64 dictionary3)).
Proof.
  assert (Hm : scores_per_pattern ndp64)
    by exact (NdpShape.ndp_scores_per_pattern Numpy.float64 None).
  assert (H2 : 0 < 2) by lia. assert (H3 : 0 < 3) by lia.
  assert (He : Z.of_nat (length dictionary3) = 3) by reflexivity.
  split; [exact Hm|]. split; [exact H2|]. split; [exact H3|]. split; [exact He|].
  destruct (single_pass_result experimental [1%nat] dictionary3 ndp64 2 3
              Hm H2 H3 He) as (r & Hrun & Hlen & _).
  exists r. split; [exact Hrun|exact Hlen].
Defined.

(** X10.  On the single pass every row of scores comes largest first, whatever
    the sign of the metric: no score is followed by a larger one, a NaN
    counting as the largest value.  A row of the similarities that holds
    a NaN has a NaN as its first returned score, and a row without a NaN
    is returned in non-increasing order. *)
Theorem single_pass_largest_first (experimental : batch) (nav : list nat)
  (dictionary : batch) (metric : SimilarityMetric) (keep_n n_per_iteration : Z)
  (t : Py.trace) (r : xmap) :
  scores_per_pattern metric ->
  Z.of_nat (length dictionary) = n_per_iteration ->
  Py.run (_dictionary_indexing experimental nav dictionary metric
            keep_n n_per_iteration) = (t, inr r) ->
  let similarities :=
    metric_match metric (prepare_experimental metric experimental)
      (prepare_dictionary metric dictionary) in
  Forall (fun row => largest_first row = true) (scores r) /\
  forall i,
    (i < length similarities)%nat ->
    (In S754_nan (nth i similarities []) ->
     hd (S754_zero false) (nth i (scores r) []) = S754_nan) /\
    (Forall (fun x => Numpy.is_nan x = false) (nth i similarities []) ->
     best_first 1 (nth i (scores r) []) = true).
Proof.
  intros Hmetric He H sims.
  destruct (Returns.driver_returns_arguments _ _ _ _ _ _ _ _ H) as (Hk & Hn).
  unfold Py.run in H.
  rewrite EarlyExit.driver_single_pass in H by lia.
  rewrite SinglePass.single_pass_rowwise in H by (try assumption; lia).
  injection H as _ <-. cbn [scores].
  unfold Wellformed.similarities. fold sims.
  set (k := Z.min keep_n (Z.of_nat (length dictionary))).
  assert (Hkpos : 0 < k) by (unfold k; lia).
  split.
  { apply Forall_map. apply Forall_forall. intros row _.
    apply TopK.topk_largest_first. exact Hkpos. }
  intros i Hi.
  rewrite SinglePass.nth_topk_rows.
  split.
  - intros Hnan. apply TopK.topk_nan_first; assumption.
  - intros Hnum. apply SinglePass.largest_first_best_first.
    + apply Forall_forall. intros x Hx. apply SinglePass.in_topk in Hx.
      rewrite Forall_forall in Hnum. apply Hnum. exact Hx.
    + apply TopK.topk_largest_first. exact Hkpos.
Qed.

(** The squared distance, sign -1, on two simulated patterns. *)
Lemma single_pass_largest_first_witness :
  scores_per_pattern (distance_metric Numpy.float64) /\
  Z.of_nat (length dictionary) = 2 /\
  Py.run (_dictionary_indexing experimental [1%nat] dictionary
            (distance_metric Numpy.float64) 2 2) =
    ([Py.Matched 2 2],
     inr {| scores := [[f64 20; f64 18]]; simulation_indices := [[0; 1]] |}) /\
  Forall (fun row => largest_first row = true) [[f64 20; f64 18]].
Proof.
  assert (Hm : scores_per_pattern (distance_metric Numpy.float64)).
  { intros e s. cbn [metric_match prepare_dictionary distance_metric].
    apply Forall_map. apply Forall_forall. intros x _. apply length_map. }
  assert (He : Z.of_nat (length dictionary) = 2) by reflexivity.
  assert (H : Py.run (_dictionary_indexing experimental [1%nat] dictionary
                        (distance_metric Numpy.float64) 2 2) =
    ([Py.Matched 2 2],
     inr {| scores := [[f64 20; f64 18]]; simulation_indices := [[0; 1]] |}))
    by (vm_compute; reflexivity).
  split; [exact Hm|]. split; [exact He|]. split; [exact H|].
  exact (proj1 (single_pass_largest_first _ _ _ _ _ _ _ _ Hm He H)).
Defined.

(** ** Pixels that are not numbers *)

(** X11.  At any precision, one NaN pixel turns the whole normalized pattern
    into NaN, in the kernel for the simulated patterns and in the
    preparation of the experimental patterns alike, and the dot product
    of any pattern of as many pixels with it is NaN. *)
Theorem nan_pixel_spoils_pattern (t : Numpy.dtype) (v : pattern1d) :
  In S754_nan v ->
  computed_norm t v = S754_nan /\
  _normalize_pattern1d t v = map (fun _ => S754_nan) v /\
  prepare_all_experimental t None [v] = [map (fun _ => S754_nan) v] /\
  forall e, length e = length v ->
    dot t e (_normalize_pattern1d t v) = S754_nan.
Proof.
  intros Hin.
  split; [apply NanPixels.norm_with_nan; exact Hin|].
  split; [apply NanPixels.kernel_with_nan; exact Hin|].
  split.
  - unfold prepare_all_experimental, apply_mask. cbn [map]. f_equal.
    assert (Hin' : In S754_nan (map (Numpy.astype t) v)).
    { apply in_map_iff. exists S754_nan. split; [reflexivity|exact Hin]. }
    pose proof (NanPixels.kernel_with_nan t _ Hin') as H.
    unfold _normalize_pattern1d in H. rewrite H, map_map. reflexivity.
  - intros e He. rewrite NanPixels.kernel_with_nan by exact Hin.
    apply NanPixels.dot_nan.
    + intros ->. destruct v; [destruct Hin|discriminate He].
    + intros ->. destruct Hin.
Qed.

(** A pattern of two pixels, the second a NaN. *)
Lemma nan_pixel_spoils_pattern_witness :
  In S754_nan [f64 1; S754_nan] /\
  _normalize_pattern1d Numpy.float64 [f64 1; S754_nan] = [S754_nan; S754_nan].
Proof.
  assert (H : In S754_nan [f64 1; S754_nan]) by (right; left; reflexivity).
  split; [exact H|].
  exact (proj1 (proj2 (nan_pixel_spoils_pattern Numpy.float64 [f64 1; S754_nan] H))).
Defined.

(** X12.  With the normalized dot product and no signal mask, on the single
    pass, for patterns of one and the same positive number of pixels:
    when the dictionary holds a simulated pattern that is all zeros or
    has a NaN pixel, its score against every experimental pattern is NaN,
    the sort puts NaN after every number, and the first score returned
    for every experimental pattern is a NaN: no real score comes before
    it. *)
Theorem unusable_pattern_is_returned_first (t : Numpy.dtype)
  (experimental : batch) (nav : list nat) (dictionary : batch)
  (keep_n n_per_iteration : Z) (n_pixels : nat) (p : pattern1d) :
  0 < keep_n -> 0 < n_per_iteration ->
  Z.of_nat (length dictionary) = n_per_iteration ->
  (0 < n_pixels)%nat ->
  Forall (fun e => length e = n_pixels) experimental ->
  Forall (fun s => length s = n_pixels) dictionary ->
  In p dictionary -> unusable p ->
  exists r,
    Py.run (_dictionary_indexing experimental nav dictionary (metric t None)
              keep_n n_per_iteration) =
      ([Py.Matched (length dictionary)
          (Z.min keep_n (Z.of_nat (length dictionary)))], inr r) /\
    length (scores r) = length experimental /\
    Forall (fun row => hd (S754_zero false) row = S754_nan) (scores r).
Proof.
  intros Hk Hn He Hpix Hexp Hdict Hp Hun.
  pose proof (NdpShape.ndp_scores_per_pattern t None) as Hmetric.
  eexists. split.
  { unfold Py.run. rewrite EarlyExit.driver_single_pass by assumption.
    rewrite SinglePass.single_pass_rowwise by (try assumption; lia).
    cbn [app prepare_dictionary metric].
    rewrite NdpShape.length_prepare_chunk_simulated. reflexivity. }
  cbn [scores]. unfold Wellformed.similarities.
  cbn [metric_match prepare_dictionary prepare_experimental metric].
  unfold compare. rewrite map_map.
  split.
  { rewrite length_map. unfold prepare_all_experimental.
    rewrite length_map, NdpShape.length_apply_mask, length_map. reflexivity. }
  apply Forall_map. apply Forall_forall. intros e Hein.
  apply TopK.topk_nan_first; [lia|].
  apply in_map_iff. exists (_normalize_pattern1d t p). split.
  - rewrite (NanPixels.kernel_unusable t p Hun).
    rewrite Forall_forall in Hexp, Hdict.
    apply NanPixels.dot_nan.
    + unfold prepare_all_experimental, apply_mask in Hein.
      rewrite map_map in Hein. apply in_map_iff in Hein.
      destruct Hein as (e0 & <- & He0).
      specialize (Hexp e0 He0).
      destruct e0 as [|x e0]; [cbn in Hexp; lia|discriminate].
    + specialize (Hdict p Hp). destruct p; [cbn in Hdict; lia|discriminate].
  - unfold prepare_chunk_simulated, _prepare_simulated_patterns1d, apply_mask.
    apply in_map. exact Hp.
Qed.

(** A dictionary of (3, 4) and (0, 0): the pattern of zeros comes first. *)
Lemma unusable_pattern_is_returned_first_witness :
  0 < 1 /\ 0 < 2 /\
  Z.of_nat (length [[f64 3; f64 4]; [f64 0; f64 0]]) = 2 /\
  (0 < 2)%nat /\
  Forall (fun e : pattern1d => length e = 2%nat) experimental /\
  Forall (fun s : pattern1d => length s = 2%nat)
    [[f64 3; f64 4]; [f64 0; f64 0]] /\
  In [f64 0; f64 0] [[f64 3; f64 4]; [f64 0; f64 0]] /\
  unusable [f64 0; f64 0] /\
  exists r,
    Py.run (_dictionary_indexing experimental [1%nat]
              [[f64 3; f64 4]; [f64 0; f64 0]] ndp64 1 2) =
      ([Py.Matched 2 1], inr r) /\
    length (scores r) = 1%nat /\
    Forall (fun row => hd (S754_zero false) row = S754_nan) (scores r).
Proof.
  assert (H1 : 0 < 1) by lia. assert (H2 : 0 < 2) by lia.
  assert (He : Z.of_nat (length [[f64 3; f64 4]; [f64 0; f64 0]]) = 2)
    by reflexivity.
  assert (Hpix : (0 < 2)%nat) by lia.
  assert (Hexp : Forall (fun e : pattern1d => length e = 2%nat) experimental)
    by (repeat constructor).
  assert (Hdict : Forall (fun s : pattern1d => length s = 2%nat)
                    [[f64 3; f64 4]; [f64 0; f64 0]])
    by (repeat constructor).
  assert (Hin : In [f64 0; f64 0] [[f64 3; f64 4]; [f64 0; f64 0]])
    by (right; left; reflexivity).
  assert (Hun : unusable [f64 0; f64 0]) by (right; reflexivity).
  split; [exact H1|]. split; [exact H2|]. split; [exact He|].
  split; [exact Hpix|]. split; [exact Hexp|]. split; [exact Hdict|].
  split; [exact Hin|]. split; [exact Hun|].
  exact (unusable_pattern_is_returned_first Numpy.float64 experimental [1%nat]
           [[f64 3; f64 4]; [f64 0; f64 0]] 1 2 2%nat [f64 0; f64 0]
           H1 H2 He Hpix Hexp Hdict Hin Hun).
Defined.


(** ** Scores and indices stay together *)

(** X13.  For a metric that returns one score per simulated pattern and whose
    scores do not depend on the chunk, in the result of every call that
    returns, row by row and
    column by column, the entry of [simulation_indices] and the entry of
    [scores] belong together: the index is a dictionary position and the
    score is the similarity of the row's experimental pattern and the
    simulated pattern at that position.  The only other entry, on the
    multi-chunk branch, is the initial one: index 0 with the score
    [metric.sign]. *)
Theorem scores_belong_to_indices (experimental : batch) (nav : list nat)
  (dictionary : batch) (metric : SimilarityMetric) (keep_n n_per_iteration : Z)
  (t : Py.trace) (r : xmap) :
  scores_per_pattern metric -> chunkwise metric ->
  Py.run (_dictionary_indexing experimental nav dictionary metric
            keep_n n_per_iteration) = (t, inr r) ->
  let dictionary_size := Z.of_nat (length dictionary) in
  let similarities :=
    metric_match metric (prepare_experimental metric experimental)
      (prepare_dictionary metric dictionary) in
  forall i,
    length (nth i (simulation_indices r) []) = length (nth i (scores r) []) /\
    Forall (fun p =>
              (dictionary_size <> n_per_iteration /\
               p = (0, Numpy.of_int (dtype metric) (sign metric))) \/
              (0 <= fst p < dictionary_size /\
               snd p = nth (Z.to_nat (fst p)) (nth i similarities []) S754_nan))
      (combine (nth i (simulation_indices r) []) (nth i (scores r) [])).
Proof.
  intros Hmetric Hchunk H dictionary_size sims i.
  destruct (Returns.driver_returns_arguments _ _ _ _ _ _ _ _ H) as (Hk & Hn).
  unfold Py.run in H.
  destruct (Z.eq_dec dictionary_size n_per_iteration) as [He|Hne].
  - rewrite EarlyExit.driver_single_pass in H by (fold dictionary_size; lia).
    rewrite SinglePass.single_pass_rowwise in H
      by (try assumption; fold dictionary_size; lia).
    injection H as _ <-. cbn [scores simulation_indices].
    unfold Wellformed.similarities. fold sims. fold dictionary_size.
    rewrite SinglePass.nth_argtopk_rows, SinglePass.nth_topk_rows.
    split.
    { unfold Dask.topk. rewrite length_map, Arrays.length_take. reflexivity. }
    assert (Hw : nth i sims [] = [] \/
                 Z.of_nat (length (nth i sims [])) = dictionary_size).
    { destruct (Nat.lt_ge_cases i (length sims)) as [Hi|Hi].
      - right. unfold dictionary_size. f_equal.
        pose proof (Hmetric (prepare_experimental metric experimental) dictionary)
          as Hsp.
        rewrite Forall_forall in Hsp. apply Hsp. apply nth_In. exact Hi.
      - left. apply nth_overflow. exact Hi. }
    rewrite TopK.topk_at_argtopk, Alignment.combine_map_both.
    apply Forall_map. apply Forall_forall. intros j Hj.
    apply TopK.argtopk_in_range in Hj. right. cbn [fst snd].
    destruct Hw as [Hw|Hw]; [rewrite Hw in Hj; cbn in Hj; lia|].
    split; [lia|]. rewrite Nat2Z.id. reflexivity.
  - rewrite EarlyExit.driver_multi_chunk in H by (fold dictionary_size; lia).
    apply Returns.multi_chunk_path_returns in H; [|exact Hn].
    destruct H as (Hk0 & first_chunks & last_start & _ & _ & _ & _ & Htiles & Hloop).
    cbv zeta in Htiles, Hloop.
    set (n := fold_right Nat.mul 1%nat nav) in *.
    set (k := Z.min keep_n (Z.of_nat (length dictionary))) in *.
    assert (Hinv :
      Merging.shaped n (Z.to_nat k) r /\
      Alignment.aligned metric (Z.of_nat (length dictionary))
        (Wellformed.similarities metric (prepare_experimental metric experimental)
           dictionary) r).
    { refine (Merging.for_each_invariant
                (fun acc =>
                   Merging.shaped n (Z.to_nat k) acc /\
                   Alignment.aligned metric (Z.of_nat (length dictionary))
                     (Wellformed.similarities metric
                        (prepare_experimental metric experimental) dictionary) acc)
                (fun bd => 0 <= fst bd /\ fst bd < snd bd /\
                           snd bd <= Z.of_nat (length dictionary))
                _ _ _ _ _ _ _ _ _ Hloop).
      - intros acc x t0 t1 acc' Hx Hacc Hm. split.
        + exact (Merging.merge_chunk_shaped _ _ _ _ _ _ _ _ _ _ Hk0 (proj1 Hacc) Hm).
        + exact (Alignment.merge_chunk_aligned _ _ _ _ _ _ _ _ _ _
                   Hmetric Hchunk Hx Hacc Hm).
      - exact (Slicing.tiles_in_range _ _ _ Htiles).
      - split; [apply Returns.initial_shaped|].
        intros j. unfold Returns.initial. cbn [scores simulation_indices].
        apply Forall_forall. intros [ix sc] Hp. left.
        pose proof (in_combine_l _ _ _ _ Hp) as Hl.
        pose proof (in_combine_r _ _ _ _ Hp) as Hr.
        destruct (nth_in_or_default j (repeat (repeat 0 (Z.to_nat k)) n) [])
          as [Hin|Hd].
        2: { rewrite Hd in Hl. destruct Hl. }
        apply repeat_spec in Hin. rewrite Hin in Hl. apply repeat_spec in Hl.
        destruct (nth_in_or_default j
                    (repeat (repeat (Numpy.of_int (dtype metric) (sign metric))
                               (Z.to_nat k)) n) []) as [Hin'|Hd'].
        2: { rewrite Hd' in Hr. destruct Hr. }
        apply repeat_spec in Hin'. rewrite Hin' in Hr. apply repeat_spec in Hr.
        subst ix sc. reflexivity. }
    destruct Hinv as [Hshape Hal].
    split; [exact (Alignment.shaped_rows _ _ _ i Hshape)|].
    eapply Forall_impl; [|apply (Hal i)].
    cbn. intros p [Hp|Hp]; [left; split; [exact Hne|exact Hp]|right; exact Hp].
Qed.

(** The dot product without normalization on three simulated patterns
    in chunks of one: the scores 4 and 3 next to the indices 1 and 0. *)
Lemma scores_belong_to_indices_witness :
  scores_per_pattern (raw_dot Numpy.float64) /\
  chunkwise (raw_dot Numpy.float64) /\
  Py.run (_dictionary_indexing experimental [1%nat] dictionary3
            (raw_dot Numpy.float64) 2 1) =
    ([Py.Sliced 0 1; Py.Matched 1 1; Py.Merged;
      Py.Sliced 1 2; Py.Matched 1 1; Py.Merged;
      Py.Sliced 2 3; Py.Matched 1 1; Py.Merged],
     inr {| scores := [[f64 4; f64 3]]; simulation_indices := [[1; 0]] |}) /\
  Forall (fun p =>
            (3 <> 1 /\ p = (0, f64 1)) \/
            (0 <= fst p < 3 /\
             snd p = nth (Z.to_nat (fst p)) [f64 3; f64 4; f64 0] S754_nan))
    [(1, f64 4); (0, f64 3)].
Proof.
  assert (Hm : scores_per_pattern (raw_dot Numpy.float64))
    by exact (RawDot.raw_dot_scores_per_pattern Numpy.float64).
  assert (Hc : chunkwise (raw_dot Numpy.float64))
    by exact (RawDot.raw_dot_chunkwise Numpy.float64).
  assert (H : Py.run (_dictionary_indexing experimental [1%nat] dictionary3
                        (raw_dot Numpy.float64) 2 1) =
    ([Py.Sliced 0 1; Py.Matched 1 1; Py.Merged;
      Py.Sliced 1 2; Py.Matched 1 1; Py.Merged;
      Py.Sliced 2 3; Py.Matched 1 1; Py.Merged],
     inr {| scores := [[f64 4; f64 3]]; simulation_indices := [[1; 0]] |}))
    by (vm_compute; reflexivity).
  split; [exact Hm|]. split; [exact Hc|]. split; [exact H|].
  exact (proj2 (scores_belong_to_indices _ _ _ _ _ _ _ _ Hm Hc H 0%nat)).
Defined.



(** ** The order of a row on the multi-chunk branch *)

(** X14.  On the multi-chunk branch, for a metric with the sign +1 or -1 on
    float32 or float64, when the scores that the metric computes for the
    chunks are values of the dtype and none is a NaN, every row of the
    returned scores is in best-first order by the sign: non-increasing
    for +1, non-decreasing for -1. *)
Theorem multi_chunk_rows_best_first (experimental : batch) (nav : list nat)
  (dictionary : batch) (metric : SimilarityMetric) (keep_n n_per_iteration : Z)
  (t : Py.trace) (r : xmap) :
  sign metric = 1 \/ sign metric = -1 ->
  dtype metric = Numpy.float32 \/ dtype metric = Numpy.float64 ->
  Py.run (_dictionary_indexing experimental nav dictionary metric
            keep_n n_per_iteration) = (t, inr r) ->
  Z.of_nat (length dictionary) <> n_per_iteration ->
  Forall (fun bd =>
            Forall (Forall (fun s => representable (dtype metric) s /\
                                     Numpy.is_nan s = false))
              (metric_match metric (prepare_experimental metric experimental)
                 (prepare_dictionary metric
                    (Py.slice dictionary (fst bd) (snd bd)))))
    (sliced t) ->
  Forall (fun row => best_first (sign metric) row = true) (scores r).
Proof.
  intros Hs Ht H Hne Hchunks.
  destruct (Returns.driver_returns_arguments _ _ _ _ _ _ _ _ H) as (Hk & Hn).
  unfold Py.run in H.
  rewrite EarlyExit.driver_multi_chunk in H by lia.
  pose proof H as H'.
  apply Returns.multi_chunk_path_returns in H; [|exact Hn].
  destruct H as (Hk0 & first_chunks & last_start & Hb & _ & _ & _ & _ & Hloop).
  cbv zeta in Hb, Hloop.
  rewrite (Slices.multi_chunk_path_slices _ _ _ _ _ _ _ _ _ _ Hb H') in Hchunks.
  set (Q := fun s => representable (dtype metric) s /\ Numpy.is_nan s = false) in *.
  assert (Hinv :
    Forall (Forall Q) (scores r) /\
    Forall (fun row =>
              ascending (Numpy.int_mul (dtype metric) (- sign metric) row) = true)
      (scores r)).
  { refine (Merging.for_each_invariant
              (fun acc =>
                 Forall (Forall Q) (scores acc) /\
                 Forall (fun row =>
                           ascending (Numpy.int_mul (dtype metric) (- sign metric)
                                        row) = true) (scores acc))
              _ _ _ _ Hchunks _ _ _ _ _ Hloop).
    - intros acc [start stop] t0 t1 acc' Hx [Hacc _] Hm. cbn [fst snd] in Hx. split.
      + exact (Merging.merge_chunk_scores Q _ _ _ _ _ _ _ _ _ _ Hx Hacc Hm).
      + exact (Merging.merge_chunk_ordered _ _ _ _ _ _ _ _ _ Hk0 Hm).
    - unfold Returns.initial. cbn [scores]. split.
      + apply Forall_forall. intros row Hrow. apply repeat_spec in Hrow. subst row.
        apply Forall_forall. intros s Hs'. apply repeat_spec in Hs'. subst s.
        apply MergeOrder.fill_is_a_number; assumption.
      + apply Forall_forall. intros row Hrow. apply repeat_spec in Hrow. subst row.
        unfold Numpy.int_mul. rewrite map_repeat.
        apply MergeOrder.chain_repeat.
        rewrite MergeOrder.sort_lt_irrefl. reflexivity. }
  destruct Hinv as [HQ Hasc].
  apply Forall_forall. intros row Hrow.
  rewrite Forall_forall in HQ, Hasc.
  apply (MergeOrder.keys_ascending_best_first (dtype metric));
    [assumption|assumption|apply HQ; exact Hrow|apply Hasc; exact Hrow].
Qed.


(** The dot product without normalization on three simulated patterns
    in chunks of one: the scores 4 and 3, in this order. *)
Lemma multi_chunk_rows_best_first_witness :
  (sign (raw_dot Numpy.float64) = 1 \/ sign (raw_dot Numpy.float64) = -1) /\
  (dtype (raw_dot Numpy.float64) = Numpy.float32 \/
   dtype (raw_dot Numpy.float64) = Numpy.float64) /\
  Py.run (_dictionary_indexing experimental [1%nat] dictionary3
            (raw_dot Numpy.float64) 2 1) =
    ([Py.Sliced 0 1; Py.Matched 1 1; Py.Merged;
      Py.Sliced 1 2; Py.Matched 1 1; Py.Merged;
      Py.Sliced 2 3; Py.Matched 1 1; Py.Merged],
     inr {| scores := [[f64 4; f64 3]]; simulation_indices := [[1; 0]] |}) /\
  Z.of_nat (length dictionary3) <> 1 /\
  Forall (fun row => best_first 1 row = true) [[f64 4; f64 3]].
Proof.
  assert (Hs : sign (raw_dot Numpy.float64) = 1 \/ sign (raw_dot Numpy.float64) = -1)
    by (left; reflexivity).
  assert (Ht : dtype (raw_dot Numpy.float64) = Numpy.float32 \/
               dtype (raw_dot Numpy.float64) = Numpy.float64)
    by (right; reflexivity).
  assert (H : Py.run (_dictionary_indexing experimental [1%nat] dictionary3
                        (raw_dot Numpy.float64) 2 1) =
    ([Py.Sliced 0 1; Py.Matched 1 1; Py.Merged;
      Py.Sliced 1 2; Py.Matched 1 1; Py.Merged;
      Py.Sliced 2 3; Py.Matched 1 1; Py.Merged],
     inr {| scores := [[f64 4; f64 3]]; simulation_indices := [[1; 0]] |}))
    by (vm_compute; reflexivity).
  assert (Hne : Z.of_nat (length dictionary3) <> 1) by (cbn; lia).
  split; [exact Hs|]. split; [exact Ht|]. split; [exact H|]. split; [exact Hne|].
  apply (multi_chunk_rows_best_first _ _ _ _ _ _ _ _ Hs Ht H Hne).
  repeat constructor; vm_compute; reflexivity.
Defined.

(** X15.  On the multi-chunk branch, for a metric with the sign +1 or -1 on
    float32 or float64: when every score that the metric computes for
    the chunks is a number of the dtype and strictly worse than the
    initial score [metric.sign] (below 1 for the sign +1, above -1 for
    the sign -1), the call returns the initial arrays: every score is
    [metric.sign] and every index is 0, whatever the dictionary holds.
    No score of a chunk ties with the initial score, so the keys
    [-sign * score] of the initial entries are strictly before the key
    of every match, and the first [keep_n] positions of the sort are
    those of the initial entries in whichever order a sort leaves equal
    keys. *)
Theorem initial_entries_survive (experimental : batch) (nav : list nat)
  (dictionary : batch) (metric : SimilarityMetric) (keep_n n_per_iteration : Z)
  (t : Py.trace) (r : xmap) :
  sign metric = 1 \/ sign metric = -1 ->
  dtype metric = Numpy.float32 \/ dtype metric = Numpy.float64 ->
  Py.run (_dictionary_indexing experimental nav dictionary metric
            keep_n n_per_iteration) = (t, inr r) ->
  Z.of_nat (length dictionary) <> n_per_iteration ->
  let initial_score := Numpy.of_int (dtype metric) (sign metric) in
  Forall (fun bd =>
            Forall (Forall (fun s => representable (dtype metric) s /\
                                     (if 0 <? sign metric
                                      then SFltb s initial_score
                                      else SFltb initial_score s) = true))
              (metric_match metric (prepare_experimental metric experimental)
                 (prepare_dictionary metric
                    (Py.slice dictionary (fst bd) (snd bd)))))
    (sliced t) ->
  let columns := Z.to_nat (Z.min keep_n (Z.of_nat (length dictionary))) in
  let rows := fold_right Nat.mul 1%nat nav in
  scores r = repeat (repeat initial_score columns) rows /\
  simulation_indices r = repeat (repeat 0 columns) rows.
Proof.
  intros Hs Ht H Hne initial_score Hstrict columns rows.
  assert (Hchunks :
    Forall (fun bd =>
              Forall (Forall (fun s => representable (dtype metric) s /\
                                       best_first (sign metric) [initial_score; s]
                                         = true))
                (metric_match metric (prepare_experimental metric experimental)
                   (prepare_dictionary metric
                      (Py.slice dictionary (fst bd) (snd bd)))))
      (sliced t)).
  { eapply Forall_impl; [|exact Hstrict]. cbn beta. intros bd Hbd.
    eapply Forall_impl; [|exact Hbd]. cbn beta. intros row Hrow.
    eapply Forall_impl; [|exact Hrow]. cbn beta. intros s [Hrep Hlt].
    split; [exact Hrep|]. cbn [best_first]. rewrite andb_true_r.
    destruct (0 <? sign metric); apply IeeeMul.ltb_leb; exact Hlt. }
  clear Hstrict.
  destruct (Returns.driver_returns_arguments _ _ _ _ _ _ _ _ H) as (Hk & Hn).
  unfold Py.run in H.
  rewrite EarlyExit.driver_multi_chunk in H by lia.
  pose proof H as H'.
  apply Returns.multi_chunk_path_returns in H; [|exact Hn].
  destruct H as (Hk0 & first_chunks & last_start & Hb & _ & _ & _ & _ & Hloop).
  cbv zeta in Hb, Hloop.
  rewrite (Slices.multi_chunk_path_slices _ _ _ _ _ _ _ _ _ _ Hb H') in Hchunks.
  assert (Hinv : r = Returns.initial metric rows
                       (Z.min keep_n (Z.of_nat (length dictionary)))).
  { refine (Merging.for_each_invariant
              (fun acc => acc = Returns.initial metric rows
                                  (Z.min keep_n (Z.of_nat (length dictionary))))
              _ _ _ _ Hchunks _ _ _ _ _ Hloop).
    - intros acc [start stop] t0 t1 acc' Hx -> Hm. cbn [fst snd] in Hx.
      exact (MergeOrder.merge_chunk_keeps_initial _ _ _ _ _ _ _ _ _ _
               Ht Hs Hk0 Hx Hm).
    - reflexivity. }
  rewrite Hinv. split; reflexivity.
Qed.

(** The normalized dot product on three simulated patterns in chunks of
    one: the scores 0.6, 0.8 and 0 are below 1. *)
Lemma initial_entries_survive_witness :
  (sign ndp64 = 1 \/ sign ndp64 = -1) /\
  (dtype ndp64 = Numpy.float32 \/ dtype ndp64 = Numpy.float64) /\
  Py.run (_dictionary_indexing experimental [1%nat] dictionary3 ndp64 1 1) =
    ([Py.Sliced 0 1; Py.Matched 1 1; Py.Merged;
      Py.Sliced 1 2; Py.Matched 1 1; Py.Merged;
      Py.Sliced 2 3; Py.Matched 1 1; Py.Merged],
     inr {| scores := [[f64 1]]; simulation_indices := [[0]] |}) /\
  Z.of_nat (length dictionary3) <> 1 /\
  [[f64 1]] = repeat (repeat (Numpy.of_int (dtype ndp64) (sign ndp64)) 1) 1 /\
  [[0]] = repeat (repeat 0 1) 1.
Proof.
  assert (Hs : sign ndp64 = 1 \/ sign ndp64 = -1) by (left; reflexivity).
  assert (Ht : dtype ndp64 = Numpy.float32 \/ dtype ndp64 = Numpy.float64)
    by (right; reflexivity).
  assert (H : Py.run (_dictionary_indexing experimental [1%nat] dictionary3
                        ndp64 1 1) =
    ([Py.Sliced 0 1; Py.Matched 1 1; Py.Merged;
      Py.Sliced 1 2; Py.Matched 1 1; Py.Merged;
      Py.Sliced 2 3; Py.Matched 1 1; Py.Merged],
     inr {| scores := [[f64 1]]; simulation_indices := [[0]] |}))
    by (vm_compute; reflexivity).
  assert (Hne : Z.of_nat (length dictionary3) <> 1) by (cbn; lia).
  split; [exact Hs|]. split; [exact Ht|]. split; [exact H|]. split; [exact Hne|].
  apply (initial_entries_survive _ _ _ _ _ _ _ _ Hs Ht H Hne).
  repeat constructor; vm_compute; reflexivity.
Defined.


(** ** The signal mask *)

(** X16.  With a signal mask, the normalized dot product keeps the pixels
    where the mask is set and drops the others before anything is
    normalized: every prepared pattern has as many pixels as the mask
    has set entries, and two sets of patterns that agree wherever the
    mask is set get the same scores, whatever the other pixels hold. *)
Theorem masked_pixels_have_no_influence (t : Numpy.dtype) (mask : list bool)
  (experimental experimental' dictionary dictionary' : batch) :
  Forall2 (agree_on mask) experimental experimental' ->
  Forall2 (agree_on mask) dictionary dictionary' ->
  let m := metric t (Some mask) in
  metric_match m (prepare_experimental m experimental)
    (prepare_dictionary m dictionary) =
  metric_match m (prepare_experimental m experimental')
    (prepare_dictionary m dictionary') /\
  Forall (fun p => length p = count_occ bool_dec mask true)
    (prepare_experimental m experimental) /\
  Forall (fun p => length p = count_occ bool_dec mask true)
    (prepare_dictionary m dictionary).
Proof.
  intros He Hd m. unfold m.
  cbn [metric_match prepare_experimental prepare_dictionary metric].
  split.
  { rewrite (MaskLemmas.prepare_all_experimental_agree t mask _ _ He).
    rewrite (MaskLemmas.prepare_chunk_simulated_agree t mask _ _ Hd).
    reflexivity. }
  split.
  - unfold prepare_all_experimental, apply_mask.
    rewrite !Forall_map. clear Hd.
    induction He as [|p q P Q (Hp & _ & _) _ IH]; constructor; [|exact IH].
    unfold Numpy.div_scalar. rewrite length_map.
    apply MaskLemmas.length_select_columns. rewrite length_map. exact Hp.
  - unfold prepare_chunk_simulated, _prepare_simulated_patterns1d, apply_mask.
    rewrite !Forall_map. clear He.
    induction Hd as [|p q P Q (Hp & _ & _) _ IH]; constructor; [|exact IH].
    unfold _normalize_pattern1d, Numpy.div_scalar. rewrite length_map.
    apply MaskLemmas.length_select_columns. exact Hp.
Qed.

(** The experimental pattern (1, 0) and the pattern (1, 9) under the
    mask that keeps the first pixel only. *)
Lemma masked_pixels_have_no_influence_witness :
  Forall2 (agree_on [true; false]) experimental [[f64 1; f64 9]] /\
  Forall2 (agree_on [true; false]) dictionary dictionary /\
  metric_match (metric Numpy.float64 (Some [true; false]))
    (prepare_experimental (metric Numpy.float64 (Some [true; false])) experimental)
    (prepare_dictionary (metric Numpy.float64 (Some [true; false])) dictionary) =
  metric_match (metric Numpy.float64 (Some [true; false]))
    (prepare_experimental (metric Numpy.float64 (Some [true; false]))
       [[f64 1; f64 9]])
    (prepare_dictionary (metric Numpy.float64 (Some [true; false])) dictionary).
Proof.
  assert (He : Forall2 (agree_on [true; false]) experimental [[f64 1; f64 9]]).
  { repeat constructor. intros [|[|i]] Hi; try reflexivity; discriminate Hi. }
  assert (Hd : Forall2 (agree_on [true; false]) dictionary dictionary).
  { repeat constructor. }
  split; [exact He|]. split; [exact Hd|].
  exact (proj1 (masked_pixels_have_no_influence Numpy.float64 [true; false]
                  experimental [[f64 1; f64 9]] dictionary dictionary He Hd)).
Defined.
(** ** No simulated pattern twice *)

(** X17.  For a metric that returns one score per simulated pattern, no
    simulated pattern is returned twice for one experimental pattern: in
    every row of [simulation_indices] of a call that returns, an index
    other than 0 stands at one place only, and on the single pass so does
    the index 0.  On the multi-chunk branch the index 0 can stand at
    several places: it is the index of the initial entries too. *)
Theorem no_pattern_returned_twice (experimental : batch) (nav : list nat)
  (dictionary : batch) (metric : SimilarityMetric) (keep_n n_per_iteration : Z)
  (t : Py.trace) (r : xmap) :
  scores_per_pattern metric ->
  Py.run (_dictionary_indexing experimental nav dictionary metric
            keep_n n_per_iteration) = (t, inr r) ->
  Forall once (simulation_indices r) /\
  (Z.of_nat (length dictionary) = n_per_iteration ->
   Forall (@NoDup Z) (simulation_indices r)) /\
  Py.run (_dictionary_indexing Examples.experimental [1%nat] Examples.dictionary
            ndp64 5 1) =
    ([Py.Sliced 0 1; Py.Matched 1 1; Py.Merged;
      Py.Sliced 1 2; Py.Matched 1 1; Py.Merged],
     inr {| scores := [[f64 1; f64 1]]; simulation_indices := [[0; 0]] |}).
Proof.
  intros Hmetric H.
  destruct (DistinctLoop.driver_indices_once _ _ _ _ _ _ _ _ Hmetric H) as [H1 H2].
  split; [exact H1|]. split; [exact H2|].
  vm_compute. reflexivity.
Qed.

(** The dot product without normalization on three simulated patterns
    in chunks of one: the indices 1 and 0. *)
Lemma no_pattern_returned_twice_witness :
  scores_per_pattern (raw_dot Numpy.float64) /\
  Py.run (_dictionary_indexing experimental [1%nat] dictionary3
            (raw_dot Numpy.float64) 2 1) =
    ([Py.Sliced 0 1; Py.Matched 1 1; Py.Merged;
      Py.Sliced 1 2; Py.Matched 1 1; Py.Merged;
      Py.Sliced 2 3; Py.Matched 1 1; Py.Merged],
     inr {| scores := [[f64 4; f64 3]]; simulation_indices := [[1; 0]] |}) /\
  Forall once [[1; 0]].
Proof.
  assert (Hm : scores_per_pattern (raw_dot Numpy.float64))
    by exact (RawDot.raw_dot_scores_per_pattern Numpy.float64).
  assert (H : Py.run (_dictionary_indexing experimental [1%nat] dictionary3
                        (raw_dot Numpy.float64) 2 1) =
    ([Py.Sliced 0 1; Py.Matched 1 1; Py.Merged;
      Py.Sliced 1 2; Py.Matched 1 1; Py.Merged;
      Py.Sliced 2 3; Py.Matched 1 1; Py.Merged],
     inr {| scores := [[f64 4; f64 3]]; simulation_indices := [[1; 0]] |}))
    by (vm_compute; reflexivity).
  split; [exact Hm|]. split; [exact H|].
  exact (proj1 (no_pattern_returned_twice _ _ _ _ _ _ _ _ Hm H)).
Defined.
